(** * INGInious custom-problem plugin: boxes, validation and input shaping

    A shallow embedding of [inginious-problems-custom/__init__.py]: the box
    classes ([BasicBox], [TextBox], [FileBox], [InputBox], [MultilineBox]
    and their displayable variants), the problem class that owns them
    ([CustomProblem], [DisplayableCustomProblem]), and the fragment of
    Python's dynamic semantics their methods rely on.

    Python objects are values of [pyval]; a [dict] is an association list
    in insertion order; an exception is a value of [pyexc].  Methods that
    only read are functions into [outcome]; methods that mutate the
    submission mapping in place run in the monad [M], whose store is that
    mapping and survives a raised exception, as the dict object does. *)

From Stdlib Require Import ZArith List String Ascii Bool Lia.
From Stdlib Require Strings.Byte.
From Stdlib Require Import DecimalString DecimalZ DecimalPos.
Import ListNotations.
Local Open Scope string_scope.
Local Open Scope Z_scope.
Set Warnings "-register-all".

(** ** Python values *)

(** The values a decoded task definition or a submission mapping holds.
    [VObj] is an object that exposes attributes and nothing else (no
    [__len__], [__getitem__], [__iter__]); it stands for the raw
    uploaded-file object of the web layer.  A [str] is a sequence of code
    points below 256.  Floating-point numbers are not represented. *)
Inductive pyval : Type :=
| VNone
| VBool (b : bool)
| VInt (z : Z)
| VStr (s : string)
| VBytes (b : list Byte.byte)
| VList (l : list pyval)
| VDict (d : list (string * pyval))
| VObj (attrs : list (string * pyval)).

(** A [dict] with [str] keys, in insertion order. *)
Definition pydict : Type := list (string * pyval).

Inductive pyexc : Type :=
| TypeError
| KeyError
| AttributeError
| ValueError
| PyException (msg : string).

Inductive outcome (A : Type) : Type :=
| Return (a : A)
| Raise (e : pyexc).
Arguments Return {A} a.
Arguments Raise {A} e.

Definition obind {A B} (c : outcome A) (k : A -> outcome B) : outcome B :=
  match c with
  | Return a => k a
  | Raise e => Raise e
  end.

Declare Scope py_scope.
Delimit Scope py_scope with py.
Notation "x <~ c ;; k" := (obind c (fun x => k))
  (at level 61, c at next level, right associativity) : py_scope.

(** ** Dictionaries *)

(** [k in d] *)
Fixpoint dict_mem (k : string) (d : pydict) : bool :=
  match d with
  | [] => false
  | (k', _) :: d' => if String.eqb k k' then true else dict_mem k d'
  end.

(** [d.get(k)], [None] standing for absence. *)
Fixpoint dict_lookup (k : string) (d : pydict) : option pyval :=
  match d with
  | [] => None
  | (k', v) :: d' => if String.eqb k k' then Some v else dict_lookup k d'
  end.

(** [d[k] = v]: an existing key keeps its position, a new key goes last. *)
Fixpoint dict_set (k : string) (v : pyval) (d : pydict) : pydict :=
  match d with
  | [] => [(k, v)]
  | (k', v') :: d' =>
      if String.eqb k k' then (k', v) :: d' else (k', v') :: dict_set k v d'
  end.

(** [d.get(k, default)] *)
Definition dict_get (d : pydict) (k : string) (default : pyval) : pyval :=
  match dict_lookup k d with
  | Some v => v
  | None => default
  end.

(** [d[k]] *)
Definition dict_getitem (d : pydict) (k : string) : outcome pyval :=
  match dict_lookup k d with
  | Some v => Return v
  | None => Raise KeyError
  end.

(** ** Strings *)

Definition str_len (s : string) : Z := Z.of_nat (String.length s).

(** [s.endswith(suffix)] for one suffix. *)
Definition str_endswith (s suffix : string) : bool :=
  let n := String.length s in
  let m := String.length suffix in
  (m <=? n)%nat && String.eqb (substring (n - m) m s) suffix.

(** [needle in hay] on two [str]. *)
Fixpoint str_contains (needle hay : string) : bool :=
  String.prefix needle hay ||
  match hay with
  | EmptyString => false
  | String _ hay' => str_contains needle hay'
  end.

Fixpoint bytes_prefix (p b : list Byte.byte) : bool :=
  match p, b with
  | [], _ => true
  | x :: p', y :: b' => Byte.eqb x y && bytes_prefix p' b'
  | _ :: _, [] => false
  end.

(** [b.endswith(suffix)] on two [bytes]. *)
Definition bytes_endswith (b suffix : list Byte.byte) : bool :=
  bytes_prefix (rev suffix) (rev b).

(** ** Built-in operations *)

(** Truth value of an object, as [if], [or] and [not] test it. *)
Definition py_truthy (v : pyval) : bool :=
  match v with
  | VNone => false
  | VBool b => b
  | VInt z => negb (z =? 0)
  | VStr s => negb (String.eqb s "")
  | VBytes b => match b with [] => false | _ => true end
  | VList l => match l with [] => false | _ => true end
  | VDict d => match d with [] => false | _ => true end
  | VObj _ => true
  end.

(** [a or b] *)
Definition py_or (a b : pyval) : pyval := if py_truthy a then a else b.

(** [len(v)] *)
Definition py_len (v : pyval) : outcome Z :=
  match v with
  | VStr s => Return (str_len s)
  | VBytes b => Return (Z.of_nat (List.length b))
  | VList l => Return (Z.of_nat (List.length l))
  | VDict d => Return (Z.of_nat (List.length d))
  | VNone | VBool _ | VInt _ | VObj _ => Raise TypeError
  end.

(** [v[k]] with a [str] subscript: only a dict accepts one. *)
Definition py_getitem (v : pyval) (k : string) : outcome pyval :=
  match v with
  | VDict d => dict_getitem d k
  | _ => Raise TypeError
  end.

(** [v.name] for a data attribute [name]: only [VObj] carries any. *)
Definition py_getattr (v : pyval) (name : string) : outcome pyval :=
  match v with
  | VObj attrs =>
      match dict_lookup name attrs with
      | Some a => Return a
      | None => Raise AttributeError
      end
  | _ => Raise AttributeError
  end.

(** [k in v] for a [str] [k]. *)
Definition py_in (k : string) (v : pyval) : outcome bool :=
  match v with
  | VDict d => Return (dict_mem k d)
  | VStr s => Return (str_contains k s)
  | VList l =>
      Return (existsb (fun e => match e with
                                | VStr s => String.eqb s k
                                | _ => false
                                end) l)
  | VNone | VBool _ | VInt _ | VBytes _ | VObj _ => Raise TypeError
  end.

(** The integer an instance of [int] denotes; [bool] is a subclass of
    [int], with [True] 1 and [False] 0.  [None] when [isinstance(v, int)]
    is false. *)
Definition int_value (v : pyval) : option Z :=
  match v with
  | VInt z => Some z
  | VBool b => Some (if b then 1 else 0)
  | _ => None
  end.

(** [n > v] for an [int] [n]. *)
Definition py_int_gt (n : Z) (v : pyval) : outcome bool :=
  match int_value v with
  | Some z => Return (n >? z)
  | None => Raise TypeError
  end.

(** [tuple(v)] *)
Definition py_tuple (v : pyval) : outcome (list pyval) :=
  match v with
  | VList l => Return l
  | VStr s =>
      Return (map (fun c => VStr (String c EmptyString)) (list_ascii_of_string s))
  | VBytes b => Return (map (fun x => VInt (Z.of_N (Byte.to_N x))) b)
  | VDict d => Return (map (fun kv => VStr (fst kv)) d)
  | VNone | VBool _ | VInt _ | VObj _ => Raise TypeError
  end.

(** [s.endswith(t)] for a tuple [t]: the elements are tried in order; one
    that is not a [str] raises, unless an earlier one already matched. *)
Fixpoint str_endswith_tuple (s : string) (t : list pyval) : outcome bool :=
  match t with
  | [] => Return false
  | VStr suffix :: t' =>
      if str_endswith s suffix then Return true else str_endswith_tuple s t'
  | _ :: _ => Raise TypeError
  end.

Fixpoint bytes_endswith_tuple (b : list Byte.byte) (t : list pyval) : outcome bool :=
  match t with
  | [] => Return false
  | VBytes suffix :: t' =>
      if bytes_endswith b suffix then Return true else bytes_endswith_tuple b t'
  | _ :: _ => Raise TypeError
  end.

(** [v.endswith]: the bound method, looked up before its argument is
    evaluated.  [str] and [bytes] have it, nothing else here does. *)
Definition py_endswith (v : pyval) : outcome (list pyval -> outcome bool) :=
  match v with
  | VStr s => Return (str_endswith_tuple s)
  | VBytes b => Return (bytes_endswith_tuple b)
  | _ => Raise AttributeError
  end.

(** [isinstance(v, int) and v > 0], with the integer when it holds. *)
Definition positive_int (v : pyval) : option Z :=
  match int_value v with
  | Some z => if z >? 0 then Some z else None
  | None => None
  end.

(** [boxData["type"] == name] *)
Definition type_is (ty : pyval) (name : string) : bool :=
  match ty with
  | VStr s => String.eqb s name
  | _ => false
  end.

(** ["..." + v]: concatenation onto a [str] needs a [str]. *)
Definition str_add (prefix : string) (v : pyval) : outcome string :=
  match v with
  | VStr s => Return (prefix ++ s)
  | _ => Raise TypeError
  end.

(** ** Numeric literals *)

(** [int(s)] and [float(s)] are called for their exceptions only: the
    models below decide whether the text is accepted.  The interpreter's
    optional cap on the number of digits of a decimal literal is left out. *)

Definition is_digit (c : ascii) : bool :=
  let n := nat_of_ascii c in ((48 <=? n) && (n <=? 57))%nat.

(** Whitespace skipped around a literal held in [bytes]: tab, line feed,
    vertical tab, form feed, carriage return and space. *)
Definition is_space_bytes (c : ascii) : bool :=
  let n := nat_of_ascii c in (((9 <=? n) && (n <=? 13)) || (n =? 32))%nat.

(** Around a literal held in [str], NEL and the no-break space count too. *)
Definition is_space_str (c : ascii) : bool :=
  let n := nat_of_ascii c in (is_space_bytes c || (n =? 133) || (n =? 160))%nat.

Definition to_lower (c : ascii) : ascii :=
  let n := nat_of_ascii c in
  if ((65 <=? n) && (n <=? 90))%nat then ascii_of_nat (n + 32) else c.

Fixpoint drop_while (p : ascii -> bool) (l : list ascii) : list ascii :=
  match l with
  | [] => []
  | c :: l' => if p c then drop_while p l' else l
  end.

Definition strip (p : ascii -> bool) (l : list ascii) : list ascii :=
  rev (drop_while p (rev (drop_while p l))).

Definition is_sign (c : ascii) : bool :=
  Ascii.eqb c "+"%char || Ascii.eqb c "-"%char.

(** An optional sign. *)
Definition skip_sign (l : list ascii) : list ascii :=
  match l with
  | c :: l' => if is_sign c then l' else l
  | [] => []
  end.

(** What follows the first digit of a digit part: digits, each optionally
    preceded by one underscore.  Returns the unread rest. *)
Fixpoint digitpart_tail (l : list ascii) : list ascii :=
  match l with
  | c :: l' =>
      if is_digit c then digitpart_tail l'
      else if Ascii.eqb c "_"%char then
        match l' with
        | d :: l'' => if is_digit d then digitpart_tail l'' else l
        | [] => l
        end
      else l
  | [] => []
  end.

(** [digit ("_"? digit)*]; [None] when the text does not start with a digit. *)
Definition digitpart (l : list ascii) : option (list ascii) :=
  match l with
  | c :: l' => if is_digit c then Some (digitpart_tail l') else None
  | [] => None
  end.

(** Base-10 integer literal: whitespace, optional sign, digit part,
    whitespace. *)
Definition int_literal (space : ascii -> bool) (l : list ascii) : bool :=
  match digitpart (skip_sign (strip space l)) with
  | Some [] => true
  | _ => false
  end.

Definition ascii_list_eqb (a b : list ascii) : bool :=
  String.eqb (string_of_list_ascii a) (string_of_list_ascii b).

Definition is_inf_or_nan (l : list ascii) : bool :=
  let w := map to_lower l in
  ascii_list_eqb w (list_ascii_of_string "inf")
  || ascii_list_eqb w (list_ascii_of_string "infinity")
  || ascii_list_eqb w (list_ascii_of_string "nan").

(** An optional exponent [("e" | "E") sign? digitpart]; [None] when an
    exponent is begun and not completed. *)
Definition exponent_opt (l : list ascii) : option (list ascii) :=
  match l with
  | c :: l' =>
      if Ascii.eqb (to_lower c) "e"%char then digitpart (skip_sign l') else Some l
  | [] => Some []
  end.

(** [digitpart? "." digitpart | digitpart "."?], then the exponent. *)
Definition decimal_literal (l : list ascii) : option (list ascii) :=
  match digitpart l with
  | Some ("."%char :: r) =>
      match digitpart r with
      | Some r' => exponent_opt r'
      | None => exponent_opt r
      end
  | Some r => exponent_opt r
  | None =>
      match l with
      | "."%char :: r =>
          match digitpart r with
          | Some r' => exponent_opt r'
          | None => None
          end
      | _ => None
      end
  end.

(** Floating-point literal: whitespace, optional sign, then [inf],
    [infinity], [nan] (in any case) or a decimal literal, whitespace. *)
Definition float_literal (space : ascii -> bool) (l : list ascii) : bool :=
  let body := skip_sign (strip space l) in
  is_inf_or_nan body ||
  match decimal_literal body with
  | Some [] => true
  | _ => false
  end.

Definition ascii_of_bytes (b : list Byte.byte) : list ascii :=
  map ascii_of_byte b.

(** [int(v)], for its exception. *)
Definition py_int (v : pyval) : outcome unit :=
  match v with
  | VInt _ | VBool _ => Return tt
  | VStr s =>
      if int_literal is_space_str (list_ascii_of_string s)
      then Return tt else Raise ValueError
  | VBytes b =>
      if int_literal is_space_bytes (ascii_of_bytes b)
      then Return tt else Raise ValueError
  | VNone | VList _ | VDict _ | VObj _ => Raise TypeError
  end.

(** [float(v)], for its exception. *)
Definition py_float (v : pyval) : outcome unit :=
  match v with
  | VInt _ | VBool _ => Return tt
  | VStr s =>
      if float_literal is_space_str (list_ascii_of_string s)
      then Return tt else Raise ValueError
  | VBytes b =>
      if float_literal is_space_bytes (ascii_of_bytes b)
      then Return tt else Raise ValueError
  | VNone | VList _ | VDict _ | VObj _ => Raise TypeError
  end.

(** ** What the plugin consumes *)

(** Supplied by the interpreter. *)
Class Interpreter : Type := {
  (** [sys.getsizeof]: the size in memory of an object, in bytes. *)
  sys_getsizeof : pyval -> Z;
  (** [json.loads(., object_pairs_hook=OrderedDict)]; objects decode to
      dicts that keep the order of their members. *)
  json_loads : pyval -> outcome pyval;
  (** [json.dumps] *)
  json_dumps : pyval -> outcome string
}.

(** Supplied by the INGInious host. *)
Class Host : Type := {
  (** [inginious.common.base.id_checker] *)
  id_checker : string -> bool;
  (** [Problem.__init__(self, problemid, content, translations, taskfs)],
      which may reject its arguments. *)
  Problem_init : string -> pydict -> outcome unit;
  (** [Problem.parse_problem(problem_content)] *)
  Problem_parse_problem : pydict -> outcome pydict
}.

(** ** Code that mutates the submission mapping *)

(** The store is the one dict object the caller passed: an assignment made
    before an exception is raised stays made. *)
Definition M (A : Type) : Type := pydict -> outcome A * pydict.

Definition ret {A} (a : A) : M A := fun d => (Return a, d).

Definition bind {A B} (c : M A) (k : A -> M B) : M B :=
  fun d =>
    match c d with
    | (Return a, d') => k a d'
    | (Raise e, d') => (Raise e, d')
    end.

Definition lift {A} (c : outcome A) : M A := fun d => (c, d).

(** [try: body except: handler] (a bare [except] catches everything). *)
Definition try_except {A} (body handler : M A) : M A :=
  fun d =>
    match body d with
    | (Return a, d') => (Return a, d')
    | (Raise _, d') => handler d'
    end.

(** [k in task_input] *)
Definition contains (k : string) : M bool := fun d => (Return (dict_mem k d), d).

(** [task_input[k]] *)
Definition load (k : string) : M pyval := fun d => (dict_getitem d k, d).

(** [task_input[k] = v] *)
Definition store (k : string) (v : pyval) : M unit :=
  fun d => (Return tt, dict_set k v d).

Notation "x <- c ;; k" := (bind c (fun x => k))
  (at level 61, c at next level, right associativity) : py_scope.
Notation "c ;; k" := (bind c (fun _ => k))
  (at level 61, right associativity) : py_scope.

(** A statement of a method body either falls through to the next one
    ([None]) or makes the method return ([Some]). *)
Definition stmt : Type := M (option bool).

Definition pass : stmt := ret None.
Definition return_ (b : bool) : stmt := ret (Some b).

(** [s] followed by [k]. *)
Definition seq (s k : stmt) : stmt :=
  bind s (fun r => match r with Some b => ret (Some b) | None => k end).

(** A method with body [s], as its callers see it.  Every caller below
    tests the result for truth, so a body that fell off its end (returning
    [None]) would count as false; no body below does. *)
Definition method (s : stmt) : M bool :=
  bind s (fun r => ret (match r with Some b => b | None => false end)).

Notation "s ;;; k" := (seq s k)
  (at level 62, right associativity) : py_scope.

Local Open Scope py_scope.

(** ** Boxes *)

Module BasicBox.

(** [_problem] is the owning problem; a box only ever reads its id, which
    is what is kept. *)
Record t : Type := { _id : string; _problem : string }.

Definition get_complete_id (self : t) : string :=
  let pid := _problem self in
  let bid := _id self in
  if negb (String.eqb bid "") then pid ++ "/" ++ bid else pid.

Definition input_is_consistent (self : t)
    (default_allowed_extension default_max_size : pyval) : M bool :=
  try_except (contains (get_complete_id self)) (ret false).

Definition __init__ `{Host} (problem boxid : string) : outcome t :=
  if negb (id_checker boxid) && negb (String.eqb boxid "")
  then Raise (PyException ("Invalid box _id: " ++ boxid))
  else Return {| _id := boxid; _problem := problem |}.

End BasicBox.

Module TextBox.

Record t : Type := { base : BasicBox.t; _content : pyval }.

Definition get_type (self : t) : string := "text".

Definition input_is_consistent (self : t)
    (default_allowed_extension default_max_size : pyval) : M bool :=
  ret true.

Definition __init__ `{Host} (problem boxid : string) (boxData : pydict) : outcome t :=
  b <~ BasicBox.__init__ problem boxid ;;
  if negb (dict_mem "content" boxData)
  then Raise (PyException ("Box _id " ++ boxid ++ " with type=text do not have content."))
  else
    c <~ dict_getitem boxData "content" ;;
    Return {| base := b; _content := c |}.

End TextBox.

Module FileBox.

Record t : Type := {
  base : BasicBox.t;
  _allowed_exts : pyval;
  _max_size : pyval
}.

Definition get_type (self : t) : string := "file".

Definition input_is_consistent `{Interpreter} (self : t)
    (default_allowed_extension default_max_size : pyval) : M bool :=
  let key := BasicBox.get_complete_id (base self) in
  method (
    (ok <- BasicBox.input_is_consistent (base self)
             default_allowed_extension default_max_size ;;
     if negb ok then return_ false else pass) ;;;
    try_except
      ((v <- load key ;;
        filename <- lift (py_getitem v "filename") ;;
        endswith <- lift (py_endswith filename) ;;
        exts <- lift (py_tuple (py_or (_allowed_exts self) default_allowed_extension)) ;;
        matches <- lift (endswith exts) ;;
        if negb matches then return_ false else pass) ;;;
       (v <- load key ;;
        value <- lift (py_getitem v "value") ;;
        too_big <- lift (py_int_gt (sys_getsizeof value)
                           (py_or (_max_size self) default_max_size)) ;;
        if too_big then return_ false else pass))
      (return_ false) ;;;
    return_ true).

Definition __init__ `{Host} (problem boxid : string) (boxData : pydict) : outcome t :=
  b <~ BasicBox.__init__ problem boxid ;;
  Return {| base := b;
            _allowed_exts := dict_get boxData "allowed_exts" VNone;
            _max_size := dict_get boxData "max_size" VNone |}.

End FileBox.

Module InputBox.

(** [_max_chars] is kept as the integer it denotes ([True] counts as 1). *)
Record t : Type := {
  base : BasicBox.t;
  _input_type : string;
  _default_value : string;
  _optional : pyval;
  _max_chars : Z
}.

Definition get_type (self : t) : string := "input".

Definition input_is_consistent (self : t)
    (default_allowed_extension default_max_size : pyval) : M bool :=
  let key := BasicBox.get_complete_id (base self) in
  method (
    (ok <- BasicBox.input_is_consistent (base self)
             default_allowed_extension default_max_size ;;
     if negb ok then return_ false else pass) ;;;
    (too_long <- (if negb (_max_chars self =? 0)
                  then v <- load key ;;
                       n <- lift (py_len v) ;;
                       ret (n >? _max_chars self)
                  else ret false) ;;
     if too_long then return_ false else pass) ;;;
    try_except
      (v <- load key ;;
       n <- lift (py_len v) ;;
       if n =? 0 then
         if py_truthy (_optional self)
         then store key (VStr (_default_value self)) ;; pass
         else return_ false
       else pass)
      (return_ false) ;;;
    (if String.eqb (_input_type self) "integer" then
       try_except
         (v <- load key ;; _ <- lift (py_int v) ;; pass)
         (return_ false)
     else pass) ;;;
    (if String.eqb (_input_type self) "decimal" then
       try_except
         (v <- load key ;; _ <- lift (py_float v) ;; pass)
         (return_ false)
     else pass) ;;;
    return_ true).

Definition __init__ `{Host} (problem boxid : string) (boxData : pydict) : outcome t :=
  b <~ BasicBox.__init__ problem boxid ;;
  ty <~ dict_getitem boxData "type" ;;
  td <~ (if type_is ty "input-text" then Return ("text", "")
         else if type_is ty "input-integer" then Return ("integer", "0")
         else if type_is ty "input-decimal" then Return ("decimal", "0.0")
         else msg <~ str_add "No such box type " ty ;;
              Raise (PyException (msg ++ " in box " ++ boxid))) ;;
  let optional := dict_get boxData "optional" (VBool false) in
  max_chars <~ match dict_lookup "maxChars" boxData with
               | Some v =>
                   match positive_int v with
                   | Some z => Return z
                   | None => Raise (PyException ("Invalid maxChars value in box " ++ boxid))
                   end
               | None => Return 0
               end ;;
  Return {| base := b;
            _input_type := fst td;
            _default_value := snd td;
            _optional := optional;
            _max_chars := max_chars |}.

End InputBox.

Module MultilineBox.

(** [_max_chars] and [_lines] are kept as the integers they denote. *)
Record t : Type := {
  base : BasicBox.t;
  _max_chars : Z;
  _optional : pyval;
  _lines : Z;
  _language : string
}.

Definition get_type (self : t) : string := "multiline".

Definition input_is_consistent (self : t)
    (default_allowed_extension default_max_size : pyval) : M bool :=
  let key := BasicBox.get_complete_id (base self) in
  method (
    (ok <- BasicBox.input_is_consistent (base self)
             default_allowed_extension default_max_size ;;
     if negb ok then return_ false else pass) ;;;
    (too_long <- (if negb (_max_chars self =? 0)
                  then v <- load key ;;
                       n <- lift (py_len v) ;;
                       ret (n >? _max_chars self)
                  else ret false) ;;
     if too_long then return_ false else pass) ;;;
    (v <- load key ;;
     n <- lift (py_len v) ;;
     if n =? 0 then
       if py_truthy (_optional self)
       then store key (VStr "") ;; pass
       else return_ false
     else pass) ;;;
    return_ true).

(** The character class [[a-z0-9\-_\.]] under [re.IGNORECASE]. *)
Definition is_language_char (c : ascii) : bool :=
  let n := nat_of_ascii (to_lower c) in
  (((97 <=? n) && (n <=? 122)) || is_digit c
   || (n =? 45) || (n =? 95) || (n =? 46))%nat.

(** After one character of the class: more of them, up to the end of the
    text or to a line feed that ends it (where [$] also matches). *)
Fixpoint language_tail (l : list ascii) : bool :=
  match l with
  | [] => true
  | c :: l' =>
      if is_language_char c then language_tail l'
      else Ascii.eqb c "010"%char && match l' with [] => true | _ => false end
  end.

(** [re.match(r'[a-z0-9\-_\.]+$', v, re.IGNORECASE)], as a truth value. *)
Definition language_match (v : pyval) : outcome bool :=
  match v with
  | VStr s =>
      match list_ascii_of_string s with
      | c :: l => Return (is_language_char c && language_tail l)
      | [] => Return false
      end
  | _ => Raise TypeError
  end.

Definition __init__ `{Host} (problem boxid : string) (boxData : pydict) : outcome t :=
  b <~ BasicBox.__init__ problem boxid ;;
  max_chars <~ match dict_lookup "maxChars" boxData with
               | Some v =>
                   match positive_int v with
                   | Some z => Return z
                   | None => Raise (PyException ("Invalid maxChars value in box " ++ boxid))
                   end
               | None => Return 0
               end ;;
  let optional := dict_get boxData "optional" (VBool false) in
  lines <~ match dict_lookup "lines" boxData with
           | Some v =>
               match positive_int v with
               | Some z => Return z
               | None => Raise (PyException ("Invalid lines value in box " ++ boxid))
               end
           | None => Return 8
           end ;;
  let language := dict_get boxData "language" (VStr "") in
  matched <~ language_match language ;;
  language <~ (if matched then
                 match language with
                 | VStr s => Return s
                 | _ => Raise TypeError
                 end
               else if py_truthy language then
                 msg <~ str_add "Invalid language " language ;;
                 Raise (PyException msg)
               else Return "plain") ;;
  Return {| base := b;
            _max_chars := max_chars;
            _optional := optional;
            _lines := lines;
            _language := language |}.

End MultilineBox.

(** ** Displayable boxes *)

Module DisplayableBox.

Definition adapt_input_for_backend : M unit := ret tt.

End DisplayableBox.

Module DisplayableFileBox.

(** [input_data[key] = {"filename": input_data[key].filename,
                        "value": input_data[key].value}],
    and [input_data[key] = {}] if any of it raises. *)
Definition adapt_input_for_backend (self : FileBox.t) : M unit :=
  let key := BasicBox.get_complete_id (FileBox.base self) in
  try_except
    (v <- load key ;;
     filename <- lift (py_getattr v "filename") ;;
     v <- load key ;;
     value <- lift (py_getattr v "value") ;;
     store key (VDict [("filename", filename); ("value", value)]))
    (store key (VDict [])).

End DisplayableFileBox.

(** ** Problems *)

(** A box of any of the four classes; the displayable classes add no
    field to the plain ones. *)
Inductive box : Type :=
| Text (b : TextBox.t)
| File (b : FileBox.t)
| Input (b : InputBox.t)
| Multiline (b : MultilineBox.t).

(** The [BasicBox] part of a box. *)
Definition box_base (b : box) : BasicBox.t :=
  match b with
  | Text b => TextBox.base b
  | File b => FileBox.base b
  | Input b => InputBox.base b
  | Multiline b => MultilineBox.base b
  end.

(** [box.get_complete_id()] *)
Definition box_complete_id (b : box) : string :=
  BasicBox.get_complete_id (box_base b).

(** [box.get_id()] *)
Definition box_id (b : box) : string := BasicBox._id (box_base b).

(** [box.input_is_consistent(task_input, ...)], dispatched on the class. *)
Definition box_input_is_consistent `{Interpreter} (b : box)
    (default_allowed_extension default_max_size : pyval) : M bool :=
  match b with
  | Text b => TextBox.input_is_consistent b default_allowed_extension default_max_size
  | File b => FileBox.input_is_consistent b default_allowed_extension default_max_size
  | Input b => InputBox.input_is_consistent b default_allowed_extension default_max_size
  | Multiline b =>
      MultilineBox.input_is_consistent b default_allowed_extension default_max_size
  end.

(** [box.adapt_input_for_backend(input_data)]: only the file box overrides
    the method of [DisplayableBox]. *)
Definition box_adapt_input_for_backend (b : box) : M unit :=
  match b with
  | File b => DisplayableFileBox.adapt_input_for_backend b
  | Text _ | Input _ | Multiline _ => DisplayableBox.adapt_input_for_backend
  end.

Module CustomProblem.

Record t : Type := { _id : string; _boxes : list box }.

Definition get_boxes (self : t) : list box := _boxes self.

Definition get_type : string := "custom".

(** [for box in boxes: if not box.input_is_consistent(...): return False]
    and then [return True]. *)
Fixpoint for_boxes_input_is_consistent `{Interpreter} (boxes : list box)
    (default_allowed_extension default_max_size : pyval) : M bool :=
  match boxes with
  | [] => ret true
  | b :: rest =>
      ok <- box_input_is_consistent b default_allowed_extension default_max_size ;;
      if negb ok then ret false
      else for_boxes_input_is_consistent rest default_allowed_extension default_max_size
  end.

Definition input_is_consistent `{Interpreter} (self : t)
    (default_allowed_extension default_max_size : pyval) : M bool :=
  for_boxes_input_is_consistent (_boxes self)
    default_allowed_extension default_max_size.

(** A box class, as its constructor. *)
Definition box_class : Type := string -> string -> pydict -> outcome box.

Definition InputBox_class `{Host} : box_class :=
  fun problem boxid boxData => b <~ InputBox.__init__ problem boxid boxData ;; Return (Input b).
Definition MultilineBox_class `{Host} : box_class :=
  fun problem boxid boxData =>
    b <~ MultilineBox.__init__ problem boxid boxData ;; Return (Multiline b).
Definition TextBox_class `{Host} : box_class :=
  fun problem boxid boxData => b <~ TextBox.__init__ problem boxid boxData ;; Return (Text b).
Definition FileBox_class `{Host} : box_class :=
  fun problem boxid boxData => b <~ FileBox.__init__ problem boxid boxData ;; Return (File b).

Definition _box_types `{Host} : list (string * box_class) :=
  [("input-text", InputBox_class); ("input-decimal", InputBox_class);
   ("input-integer", InputBox_class); ("multiline", MultilineBox_class);
   ("text", TextBox_class); ("file", FileBox_class)].

Fixpoint box_types_lookup (name : string) (types : list (string * box_class))
    : option box_class :=
  match types with
  | [] => None
  | (n, c) :: types' => if String.eqb name n then Some c else box_types_lookup name types'
  end.

(** [ty in self._box_types], with the class found: a list or a dict cannot
    be hashed, anything else that is not one of the keys is absent. *)
Definition box_type_find `{Host} (ty : pyval) : outcome (option box_class) :=
  match ty with
  | VStr name => Return (box_types_lookup name _box_types)
  | VList _ | VDict _ => Raise TypeError
  | VNone | VBool _ | VInt _ | VBytes _ | VObj _ => Return None
  end.

Definition _create_box `{Host} (problem boxid : string) (box_content : pyval)
    : outcome box :=
  if negb (id_checker boxid) && negb (String.eqb boxid "")
  then Raise (PyException ("Invalid box _id " ++ boxid))
  else
    has_type <~ py_in "type" box_content ;;
    if negb has_type
    then Raise (PyException ("Box " ++ boxid ++ " does not have a type"))
    else
      ty <~ py_getitem box_content "type" ;;
      found <~ box_type_find ty ;;
      match found with
      | None =>
          msg <~ str_add "Unknown box type " ty ;;
          Raise (PyException (msg ++ " for box _id " ++ boxid))
      | Some class =>
          match box_content with
          | VDict boxData => class problem boxid boxData
          | _ => Raise TypeError
          end
      end.

(** The loop of [_init_boxes] over [content['boxes'].items()]. *)
Fixpoint for_items_create `{Host} (problem : string) (items : pydict)
    : outcome (list box) :=
  match items with
  | [] => Return []
  | (boxid, box_content) :: items' =>
      if String.eqb boxid ""
      then Raise (PyException "Empty box ids are not allowed")
      else
        b <~ _create_box problem boxid box_content ;;
        boxes <~ for_items_create problem items' ;;
        Return (b :: boxes)
  end.

(** [v.items()]: a dict has the method; on an object the attribute, when
    there is one, is data and cannot be called. *)
Definition py_items (v : pyval) : outcome pydict :=
  match v with
  | VDict d => Return d
  | VObj attrs =>
      if dict_mem "items" attrs then Raise TypeError else Raise AttributeError
  | _ => Raise AttributeError
  end.

Definition _init_boxes `{Host} (problem : string) (content : pydict)
    : outcome (list box) :=
  if dict_mem "boxes" content then
    boxes <~ dict_getitem content "boxes" ;;
    items <~ py_items boxes ;;
    for_items_create problem items
  else Return [].

Definition __init__ `{Host} (problemid : string) (content : pydict) : outcome t :=
  _ <~ Problem_init problemid content ;;
  boxes <~ _init_boxes problemid content ;;
  Return {| _id := problemid; _boxes := boxes |}.

Definition parse_problem `{Interpreter} `{Host} (problem_content : pydict)
    : outcome pydict :=
  problem_content <~ Problem_parse_problem problem_content ;;
  match (boxes <~ dict_getitem problem_content "boxes" ;; json_loads boxes) with
  | Return boxes => Return (dict_set "boxes" boxes problem_content)
  | Raise _ => Raise (PyException "Invalid JSON in boxes content")
  end.

End CustomProblem.

Module DisplayableCustomProblem.

Definition __init__ `{Host} := CustomProblem.__init__.

Fixpoint for_boxes_adapt (boxes : list box) : M unit :=
  match boxes with
  | [] => ret tt
  | b :: rest => box_adapt_input_for_backend b ;; for_boxes_adapt rest
  end.

(** The mapping returned is the object passed in, after the boxes' updates. *)
Definition adapt_input_for_backend (self : CustomProblem.t) : M unit :=
  for_boxes_adapt (CustomProblem._boxes self).

End DisplayableCustomProblem.

(** ** A concrete interpreter and host

    The model above is parametric in [Interpreter] and [Host].  This
    module provides one instance of each, so that the model can be run on
    concrete task definitions and submissions. *)

Module Reference.

(** Letters, digits, underscore and dash, at least one character. *)
Definition is_id_char (c : ascii) : bool :=
  let n := nat_of_ascii (to_lower c) in
  (((97 <=? n) && (n <=? 122)) || is_digit c || (n =? 95) || (n =? 45))%nat.

Definition ref_id_checker (s : string) : bool :=
  match list_ascii_of_string s with
  | [] => false
  | l => forallb is_id_char l
  end.

#[export] Instance host : Host := {|
  id_checker := ref_id_checker;
  Problem_init := fun problemid _ =>
    if ref_id_checker problemid then Return tt
    else Raise (PyException ("Invalid problem _id: " ++ problemid));
  Problem_parse_problem := fun content => Return content
|}.

(** Sizes of a 64-bit CPython 3 build for [bytes] and ASCII [str]; a
    nominal header size for the other objects. *)
Definition ref_getsizeof (v : pyval) : Z :=
  match v with
  | VBytes b => 33 + Z.of_nat (List.length b)
  | VStr s => 49 + str_len s
  | _ => 64
  end.

(** *** A JSON codec for the values without [bytes] and objects

    [json.dumps] with its default arguments and [json.loads] with
    [object_pairs_hook=OrderedDict], on the part of JSON whose values
    [pyval] holds: [null], booleans, integers, strings of code points
    below 256, arrays and objects.  A text that has a number with a
    fraction or an exponent, [NaN], [Infinity] or an escape above
    [\u00FF] anywhere in it is outside that part: [json.loads] may
    return a value for it, the decoder below raises.  The interpreter's
    recursion limit is left out. *)

Definition dquote : ascii := ascii_of_nat 34.

Definition hex_digit (n : nat) : ascii :=
  ascii_of_nat (if (n <? 10)%nat then 48 + n else 87 + n).

(** As [json.dumps] writes them: quote, backslash and the five usual
    control characters get a short escape, the other characters outside
    the printable ASCII range a [\u00XX] one. *)
Definition escape_char (c : ascii) : list ascii :=
  let n := nat_of_ascii c in
  if Ascii.eqb c dquote then ["\"%char; dquote]
  else if Ascii.eqb c "\"%char then ["\"%char; "\"%char]
  else if (n =? 10)%nat then ["\"%char; "n"%char]
  else if (n =? 13)%nat then ["\"%char; "r"%char]
  else if (n =? 9)%nat then ["\"%char; "t"%char]
  else if (n =? 8)%nat then ["\"%char; "b"%char]
  else if (n =? 12)%nat then ["\"%char; "f"%char]
  else if ((32 <=? n) && (n <=? 126))%nat then [c]
  else ["\"%char; "u"%char; "0"%char; "0"%char;
        hex_digit (n / 16); hex_digit (n mod 16)].

Definition encode_str (s : string) : list ascii :=
  (dquote :: flat_map escape_char (list_ascii_of_string s) ++ [dquote])%list.

Definition encode_int (z : Z) : list ascii :=
  match Z.to_int z with
  | Decimal.Pos d => list_ascii_of_string (NilEmpty.string_of_uint d)
  | Decimal.Neg d => "-"%char :: list_ascii_of_string (NilEmpty.string_of_uint d)
  end.

Definition sep : list ascii := [","%char; " "%char].
Definition colon : list ascii := [":"%char; " "%char].

Section EncodeSequences.

Variable encode : pyval -> outcome (list ascii).

(** The elements of a non-empty list, separated. *)
Fixpoint encode_items (l : list pyval) : outcome (list ascii) :=
  match l with
  | [] => Return []
  | x :: l' =>
      e <~ encode x ;;
      match l' with
      | [] => Return e
      | _ :: _ => r <~ encode_items l' ;; Return (e ++ sep ++ r)%list
      end
  end.

Fixpoint encode_members (d : list (string * pyval)) : outcome (list ascii) :=
  match d with
  | [] => Return []
  | (k, x) :: d' =>
      e <~ encode x ;;
      match d' with
      | [] => Return (encode_str k ++ colon ++ e)%list
      | _ :: _ =>
          r <~ encode_members d' ;;
          Return (encode_str k ++ colon ++ e ++ sep ++ r)%list
      end
  end.

End EncodeSequences.

Fixpoint encode (v : pyval) : outcome (list ascii) :=
  match v with
  | VNone => Return (list_ascii_of_string "null")
  | VBool b => Return (list_ascii_of_string (if b then "true" else "false"))
  | VInt z => Return (encode_int z)
  | VStr s => Return (encode_str s)
  | VBytes _ | VObj _ => Raise TypeError
  | VList l => r <~ encode_items encode l ;; Return ("["%char :: r ++ ["]"%char])%list
  | VDict d => r <~ encode_members encode d ;; Return ("{"%char :: r ++ ["}"%char])%list
  end.

Definition ref_json_dumps (v : pyval) : outcome string :=
  l <~ encode v ;; Return (string_of_list_ascii l).

Definition hex_value (c : ascii) : option nat :=
  let n := nat_of_ascii (to_lower c) in
  if is_digit c then Some (n - 48)%nat
  else if ((97 <=? n) && (n <=? 102))%nat then Some (n - 87)%nat
  else None.

(** The characters of a string literal after its opening quote. *)
Fixpoint decode_str (l : list ascii) (acc : list ascii)
    : option (string * list ascii) :=
  match l with
  | [] => None
  | c :: l' =>
      if Ascii.eqb c dquote then Some (string_of_list_ascii (rev acc), l')
      else if Ascii.eqb c "\"%char then
        match l' with
        | "n"%char :: r => decode_str r ("010"%char :: acc)
        | "r"%char :: r => decode_str r ("013"%char :: acc)
        | "t"%char :: r => decode_str r ("009"%char :: acc)
        | "b"%char :: r => decode_str r ("008"%char :: acc)
        | "f"%char :: r => decode_str r ("012"%char :: acc)
        | "u"%char :: "0"%char :: "0"%char :: h :: k :: r =>
            match hex_value h, hex_value k with
            | Some a, Some b => decode_str r (ascii_of_nat (16 * a + b) :: acc)
            | _, _ => None
            end
        | e :: r =>
            if Ascii.eqb e dquote || Ascii.eqb e "\"%char || Ascii.eqb e "/"%char
            then decode_str r (e :: acc) else None
        | [] => None
        end
      else if (nat_of_ascii c <? 32)%nat then None
      else decode_str l' (c :: acc)
  end.

(** The longest prefix of digits, and what follows it. *)
Fixpoint span_digits (l : list ascii) : list ascii * list ascii :=
  match l with
  | c :: l' =>
      if is_digit c then let (ds, r) := span_digits l' in (c :: ds, r)
      else ([], l)
  | [] => ([], [])
  end.

(** An integer literal: an optional minus sign, then [0] or a digit
    other than [0] followed by digits.  A zero followed by a digit is
    refused: the scanner would end the number after the zero, and no
    text goes on with a digit after a value. *)
Definition decode_int (l : list ascii) : option (pyval * list ascii) :=
  let (negative, l') :=
    match l with
    | "-"%char :: l' => (true, l')
    | _ => (false, l)
    end in
  match span_digits l' with
  | ([], _) => None
  | ("0"%char :: _ :: _, _) => None
  | (ds, r) =>
      match NilEmpty.uint_of_string (string_of_list_ascii ds) with
      | Some d =>
          Some (VInt (Z.of_int (if negative then Decimal.Neg d else Decimal.Pos d)), r)
      | None => None
      end
  end.

(** The whitespace of JSON: space, tab, line feed and carriage return. *)
Definition is_json_space (c : ascii) : bool :=
  let n := nat_of_ascii c in
  ((n =? 32) || (n =? 9) || (n =? 10) || (n =? 13))%nat.

Definition skip_space (l : list ascii) : list ascii := drop_while is_json_space l.

Definition expect (w : string) (l : list ascii) : option (list ascii) :=
  let n := String.length w in
  if ascii_list_eqb (firstn n l) (list_ascii_of_string w) then Some (skipn n l)
  else None.

(** A value, then what is left of the text.  Each nested value and each
    element of a sequence takes one unit of [fuel]. *)
Fixpoint decode (fuel : nat) (l : list ascii) {struct fuel}
    : option (pyval * list ascii) :=
  match fuel with
  | O => None
  | S fuel' =>
      match skip_space l with
      | [] => None
      | c :: r =>
          if Ascii.eqb c "{"%char then
            match skip_space r with
            | c' :: r' =>
                if Ascii.eqb c' "}"%char then Some (VDict [], r')
                else decode_members fuel' r []
            | [] => None
            end
          else if Ascii.eqb c "["%char then
            match skip_space r with
            | c' :: r' =>
                if Ascii.eqb c' "]"%char then Some (VList [], r')
                else decode_items fuel' r []
            | [] => None
            end
          else if Ascii.eqb c dquote then
            match decode_str r [] with
            | Some (s, r') => Some (VStr s, r')
            | None => None
            end
          else if is_digit c || Ascii.eqb c "-"%char then decode_int (c :: r)
          else
            match expect "null" (c :: r), expect "true" (c :: r),
                  expect "false" (c :: r) with
            | Some r', _, _ => Some (VNone, r')
            | _, Some r', _ => Some (VBool true, r')
            | _, _, Some r' => Some (VBool false, r')
            | _, _, _ => None
            end
      end
  end

with decode_items (fuel : nat) (l : list ascii) (acc : list pyval) {struct fuel}
    : option (pyval * list ascii) :=
  match fuel with
  | O => None
  | S fuel' =>
      match decode fuel' l with
      | Some (x, r) =>
          match skip_space r with
          | ","%char :: r' => decode_items fuel' r' (x :: acc)
          | "]"%char :: r' => Some (VList (rev (x :: acc)), r')
          | _ => None
          end
      | None => None
      end
  end

with decode_members (fuel : nat) (l : list ascii) (acc : pydict) {struct fuel}
    : option (pyval * list ascii) :=
  match fuel with
  | O => None
  | S fuel' =>
      match skip_space l with
      | q :: r =>
          if Ascii.eqb q dquote then
            match decode_str r [] with
            | Some (k, r1) =>
                match skip_space r1 with
                | ":"%char :: r2 =>
                    match decode fuel' r2 with
                    | Some (x, r3) =>
                        match skip_space r3 with
                        | ","%char :: r4 => decode_members fuel' r4 (dict_set k x acc)
                        | "}"%char :: r4 => Some (VDict (dict_set k x acc), r4)
                        | _ => None
                        end
                    | None => None
                    end
                | _ => None
                end
            | None => None
            end
          else None
      | [] => None
      end
  end.

(** The values the codec round-trips: no [bytes], no objects, and dicts
    whose keys are distinct, as those of a Python dict are. *)
Fixpoint keys_distinct (d : pydict) : bool :=
  match d with
  | [] => true
  | (k, _) :: d' => negb (dict_mem k d') && keys_distinct d'
  end.

Fixpoint json_value (v : pyval) : bool :=
  match v with
  | VNone | VBool _ | VInt _ | VStr _ => true
  | VBytes _ | VObj _ => false
  | VList l => forallb json_value l
  | VDict d => keys_distinct d && forallb (fun kv => json_value (snd kv)) d
  end.

(** The fuel that decoding the text of a value takes. *)
Fixpoint fuel_of (v : pyval) : nat :=
  match v with
  | VList l => S (fold_right (fun x n => S (fuel_of x + n)) 0 l)%nat
  | VDict d => S (fold_right (fun kv n => S (fuel_of (snd kv) + n)) 0 d)%nat
  | _ => 1%nat
  end.

(** What may follow an integer literal: anything but a digit. *)
Definition no_digit_ahead (rest : list ascii) : Prop :=
  match rest with
  | c :: _ => is_digit c = false
  | [] => True
  end.

(** The first character of the text of a value: not a blank, and not a
    closing bracket. *)
Definition starts_value (l : list ascii) : Prop :=
  match l with
  | c :: _ =>
      is_json_space c = false /\ Ascii.eqb c "]"%char = false
      /\ Ascii.eqb c "}"%char = false
  | [] => False
  end.

Definition items_fuel (xs : list pyval) : nat :=
  fold_right (fun x n => S (fuel_of x + n)) 0%nat xs.

Definition members_fuel (d : pydict) : nat :=
  fold_right (fun kv n => S (fuel_of (snd kv) + n)) 0%nat d.

(** [json.loads] decodes a [bytes] input first, in the encoding it
    detects from the first bytes.  The functions below give the decoded
    text when all of it lies below U+0100, and [None] when the bytes are
    ill-formed or hold a code point from U+0100 on: on such a text the
    decoder raises, or returns a value outside [pyval]. *)

Definition byte_value (b : Byte.byte) : nat := nat_of_ascii (ascii_of_byte b).

Fixpoint utf8_text (b : list Byte.byte) : option (list ascii) :=
  match b with
  | [] => Some []
  | x :: b' =>
      let n := byte_value x in
      if (n <? 128)%nat then option_map (cons (ascii_of_byte x)) (utf8_text b')
      else if ((n =? 194) || (n =? 195))%nat then
        match b' with
        | y :: b'' =>
            let m := byte_value y in
            if ((128 <=? m) && (m <=? 191))%nat
            then option_map (cons (ascii_of_nat ((n - 192) * 64 + (m - 128))))
                   (utf8_text b'')
            else None
        | [] => None
        end
      else None
  end.

Fixpoint utf16_text (little_endian : bool) (b : list Byte.byte)
    : option (list ascii) :=
  match b with
  | [] => Some []
  | x :: y :: b' =>
      let (low, high) := if little_endian then (x, y) else (y, x) in
      if (byte_value high =? 0)%nat
      then option_map (cons (ascii_of_byte low)) (utf16_text little_endian b')
      else None
  | [_] => None
  end.

Fixpoint utf32_text (little_endian : bool) (b : list Byte.byte)
    : option (list ascii) :=
  match b with
  | [] => Some []
  | x :: y :: z :: w :: b' =>
      let '(low, h1, h2, h3) :=
        if little_endian then (x, y, z, w) else (w, z, y, x) in
      if ((byte_value h1 =? 0) && (byte_value h2 =? 0) && (byte_value h3 =? 0))%nat
      then option_map (cons (ascii_of_byte low)) (utf32_text little_endian b')
      else None
  | _ => None
  end.

(** [s.decode(detect_encoding(s), 'surrogatepass')]: a byte order mark
    decides first (UTF-32, then UTF-16, then UTF-8), then the pattern of
    null bytes among the first four, or the first two of a two-byte
    input; UTF-8 otherwise. *)
Definition decode_bytes (b : list Byte.byte) : option (list ascii) :=
  match map byte_value b with
  | 0 :: 0 :: 254 :: 255 :: _ => utf32_text false (skipn 4 b)
  | 255 :: 254 :: 0 :: 0 :: _ => utf32_text true (skipn 4 b)
  | 254 :: 255 :: _ => utf16_text false (skipn 2 b)
  | 255 :: 254 :: _ => utf16_text true (skipn 2 b)
  | 239 :: 187 :: 191 :: _ => utf8_text (skipn 3 b)
  | b0 :: b1 :: b2 :: b3 :: _ =>
      if (b0 =? 0)%nat then
        if (b1 =? 0)%nat then utf32_text false b else utf16_text false b
      else if (b1 =? 0)%nat then
        if ((b2 =? 0) && (b3 =? 0))%nat then utf32_text true b else utf16_text true b
      else utf8_text b
  | [b0; b1] =>
      if (b0 =? 0)%nat then utf16_text false b
      else if (b1 =? 0)%nat then utf16_text true b
      else utf8_text b
  | _ => utf8_text b
  end%nat.

(** The value a JSON text stands for: one value, with whitespace around
    it and nothing else. *)
Definition decode_text (l : list ascii) : outcome pyval :=
  match decode (S (List.length l)) l with
  | Some (x, r) =>
      match skip_space r with
      | [] => Return x
      | _ => Raise ValueError
      end
  | None => Raise ValueError
  end.

Definition ref_json_loads (v : pyval) : outcome pyval :=
  match v with
  | VStr s => decode_text (list_ascii_of_string s)
  | VBytes b =>
      match decode_bytes b with
      | Some l => decode_text l
      | None => Raise ValueError
      end
  | _ => Raise TypeError
  end.

#[export] Instance interpreter : Interpreter := {|
  sys_getsizeof := ref_getsizeof;
  json_loads := ref_json_loads;
  json_dumps := ref_json_dumps
|}.

End Reference.

(** ** Definitions used in the statements *)

(** The default value of each input subtype, by the type tag of the box:
    the empty string for text, ["0"] for integer, ["0.0"] for decimal. *)
Definition subtype_default (type_tag : string) : string :=
  if String.eqb type_tag "input-integer" then "0"
  else if String.eqb type_tag "input-decimal" then "0.0"
  else "".

(** Boxes evaluated in declaration order: the checks of [boxes], run one
    after the other from the store [d], all return true, and leave the
    store [d']. *)
Inductive all_pass `{Interpreter} (default_allowed_extension default_max_size : pyval)
    : list box -> pydict -> pydict -> Prop :=
| all_pass_nil (d : pydict) :
    all_pass default_allowed_extension default_max_size [] d d
| all_pass_cons (b : box) (boxes : list box) (d d' d'' : pydict) :
    box_input_is_consistent b default_allowed_extension default_max_size d
      = (Return true, d') ->
    all_pass default_allowed_extension default_max_size boxes d' d'' ->
    all_pass default_allowed_extension default_max_size (b :: boxes) d d''.

(** The type tag of a box configuration, when it is a dict that has one. *)
Definition type_tag (box_content : pyval) : option pyval :=
  match box_content with
  | VDict boxData => dict_lookup "type" boxData
  | _ => None
  end.

(** An equivalent ordered mapping: same keys, same order, same type tags. *)
Definition equivalent_boxes (a b : pydict) : Prop :=
  map fst a = map fst b /\
  map (fun kv => type_tag (snd kv)) a = map (fun kv => type_tag (snd kv)) b.

(** Whether the conversions an input box of subtype [input_type] attempts
    on [v] go through: [int(v)] for integer, [float(v)] for decimal. *)
Definition conversion_ok (input_type : string) (v : pyval) : bool :=
  (if String.eqb input_type "integer"
   then match py_int v with Return _ => true | Raise _ => false end else true)
  &&
  (if String.eqb input_type "decimal"
   then match py_float v with Return _ => true | Raise _ => false end else true).

(** [box._max_chars], for the classes that have a length limit. *)
Definition box_max_chars (b : box) : option Z :=
  match b with
  | Input b => Some (InputBox._max_chars b)
  | Multiline b => Some (MultilineBox._max_chars b)
  | Text _ | File _ => None
  end.

(** Whether a box is a text box, the one class that asks for no entry. *)
Definition is_text_box (b : box) : bool :=
  match b with
  | Text _ => true
  | File _ | Input _ | Multiline _ => false
  end.

(** * Properties *)

(** ** Sample runs of the built-in operations *)

Example py_int_samples :
  map (fun s => py_int (VStr s))
      ["0"; " -12 "; "1_000"; "12.5"; ""; "+"; "1__0"; "_1"; "1_"; "- 1"; "0x10"]
  = [Return tt; Return tt; Return tt; Raise ValueError; Raise ValueError;
     Raise ValueError; Raise ValueError; Raise ValueError; Raise ValueError;
     Raise ValueError; Raise ValueError].
Proof. reflexivity. Qed.

Example py_float_samples :
  map (fun s => py_float (VStr s))
      ["0.0"; "12.5"; " 1e-3 "; ".5"; "5."; "-Inf"; "nan"; "1_0.2_5E+1_0";
       "."; "1e"; "abc"; ""; "1._5"; "infinit"; "1 2"]
  = [Return tt; Return tt; Return tt; Return tt; Return tt; Return tt;
     Return tt; Return tt;
     Raise ValueError; Raise ValueError; Raise ValueError; Raise ValueError;
     Raise ValueError; Raise ValueError; Raise ValueError].
Proof. reflexivity. Qed.

Example language_match_samples :
  map (fun s => MultilineBox.language_match (VStr s))
      ["cpp"; "c++"; "Python3"; "objective-c"; "x86_64.asm"; ""; "c#"; "a b"]
  = [Return true; Return false; Return true; Return true; Return true;
     Return false; Return false; Return false].
Proof. reflexivity. Qed.

Example str_endswith_samples :
  map (fun p => str_endswith (fst p) (snd p))
      [("a.zip", "zip"); ("a.zip", ".zip"); ("a.exe", "zip"); ("zip", "a.zip");
       ("reportzip", "zip"); ("a.zip", "")]
  = [true; true; false; false; true; true].
Proof. reflexivity. Qed.

(** ** Dictionaries *)

Lemma dict_mem_lookup (k : string) (d : pydict) :
  dict_mem k d = match dict_lookup k d with Some _ => true | None => false end.
Proof.
  induction d as [|[k' v] d IH]; simpl; [reflexivity|].
  destruct (String.eqb k k'); [reflexivity | exact IH].
Qed.

Lemma dict_lookup_set_same (k : string) (v : pyval) (d : pydict) :
  dict_lookup k (dict_set k v d) = Some v.
Proof.
  induction d as [|[k' v'] d IH]; simpl.
  - now rewrite String.eqb_refl.
  - destruct (String.eqb k k') eqn:E; simpl; rewrite E; [reflexivity | exact IH].
Qed.

Lemma dict_lookup_set_other (k k' : string) (v : pyval) (d : pydict) :
  k' <> k -> dict_lookup k' (dict_set k v d) = dict_lookup k' d.
Proof.
  intros Hne. induction d as [|[k0 v0] d IH]; simpl.
  - destruct (String.eqb_spec k' k); [contradiction | reflexivity].
  - destruct (String.eqb_spec k k0) as [->|Hk]; simpl.
    + destruct (String.eqb_spec k' k0); [contradiction | reflexivity].
    + destruct (String.eqb k' k0); [reflexivity | exact IH].
Qed.

Lemma dict_set_keys_present (k : string) (v v0 : pyval) (d : pydict) :
  dict_lookup k d = Some v0 -> map fst (dict_set k v d) = map fst d.
Proof.
  induction d as [|[k' v'] d IH]; simpl; [discriminate|].
  destruct (String.eqb k k'); simpl; [reflexivity|].
  intros H. now rewrite IH.
Qed.

Lemma load_found (k : string) (v : pyval) (d : pydict) :
  dict_lookup k d = Some v -> load k d = (Return v, d).
Proof. intros H. unfold load, dict_getitem. now rewrite H. Qed.

(** ** Running a method body on a store *)

Lemma bind_run {A B} (c : M A) (k : A -> M B) (d : pydict) :
  bind c k d = match c d with
               | (Return a, d') => k a d'
               | (Raise e, d') => (Raise e, d')
               end.
Proof. reflexivity. Qed.

Lemma seq_run (s k : stmt) (d : pydict) :
  seq s k d = match s d with
              | (Return (Some b), d') => (Return (Some b), d')
              | (Return None, d') => k d'
              | (Raise e, d') => (Raise e, d')
              end.
Proof. unfold seq, bind. destruct (s d) as [[[b|]|e] d']; reflexivity. Qed.

Lemma method_run (s : stmt) (d : pydict) :
  method s d = match s d with
               | (Return (Some b), d') => (Return b, d')
               | (Return None, d') => (Return false, d')
               | (Raise e, d') => (Raise e, d')
               end.
Proof. unfold method, bind. destruct (s d) as [[[b|]|e] d']; reflexivity. Qed.

Lemma try_except_run {A} (body handler : M A) (d : pydict) :
  try_except body handler d = match body d with
                              | (Return a, d') => (Return a, d')
                              | (Raise _, d') => handler d'
                              end.
Proof. reflexivity. Qed.

Lemma basic_input_is_consistent_run (self : BasicBox.t) (a b : pyval) (d : pydict) :
  BasicBox.input_is_consistent self a b d
  = (Return (dict_mem (BasicBox.get_complete_id self) d), d).
Proof. reflexivity. Qed.

(** One step of a run: expose the first statement still to execute. *)
Ltac run_step :=
  first [ rewrite method_run | rewrite seq_run | rewrite bind_run
        | rewrite try_except_run | rewrite basic_input_is_consistent_run ].

Ltac reduce := cbv beta iota delta [ret lift return_ pass store].

Tactic Notation "reduce" "in" hyp(H) :=
  cbv beta iota delta [ret lift return_ pass store] in H.

Ltac run := repeat (reduce; try run_step).

(** ** What each check computes *)

(** The run of an input box, by the entry under its composite id. *)
Lemma InputBox_run (self : InputBox.t)
    (default_allowed_extension default_max_size : pyval) (d : pydict) :
  let key := BasicBox.get_complete_id (InputBox.base self) in
  InputBox.input_is_consistent self default_allowed_extension default_max_size d
  = match dict_lookup key d with
    | None => (Return false, d)
    | Some v =>
        match py_len v with
        | Raise e =>
            (if InputBox._max_chars self =? 0 then Return false else Raise e, d)
        | Return n =>
            if negb (InputBox._max_chars self =? 0) && (n >? InputBox._max_chars self)
            then (Return false, d)
            else if n =? 0 then
              if py_truthy (InputBox._optional self)
              then (Return (conversion_ok (InputBox._input_type self)
                              (VStr (InputBox._default_value self))),
                    dict_set key (VStr (InputBox._default_value self)) d)
              else (Return false, d)
            else (Return (conversion_ok (InputBox._input_type self) v), d)
        end
    end.
Proof.
  cbv zeta. unfold InputBox.input_is_consistent. cbv zeta.
  set (key := BasicBox.get_complete_id (InputBox.base self)).
  run. fold key. rewrite dict_mem_lookup.
  destruct (dict_lookup key d) as [v|] eqn:Hv; cbn [negb]; run; [|reflexivity].
  assert (Htail : forall v' d',
    dict_lookup key d' = Some v' ->
    ((if String.eqb (InputBox._input_type self) "integer" then
        try_except (v <- load key ;; _ <- lift (py_int v) ;; pass) (return_ false)
      else pass) ;;;
     (if String.eqb (InputBox._input_type self) "decimal" then
        try_except (v <- load key ;; _ <- lift (py_float v) ;; pass) (return_ false)
      else pass) ;;;
     return_ true) d'
    = (Return (Some (conversion_ok (InputBox._input_type self) v')), d')).
  { intros v' d' Hv'. unfold conversion_ok. run.
    destruct (String.eqb (InputBox._input_type self) "integer"); run.
    - rewrite (load_found _ _ _ Hv'). run.
      destruct (py_int v'); run; [|reflexivity].
      destruct (String.eqb (InputBox._input_type self) "decimal"); run; [|reflexivity].
      rewrite (load_found _ _ _ Hv'). run. destruct (py_float v'); run; reflexivity.
    - destruct (String.eqb (InputBox._input_type self) "decimal"); run; [|reflexivity].
      rewrite (load_found _ _ _ Hv'). run. destruct (py_float v'); run; reflexivity. }
  reduce in Htail.
  destruct (py_len v) as [n|e] eqn:Hlen.
  - destruct (InputBox._max_chars self =? 0); cbn [negb andb]; run.
    + rewrite (load_found _ _ _ Hv). run. rewrite Hlen.
      destruct (n =? 0).
      * destruct (py_truthy (InputBox._optional self)); reduce; [|reflexivity].
        rewrite bind_run. reduce.
        rewrite (Htail _ _ (dict_lookup_set_same _ _ _)). reflexivity.
      * reduce. rewrite (Htail _ _ Hv). reflexivity.
    + rewrite (load_found _ _ _ Hv). run. rewrite Hlen.
      destruct (n >? InputBox._max_chars self); run; [reflexivity|].
      rewrite (load_found _ _ _ Hv). run. rewrite Hlen.
      destruct (n =? 0).
      * destruct (py_truthy (InputBox._optional self)); reduce; [|reflexivity].
        rewrite bind_run. reduce.
        rewrite (Htail _ _ (dict_lookup_set_same _ _ _)). reflexivity.
      * reduce. rewrite (Htail _ _ Hv). reflexivity.
  - destruct (InputBox._max_chars self =? 0); cbn [negb]; run;
      rewrite (load_found _ _ _ Hv); run; rewrite Hlen; reflexivity.
Qed.

(** The run of a multiline box, by the entry under its composite id. *)
Lemma MultilineBox_run (self : MultilineBox.t)
    (default_allowed_extension default_max_size : pyval) (d : pydict) :
  let key := BasicBox.get_complete_id (MultilineBox.base self) in
  MultilineBox.input_is_consistent self default_allowed_extension default_max_size d
  = match dict_lookup key d with
    | None => (Return false, d)
    | Some v =>
        match py_len v with
        | Raise e => (Raise e, d)
        | Return n =>
            if negb (MultilineBox._max_chars self =? 0)
               && (n >? MultilineBox._max_chars self)
            then (Return false, d)
            else if n =? 0 then
              if py_truthy (MultilineBox._optional self)
              then (Return true, dict_set key (VStr "") d)
              else (Return false, d)
            else (Return true, d)
        end
    end.
Proof.
  cbv zeta. unfold MultilineBox.input_is_consistent. cbv zeta.
  set (key := BasicBox.get_complete_id (MultilineBox.base self)).
  run. fold key. rewrite dict_mem_lookup.
  destruct (dict_lookup key d) as [v|] eqn:Hv; cbn [negb]; run; [|reflexivity].
  destruct (py_len v) as [n|e] eqn:Hlen.
  - destruct (MultilineBox._max_chars self =? 0); cbn [negb andb]; run.
    + rewrite (load_found _ _ _ Hv). run. rewrite Hlen.
      destruct (n =? 0); [|reflexivity].
      destruct (py_truthy (MultilineBox._optional self)); run; reflexivity.
    + rewrite (load_found _ _ _ Hv). run. rewrite Hlen.
      destruct (n >? MultilineBox._max_chars self); run; [reflexivity|].
      rewrite (load_found _ _ _ Hv). run. rewrite Hlen.
      destruct (n =? 0); [|reflexivity].
      destruct (py_truthy (MultilineBox._optional self)); run; reflexivity.
  - destruct (MultilineBox._max_chars self =? 0); cbn [negb]; run;
      rewrite (load_found _ _ _ Hv); run; rewrite Hlen; reflexivity.
Qed.

(** The run of a file box, by the entry under its composite id. *)
Lemma FileBox_run_entry `{Interpreter} (self : FileBox.t)
    (default_allowed_extension default_max_size : pyval) (d : pydict) :
  FileBox.input_is_consistent self default_allowed_extension default_max_size d
  = (Return
       match dict_lookup (BasicBox.get_complete_id (FileBox.base self)) d with
       | None => false
       | Some v =>
           match
             (filename <~ py_getitem v "filename" ;;
              endswith <~ py_endswith filename ;;
              exts <~ py_tuple (py_or (FileBox._allowed_exts self)
                                  default_allowed_extension) ;;
              endswith exts)
           with
           | Return true =>
               match
                 (value <~ py_getitem v "value" ;;
                  py_int_gt (sys_getsizeof value)
                    (py_or (FileBox._max_size self) default_max_size))
               with
               | Return too_big => negb too_big
               | Raise _ => false
               end
           | _ => false
           end
       end,
     d).
Proof.
  unfold FileBox.input_is_consistent. cbv zeta.
  set (key := BasicBox.get_complete_id (FileBox.base self)).
  run. fold key. rewrite dict_mem_lookup.
  destruct (dict_lookup key d) as [v|] eqn:Hv; cbn [negb]; run; [|reflexivity].
  rewrite (load_found _ _ _ Hv). run.
  destruct (py_getitem v "filename") as [filename|]; cbn [obind]; run; [|reflexivity].
  destruct (py_endswith filename) as [endswith|]; cbn [obind]; run; [|reflexivity].
  destruct (py_tuple _) as [exts|]; cbn [obind]; run; [|reflexivity].
  destruct (endswith exts) as [[|]|]; cbn [negb]; run; try reflexivity.
  rewrite (load_found _ _ _ Hv). run.
  destruct (py_getitem v "value") as [value|]; cbn [obind]; run; [|reflexivity].
  destruct (py_int_gt _ _) as [[|]|]; run; reflexivity.
Qed.

(** A check reads the submission at the box's composite id only: on two
    submissions with the same entry there, it gives the same outcome. *)
Lemma box_check_reads_own_entry `{Interpreter} (b : box)
    (default_allowed_extension default_max_size : pyval) (d1 d2 : pydict) :
  dict_lookup (box_complete_id b) d1 = dict_lookup (box_complete_id b) d2 ->
  fst (box_input_is_consistent b default_allowed_extension default_max_size d1)
  = fst (box_input_is_consistent b default_allowed_extension default_max_size d2).
Proof.
  unfold box_complete_id.
  destruct b as [tb|fb|ib|mb]; cbn [box_base box_input_is_consistent];
    intros Heq.
  - reflexivity.
  - rewrite !FileBox_run_entry, Heq. reflexivity.
  - rewrite !InputBox_run. cbv zeta. rewrite Heq.
    destruct (dict_lookup _ d2) as [v|]; [|reflexivity].
    destruct (py_len v) as [n|]; [|reflexivity].
    repeat match goal with |- context [if ?c then _ else _] => destruct c end;
      reflexivity.
  - rewrite !MultilineBox_run. cbv zeta. rewrite Heq.
    destruct (dict_lookup _ d2) as [v|]; [|reflexivity].
    destruct (py_len v) as [n|]; [|reflexivity].
    repeat match goal with |- context [if ?c then _ else _] => destruct c end;
      reflexivity.
Qed.

(** A check writes the submission at the box's composite id only. *)
Lemma box_check_writes_own_entry `{Interpreter} (b : box)
    (default_allowed_extension default_max_size : pyval) (d : pydict) (k : string) :
  k <> box_complete_id b ->
  dict_lookup k
    (snd (box_input_is_consistent b default_allowed_extension default_max_size d))
  = dict_lookup k d.
Proof.
  unfold box_complete_id. intros Hk.
  destruct b as [tb|fb|ib|mb]; cbn [box_base box_input_is_consistent] in *.
  - reflexivity.
  - rewrite FileBox_run_entry. reflexivity.
  - rewrite InputBox_run. cbv zeta.
    destruct (dict_lookup _ d) as [v|]; [|reflexivity].
    destruct (py_len v) as [n|]; [|reflexivity].
    repeat match goal with |- context [if ?c then _ else _] => destruct c end;
      cbn [snd]; try reflexivity.
    now apply dict_lookup_set_other.
  - rewrite MultilineBox_run. cbv zeta.
    destruct (dict_lookup _ d) as [v|]; [|reflexivity].
    destruct (py_len v) as [n|]; [|reflexivity].
    repeat match goal with |- context [if ?c then _ else _] => destruct c end;
      cbn [snd]; try reflexivity.
    now apply dict_lookup_set_other.
Qed.

(** ** Input boxes *)

(** What construction guarantees about an input box: the subtype and its
    default go together, and the length limit is not negative. *)
Lemma InputBox_init_inv `{Host} (problem boxid : string) (boxData : pydict)
    (self : InputBox.t) :
  InputBox.__init__ problem boxid boxData = Return self ->
  exists ty,
    dict_lookup "type" boxData = Some (VStr ty) /\
    InputBox._optional self = dict_get boxData "optional" (VBool false) /\
    0 <= InputBox._max_chars self /\
    ((ty = "input-text" /\ InputBox._input_type self = "text"
      /\ InputBox._default_value self = "") \/
     (ty = "input-integer" /\ InputBox._input_type self = "integer"
      /\ InputBox._default_value self = "0") \/
     (ty = "input-decimal" /\ InputBox._input_type self = "decimal"
      /\ InputBox._default_value self = "0.0")).
Proof.
  unfold InputBox.__init__, BasicBox.__init__, dict_getitem, obind.
  destruct (negb (id_checker boxid) && negb (String.eqb boxid "")); [discriminate|].
  destruct (dict_lookup "type" boxData) as [ty|]; [|discriminate].
  assert (Hmax : forall z,
    match dict_lookup "maxChars" boxData with
    | Some v =>
        match positive_int v with
        | Some z => Return z
        | None => Raise (PyException ("Invalid maxChars value in box " ++ boxid))
        end
    | None => Return 0
    end = Return z -> 0 <= z).
  { intros z. destruct (dict_lookup "maxChars" boxData) as [v|].
    - unfold positive_int. destruct (int_value v) as [n|]; [|discriminate].
      destruct (Z.gtb_spec n 0); [|discriminate].
      intros [= <-]. lia.
    - intros [= <-]. lia. }
  destruct ty as [| | |s| | | |]; simpl; try discriminate.
  destruct (String.eqb_spec s "input-text") as [->|_].
  { destruct (match dict_lookup "maxChars" boxData with Some _ => _ | None => _ end)
      as [z|] eqn:E; [|discriminate].
    intros [= <-]. exists "input-text". simpl. auto 10. }
  destruct (String.eqb_spec s "input-integer") as [->|_].
  { destruct (match dict_lookup "maxChars" boxData with Some _ => _ | None => _ end)
      as [z|] eqn:E; [|discriminate].
    intros [= <-]. exists "input-integer". simpl. auto 10. }
  destruct (String.eqb_spec s "input-decimal") as [->|_]; [|discriminate].
  destruct (match dict_lookup "maxChars" boxData with Some _ => _ | None => _ end)
    as [z|] eqn:E; [|discriminate].
  intros [= <-]. exists "input-decimal". simpl. auto 10.
Qed.

(** C9. An input box of subtype integer rejects the submitted value
    ["12.5"]: whatever its length limit and its optional flag, and whatever
    else the submission holds, [input_is_consistent] returns false and
    leaves the submission as it was. *)
Theorem InputBox_integer_rejects_12_5 (self : InputBox.t)
    (default_allowed_extension default_max_size : pyval) (task_input : pydict) :
  InputBox._input_type self = "integer" ->
  dict_lookup (BasicBox.get_complete_id (InputBox.base self)) task_input
    = Some (VStr "12.5") ->
  InputBox.input_is_consistent self default_allowed_extension default_max_size
    task_input = (Return false, task_input).
Proof.
  intros Hty Hv. rewrite InputBox_run. cbv zeta. rewrite Hv, Hty.
  cbn [py_len].
  destruct (negb (InputBox._max_chars self =? 0)
            && (str_len "12.5" >? InputBox._max_chars self)); reflexivity.
Qed.

Lemma InputBox_integer_rejects_12_5_witness :
  InputBox.input_is_consistent
    {| InputBox.base := {| BasicBox._id := "age"; BasicBox._problem := "q1" |};
       InputBox._input_type := "integer";
       InputBox._default_value := "0";
       InputBox._optional := VBool true;
       InputBox._max_chars := 10 |}
    (VList [VStr ".zip"]) (VInt 1000000)
    [("q1/name", VStr "Ada"); ("q1/age", VStr "12.5")]
  = (Return false, [("q1/name", VStr "Ada"); ("q1/age", VStr "12.5")]).
Proof.
  apply InputBox_integer_rejects_12_5; reflexivity.
Defined.

(** C4. An input box constructed with a true [optional] accepts a
    submitted value of length 0, whatever its length limit, and rewrites
    the entry of its composite id in the submission to the default of its
    subtype ([""], ["0"] or ["0.0"]); constructed with a false [optional],
    it rejects the empty value and leaves the submission as it was. *)
Theorem InputBox_empty_value `{Host} (problem boxid : string) (boxData : pydict)
    (self : InputBox.t) (type_tag : string)
    (default_allowed_extension default_max_size : pyval)
    (task_input : pydict) (v : pyval) :
  InputBox.__init__ problem boxid boxData = Return self ->
  dict_lookup "type" boxData = Some (VStr type_tag) ->
  dict_lookup (BasicBox.get_complete_id (InputBox.base self)) task_input = Some v ->
  py_len v = Return 0 ->
  (py_truthy (dict_get boxData "optional" (VBool false)) = true ->
   InputBox.input_is_consistent self default_allowed_extension default_max_size
     task_input
   = (Return true,
      dict_set (BasicBox.get_complete_id (InputBox.base self))
        (VStr (subtype_default type_tag)) task_input))
  /\
  (py_truthy (dict_get boxData "optional" (VBool false)) = false ->
   InputBox.input_is_consistent self default_allowed_extension default_max_size
     task_input
   = (Return false, task_input)).
Proof.
  intros Hinit Htag Hv Hlen.
  destruct (InputBox_init_inv _ _ _ _ Hinit) as (ty & Hty & Hopt & Hmax & Hsub).
  rewrite Htag in Hty. injection Hty as <-. rewrite <- Hopt.
  assert (Hlimit : (0 >? InputBox._max_chars self) = false)
    by (destruct (Z.gtb_spec 0 (InputBox._max_chars self)); [lia | reflexivity]).
  rewrite InputBox_run. cbv zeta. rewrite Hv, Hlen, Hlimit, andb_false_r.
  cbn [Z.eqb].
  split; intros ->; [|reflexivity].
  destruct Hsub as [(-> & -> & ->) | [(-> & -> & ->) | (-> & -> & ->)]];
    reflexivity.
Qed.

Lemma InputBox_empty_value_witness :
  InputBox.input_is_consistent
    {| InputBox.base := {| BasicBox._id := "ratio"; BasicBox._problem := "q1" |};
       InputBox._input_type := "decimal";
       InputBox._default_value := "0.0";
       InputBox._optional := VBool true;
       InputBox._max_chars := 5 |}
    VNone VNone [("q1/ratio", VStr ""); ("q1/name", VStr "Ada")]
  = (Return true, [("q1/ratio", VStr "0.0"); ("q1/name", VStr "Ada")]).
Proof.
  refine (proj1 (InputBox_empty_value (H := Reference.host) "q1" "ratio"
            [("type", VStr "input-decimal"); ("optional", VBool true);
             ("maxChars", VInt 5)]
            _ "input-decimal" VNone VNone
            [("q1/ratio", VStr ""); ("q1/name", VStr "Ada")] (VStr "")
            _ _ _ _) _); reflexivity.
Defined.

(** ** File boxes *)

Lemma FileBox_init_inv `{Host} (problem boxid : string) (boxData : pydict)
    (self : FileBox.t) :
  FileBox.__init__ problem boxid boxData = Return self ->
  FileBox._allowed_exts self = dict_get boxData "allowed_exts" VNone /\
  FileBox._max_size self = dict_get boxData "max_size" VNone.
Proof.
  unfold FileBox.__init__, obind. destruct (BasicBox.__init__ problem boxid); [|discriminate].
  intros [= <-]. split; reflexivity.
Qed.

(** A tuple of extension strings, one of which ends the file name. *)
Lemma str_endswith_tuple_some (filename : string) (exts : list string) (e : string) :
  In e exts -> str_endswith filename e = true ->
  str_endswith_tuple filename (map VStr exts) = Return true.
Proof.
  intros Hin He. induction exts as [|x exts IH]; [destruct Hin|].
  simpl. destruct (str_endswith filename x) eqn:Ex; [reflexivity|].
  destruct Hin as [->|Hin]; [congruence | exact (IH Hin)].
Qed.

(** The run of a file box on a submission that holds a record with a
    [str] file name under the box's composite id. *)
Lemma FileBox_run `{Interpreter} (self : FileBox.t)
    (default_allowed_extension default_max_size : pyval)
    (task_input record : pydict) (filename : string) (value : pyval) :
  dict_lookup (BasicBox.get_complete_id (FileBox.base self)) task_input
    = Some (VDict record) ->
  dict_lookup "filename" record = Some (VStr filename) ->
  dict_lookup "value" record = Some value ->
  FileBox.input_is_consistent self default_allowed_extension default_max_size
    task_input
  = (Return
       match
         (exts <~ py_tuple (py_or (FileBox._allowed_exts self)
                              default_allowed_extension) ;;
          str_endswith_tuple filename exts)
       with
       | Return true =>
           match py_int_gt (sys_getsizeof value)
                   (py_or (FileBox._max_size self) default_max_size) with
           | Return too_big => negb too_big
           | Raise _ => false
           end
       | _ => false
       end,
     task_input).
Proof.
  intros Hrec Hname Hvalue. rewrite FileBox_run_entry, Hrec.
  unfold py_getitem, dict_getitem. rewrite Hname, Hvalue. reflexivity.
Qed.

(** C5. A file box constructed with [allowed_exts=["zip"]] and
    [max_size=1000], on an interpreter whose [bytes] objects take 33 bytes
    more than their length: ["a.zip"] with 900 bytes passes, ["a.zip"] with
    1500 bytes fails, ["a.exe"] with 10 bytes fails.  A box constructed
    without [allowed_exts], or with an empty list, checks extensions as if
    it held the caller's default list; one constructed without [max_size]
    checks sizes as if it held the caller's default limit. *)
Theorem FileBox_zip_1000_and_defaults `{Interpreter} `{Host}
    (problem boxid : string) (boxData : pydict) (self : FileBox.t)
    (default_allowed_extension default_max_size : pyval)
    (task_input : pydict) :
  (forall b, sys_getsizeof (VBytes b) = 33 + Z.of_nat (List.length b)) ->
  FileBox.__init__ problem boxid boxData = Return self ->
  (dict_lookup "allowed_exts" boxData = Some (VList [VStr "zip"]) ->
   dict_lookup "max_size" boxData = Some (VInt 1000) ->
   forall (record : pydict) (filename : string) (content : list Byte.byte),
     dict_lookup (BasicBox.get_complete_id (FileBox.base self)) task_input
       = Some (VDict record) ->
     dict_lookup "filename" record = Some (VStr filename) ->
     dict_lookup "value" record = Some (VBytes content) ->
     let run := FileBox.input_is_consistent self default_allowed_extension
                  default_max_size task_input in
     (filename = "a.zip" -> List.length content = 900%nat ->
      run = (Return true, task_input)) /\
     (filename = "a.zip" -> List.length content = 1500%nat ->
      run = (Return false, task_input)) /\
     (filename = "a.exe" -> List.length content = 10%nat ->
      run = (Return false, task_input)))
  /\
  (dict_lookup "allowed_exts" boxData = None
   \/ dict_lookup "allowed_exts" boxData = Some (VList []) ->
   FileBox.input_is_consistent self default_allowed_extension default_max_size
     task_input
   = FileBox.input_is_consistent
       {| FileBox.base := FileBox.base self;
          FileBox._allowed_exts := default_allowed_extension;
          FileBox._max_size := FileBox._max_size self |}
       default_allowed_extension default_max_size task_input)
  /\
  (dict_lookup "max_size" boxData = None ->
   FileBox.input_is_consistent self default_allowed_extension default_max_size
     task_input
   = FileBox.input_is_consistent
       {| FileBox.base := FileBox.base self;
          FileBox._allowed_exts := FileBox._allowed_exts self;
          FileBox._max_size := default_max_size |}
       default_allowed_extension default_max_size task_input).
Proof.
  intros Hsize Hinit. destruct (FileBox_init_inv _ _ _ _ Hinit) as [Hexts Hmax].
  unfold dict_get in Hexts, Hmax. split; [|split].
  - intros Ha Hm record filename content Hrec Hname Hvalue.
    rewrite (FileBox_run _ _ _ _ _ _ _ Hrec Hname Hvalue).
    rewrite Hexts, Hmax, Ha, Hm, Hsize. cbn [py_or py_truthy py_tuple obind].
    cbn [py_int_gt int_value].
    repeat split; intros -> ->; reflexivity.
  - intros Ha. unfold FileBox.input_is_consistent. cbn [FileBox.base
      FileBox._allowed_exts FileBox._max_size].
    replace (py_or (FileBox._allowed_exts self) default_allowed_extension)
      with (py_or default_allowed_extension default_allowed_extension);
      [reflexivity|].
    rewrite Hexts. unfold py_or.
    destruct Ha as [-> | ->]; cbn [py_truthy];
      destruct (py_truthy default_allowed_extension); reflexivity.
  - intros Hm. unfold FileBox.input_is_consistent. cbn [FileBox.base
      FileBox._allowed_exts FileBox._max_size].
    replace (py_or (FileBox._max_size self) default_max_size)
      with (py_or default_max_size default_max_size); [reflexivity|].
    rewrite Hmax, Hm. unfold py_or. cbn [py_truthy].
    destruct (py_truthy default_max_size); reflexivity.
Qed.

Lemma FileBox_zip_1000_and_defaults_witness :
  let self :=
    {| FileBox.base := {| BasicBox._id := "upload"; BasicBox._problem := "q1" |};
       FileBox._allowed_exts := VList [VStr "zip"];
       FileBox._max_size := VInt 1000 |} in
  let submission (filename : string) (size : nat) : pydict :=
    [("q1/upload", VDict [("filename", VStr filename);
                          ("value", VBytes (repeat Byte.x00 size))])] in
  let run (d : pydict) :=
    FileBox.input_is_consistent (H := Reference.interpreter) self
      (VList [VStr ".pdf"]) (VInt 5000) d in
  run (submission "a.zip" 900%nat) = (Return true, submission "a.zip" 900%nat) /\
  run (submission "a.zip" 1500%nat) = (Return false, submission "a.zip" 1500%nat) /\
  run (submission "a.exe" 10%nat) = (Return false, submission "a.exe" 10%nat).
Proof.
  intros self submission run.
  pose (boxData := [("type", VStr "file"); ("allowed_exts", VList [VStr "zip"]);
                    ("max_size", VInt 1000)] : pydict).
  assert (Hsize : forall b,
    sys_getsizeof (Interpreter := Reference.interpreter) (VBytes b)
    = 33 + Z.of_nat (List.length b)) by reflexivity.
  assert (Hinit : FileBox.__init__ (H := Reference.host) "q1" "upload" boxData
                  = Return self) by reflexivity.
  pose (case := fun filename size =>
    proj1 (FileBox_zip_1000_and_defaults (H := Reference.interpreter)
             (H0 := Reference.host) "q1" "upload" boxData self
             (VList [VStr ".pdf"]) (VInt 5000) (submission filename size)
             Hsize Hinit)
      eq_refl eq_refl
      [("filename", VStr filename); ("value", VBytes (repeat Byte.x00 size))]
      filename (repeat Byte.x00 size) eq_refl eq_refl eq_refl).
  split; [|split].
  - exact (proj1 (case "a.zip" 900%nat) eq_refl eq_refl).
  - exact (proj1 (proj2 (case "a.zip" 1500%nat)) eq_refl eq_refl).
  - exact (proj2 (proj2 (case "a.exe" 10%nat)) eq_refl eq_refl).
Defined.

Lemma substring_all (s : string) : substring 0 (String.length s) s = s.
Proof. induction s as [|c s IH]; simpl; [reflexivity | now rewrite IH]. Qed.

Lemma substring_after (stem s : string) (m : nat) :
  substring (String.length stem) m (stem ++ s) = substring 0 m s.
Proof.
  induction stem as [|c stem IH]; simpl; [reflexivity | exact IH].
Qed.

Lemma string_length_app (a b : string) :
  String.length (a ++ b) = (String.length a + String.length b)%nat.
Proof. induction a as [|c a IH]; simpl; [reflexivity | now rewrite IH]. Qed.

(** [endswith] asks for nothing between the stem and the suffix. *)
Lemma str_endswith_app (stem suffix : string) :
  str_endswith (stem ++ suffix) suffix = true.
Proof.
  unfold str_endswith. rewrite string_length_app.
  replace (String.length stem + String.length suffix - String.length suffix)%nat
    with (String.length stem) by lia.
  rewrite substring_after, substring_all, String.eqb_refl.
  destruct (Nat.leb_spec (String.length suffix)
              (String.length stem + String.length suffix)); [reflexivity | lia].
Qed.



(** ** Multiline boxes *)

(** C7. Take a configuration without [language] from which a multiline
    box is constructed, and any configuration that differs from it in the
    [language] field only.  The box of the first has language ["plain"];
    with [language=""] the second constructs the same box; with
    [language="cpp"] it constructs that box with language ["cpp"]; with
    [language="c++"] construction raises [Invalid language c++]. *)
Theorem MultilineBox_language `{Host} (problem boxid : string)
    (boxData boxData' : pydict) (self : MultilineBox.t) :
  dict_lookup "language" boxData = None ->
  MultilineBox.__init__ problem boxid boxData = Return self ->
  (forall k, k <> "language" -> dict_lookup k boxData' = dict_lookup k boxData) ->
  MultilineBox._language self = "plain"
  /\
  (dict_lookup "language" boxData' = None
   \/ dict_lookup "language" boxData' = Some (VStr "") ->
   MultilineBox.__init__ problem boxid boxData' = Return self)
  /\
  (dict_lookup "language" boxData' = Some (VStr "cpp") ->
   MultilineBox.__init__ problem boxid boxData'
   = Return {| MultilineBox.base := MultilineBox.base self;
               MultilineBox._max_chars := MultilineBox._max_chars self;
               MultilineBox._optional := MultilineBox._optional self;
               MultilineBox._lines := MultilineBox._lines self;
               MultilineBox._language := "cpp" |})
  /\
  (dict_lookup "language" boxData' = Some (VStr "c++") ->
   MultilineBox.__init__ problem boxid boxData'
   = Raise (PyException "Invalid language c++")).
Proof.
  intros Hnone Hinit Hagree.
  unfold MultilineBox.__init__, dict_get in *.
  rewrite (Hagree "maxChars"), (Hagree "optional"), (Hagree "lines")
    by discriminate.
  rewrite Hnone in Hinit.
  destruct (BasicBox.__init__ problem boxid) as [b|e]; [|discriminate].
  cbn [obind] in *.
  destruct (match dict_lookup "maxChars" boxData with Some _ => _ | None => _ end)
    as [max_chars|e]; [|discriminate].
  cbn [obind] in *.
  destruct (match dict_lookup "lines" boxData with Some _ => _ | None => _ end)
    as [lines|e]; [|discriminate].
  cbn in Hinit. injection Hinit as <-. cbn.
  split; [reflexivity|].
  split; [intros [-> | ->]; reflexivity|].
  split; intros ->; reflexivity.
Qed.

Lemma MultilineBox_language_witness :
  MultilineBox.__init__ (H := Reference.host) "q1" "code"
    [("type", VStr "multiline"); ("language", VStr "cpp"); ("lines", VInt 12)]
  = Return {| MultilineBox.base := {| BasicBox._id := "code"; BasicBox._problem := "q1" |};
              MultilineBox._max_chars := 0;
              MultilineBox._optional := VBool false;
              MultilineBox._lines := 12;
              MultilineBox._language := "cpp" |}
  /\
  MultilineBox.__init__ (H := Reference.host) "q1" "code"
    [("type", VStr "multiline"); ("language", VStr "c++"); ("lines", VInt 12)]
  = Raise (PyException "Invalid language c++").
Proof.
  assert (Hagree : forall language k, k <> "language" ->
    dict_lookup k [("type", VStr "multiline"); ("language", language);
                   ("lines", VInt 12)]
    = dict_lookup k [("type", VStr "multiline"); ("lines", VInt 12)]).
  { intros language k Hk. simpl.
    destruct (String.eqb k "type"); [reflexivity|].
    destruct (String.eqb_spec k "language"); [contradiction | reflexivity]. }
  split.
  - exact (proj1 (proj2 (proj2
      (MultilineBox_language (H := Reference.host) "q1" "code"
         [("type", VStr "multiline"); ("lines", VInt 12)]
         [("type", VStr "multiline"); ("language", VStr "cpp"); ("lines", VInt 12)]
         _ eq_refl eq_refl (Hagree (VStr "cpp"))))) eq_refl).
  - exact (proj2 (proj2 (proj2
      (MultilineBox_language (H := Reference.host) "q1" "code"
         [("type", VStr "multiline"); ("lines", VInt 12)]
         [("type", VStr "multiline"); ("language", VStr "c++"); ("lines", VInt 12)]
         _ eq_refl eq_refl (Hagree (VStr "c++"))))) eq_refl).
Defined.

(** Whatever else the configuration holds, [language="c++"] makes the
    construction of a multiline box raise. *)
Lemma MultilineBox_cxx_always_raises `{Host} (problem boxid : string)
    (boxData : pydict) :
  dict_lookup "language" boxData = Some (VStr "c++") ->
  exists e, MultilineBox.__init__ problem boxid boxData = Raise e.
Proof.
  intros Hlang. unfold MultilineBox.__init__, dict_get. rewrite Hlang.
  destruct (BasicBox.__init__ problem boxid) as [b|e]; cbn [obind]; [|eauto].
  destruct (match dict_lookup "maxChars" boxData with Some _ => _ | None => _ end)
    as [max_chars|e]; cbn [obind]; [|eauto].
  destruct (match dict_lookup "lines" boxData with Some _ => _ | None => _ end)
    as [lines|e]; cbn [obind]; [|eauto].
  eexists. reflexivity.
Qed.

(** ** Problem-level validation *)

Lemma for_boxes_true_iff `{Interpreter} (boxes : list box)
    (default_allowed_extension default_max_size : pyval) (d d' : pydict) :
  CustomProblem.for_boxes_input_is_consistent boxes
    default_allowed_extension default_max_size d = (Return true, d')
  <-> all_pass default_allowed_extension default_max_size boxes d d'.
Proof.
  revert d. induction boxes as [|b boxes IH]; intros d; simpl.
  - unfold ret. split.
    + intros [= <-]. constructor.
    + intros Hall. inversion Hall. reflexivity.
  - rewrite bind_run. split.
    + destruct (box_input_is_consistent b _ _ d) as [[[|]|e] d1] eqn:Hb;
        cbn [negb]; try discriminate.
      intros Hrest. econstructor; [exact Hb | now apply IH].
    + intros Hall. inversion Hall as [|b0 boxes0 d0 d1 d2 Hb Hrest]; subst.
      rewrite Hb. cbn [negb]. now apply IH.
Qed.

Lemma for_boxes_false_iff `{Interpreter} (boxes : list box)
    (default_allowed_extension default_max_size : pyval) (d d' : pydict) :
  CustomProblem.for_boxes_input_is_consistent boxes
    default_allowed_extension default_max_size d = (Return false, d')
  <-> exists (before : list box) (b : box) (after : list box) (mid : pydict),
        boxes = (before ++ b :: after)%list /\
        all_pass default_allowed_extension default_max_size before d mid /\
        box_input_is_consistent b default_allowed_extension default_max_size mid
          = (Return false, d').
Proof.
  revert d. induction boxes as [|b boxes IH]; intros d; simpl.
  - unfold ret. split; [discriminate|].
    intros (before & b & after & mid & Heq & _). now destruct before.
  - rewrite bind_run. split.
    + destruct (box_input_is_consistent b _ _ d) as [[[|]|e] d1] eqn:Hb;
        cbn [negb]; try discriminate.
      * intros Hrest. apply IH in Hrest.
        destruct Hrest as (before & b' & after & mid & -> & Hall & Hb').
        exists (b :: before), b', after, mid. repeat split; [|exact Hb'].
        econstructor; eassumption.
      * unfold ret. intros [= <-].
        exists [], b, boxes, d. repeat split; [constructor | exact Hb].
    + intros (before & b' & after & mid & Heq & Hall & Hb').
      destruct before as [|b0 before]; simpl in Heq; injection Heq as <- ->.
      * inversion Hall; subst. rewrite Hb'. reflexivity.
      * inversion Hall as [|b1 boxes1 d0 d1 d2 Hb Hrest]; subst.
        rewrite Hb. cbn [negb]. apply IH.
        exists before, b', after, mid. repeat split; assumption.
Qed.

(** What the loop computes.  The problem-level [input_is_consistent]
    returns false exactly when, checking the boxes in declaration order
    on the submission as the earlier checks left it, some box's own check
    returns false after all the boxes before it returned true.  The store
    it leaves is the one that box left: the boxes after it are not run,
    so their defaulting of optional fields does not happen. *)
Theorem problem_input_is_consistent_false_iff `{Interpreter} (self : CustomProblem.t)
    (default_allowed_extension default_max_size : pyval) (d d' : pydict) :
  CustomProblem.input_is_consistent self default_allowed_extension default_max_size d
    = (Return false, d')
  <-> exists (before : list box) (b : box) (after : list box) (mid : pydict),
        CustomProblem.get_boxes self = (before ++ b :: after)%list /\
        all_pass default_allowed_extension default_max_size before d mid /\
        box_input_is_consistent b default_allowed_extension default_max_size mid
          = (Return false, d').
Proof. apply for_boxes_false_iff. Qed.

Lemma problem_input_is_consistent_false_iff_witness :
  let required :=
    Input {| InputBox.base := {| BasicBox._id := "a"; BasicBox._problem := "q1" |};
             InputBox._input_type := "integer"; InputBox._default_value := "0";
             InputBox._optional := VBool false; InputBox._max_chars := 0 |} in
  let optional :=
    Input {| InputBox.base := {| BasicBox._id := "b"; BasicBox._problem := "q1" |};
             InputBox._input_type := "integer"; InputBox._default_value := "0";
             InputBox._optional := VBool true; InputBox._max_chars := 0 |} in
  CustomProblem.input_is_consistent (H := Reference.interpreter)
    {| CustomProblem._id := "q1"; CustomProblem._boxes := [optional; required] |}
    VNone VNone [("q1/a", VStr ""); ("q1/b", VStr "")]
  = (Return false, [("q1/a", VStr ""); ("q1/b", VStr "0")]).
Proof.
  intros required optional.
  apply problem_input_is_consistent_false_iff.
  exists [optional], required, [], [("q1/a", VStr ""); ("q1/b", VStr "0")].
  split; [reflexivity|]. split; [|reflexivity].
  eapply all_pass_cons; [reflexivity | apply all_pass_nil].
Defined.

(** *** Reading the checks on the submission as received *)

(** When the boxes have distinct composite ids, a check that runs after
    others sees its own entry as the caller passed it, so each box's check
    can be read on the original submission. *)
Lemma for_boxes_false_original `{Interpreter} (boxes : list box)
    (default_allowed_extension default_max_size : pyval) (d0 d : pydict) :
  let check b d :=
    fst (box_input_is_consistent b default_allowed_extension default_max_size d) in
  NoDup (map box_complete_id boxes) ->
  (forall b, In b boxes ->
     dict_lookup (box_complete_id b) d = dict_lookup (box_complete_id b) d0) ->
  fst (CustomProblem.for_boxes_input_is_consistent boxes
         default_allowed_extension default_max_size d) = Return false
  <-> exists (before : list box) (b : box) (after : list box),
        boxes = (before ++ b :: after)%list /\
        (forall x, In x before -> check x d0 = Return true) /\
        check b d0 = Return false.
Proof.
  intros check. revert d. induction boxes as [|b boxes IH]; intros d Hnodup Hsame.
  - cbn. split; [discriminate|]. intros (before & b & after & Heq & _).
    now destruct before.
  - cbn [CustomProblem.for_boxes_input_is_consistent]. rewrite bind_run.
    cbn [map] in Hnodup. apply NoDup_cons_iff in Hnodup as [Hfresh Hnodup].
    assert (Hb : check b d = check b d0).
    { apply box_check_reads_own_entry, Hsame. now left. }
    assert (Hrest : forall x, In x boxes ->
      dict_lookup (box_complete_id x)
        (snd (box_input_is_consistent b default_allowed_extension
                default_max_size d))
      = dict_lookup (box_complete_id x) d0).
    { intros x Hx. rewrite box_check_writes_own_entry.
      - apply Hsame. now right.
      - intros Heq. apply Hfresh. rewrite <- Heq. now apply in_map. }
    unfold check in Hb.
    destruct (box_input_is_consistent b _ _ d) as [[[|]|e] d1] eqn:Hrun;
      cbn [fst snd negb] in *.
    + rewrite (IH d1 Hnodup Hrest). split.
      * intros (before & b' & after & -> & Hbefore & Hb').
        exists (b :: before), b', after. repeat split; [|exact Hb'].
        intros x [<-|Hx]; [now symmetry | now apply Hbefore].
      * intros (before & b' & after & Heq & Hbefore & Hb').
        destruct before as [|b0 before]; cbn in Heq; injection Heq as <- ->.
        -- unfold check in Hb'. congruence.
        -- exists before, b', after. repeat split; [|exact Hb'].
           intros x Hx. apply Hbefore. now right.
    + split; [|reflexivity]. intros _.
      exists [], b, boxes. repeat split; [intros x [] | now symmetry].
    + split; [discriminate|].
      intros (before & b' & after & Heq & Hbefore & Hb').
      destruct before as [|b0 before]; cbn in Heq; injection Heq as <- ->.
      * unfold check in Hb'. congruence.
      * specialize (Hbefore b (or_introl eq_refl)). unfold check in Hbefore.
        congruence.
Qed.

(** The first box whose check returns false, when no check raises. *)
Lemma first_false_check (boxes : list box) (check : box -> outcome bool) :
  (forall b, In b boxes -> exists r, check b = Return r) ->
  (exists b, In b boxes /\ check b = Return false) ->
  exists (before : list box) (b : box) (after : list box),
    boxes = (before ++ b :: after)%list /\
    (forall x, In x before -> check x = Return true) /\
    check b = Return false.
Proof.
  induction boxes as [|b boxes IH]; intros Hret (f & Hin & Hf); [destruct Hin|].
  destruct (Hret b (or_introl eq_refl)) as [[|] Hb].
  - destruct IH as (before & b' & after & -> & Hbefore & Hb').
    + intros x Hx. apply Hret. now right.
    + destruct Hin as [<-|Hin]; [congruence | eauto].
    + exists (b :: before), b', after. repeat split; [|exact Hb'].
      intros x [<-|Hx]; [exact Hb | now apply Hbefore].
  - exists [], b, boxes. repeat split; [intros x [] | exact Hb].
Qed.

(** For boxes with distinct composite ids whose checks do not raise on the
    submission, the problem-level check returns false exactly when the
    check of at least one box, read on the submission as received, returns
    false. *)
Lemma problem_false_iff_some_box_false `{Interpreter} (self : CustomProblem.t)
    (default_allowed_extension default_max_size : pyval) (d : pydict) :
  let check b :=
    fst (box_input_is_consistent b default_allowed_extension default_max_size d) in
  NoDup (map box_complete_id (CustomProblem.get_boxes self)) ->
  (forall b, In b (CustomProblem.get_boxes self) -> exists r, check b = Return r) ->
  fst (CustomProblem.input_is_consistent self
         default_allowed_extension default_max_size d) = Return false
  <-> exists b, In b (CustomProblem.get_boxes self) /\ check b = Return false.
Proof.
  intros check Hnodup Hret.
  unfold CustomProblem.input_is_consistent, CustomProblem.get_boxes in *.
  rewrite (for_boxes_false_original _ _ _ d d Hnodup (fun _ _ => eq_refl)).
  split.
  - intros (before & b & after & Heq & _ & Hb). exists b. split; [|exact Hb].
    rewrite Heq. apply in_elt.
  - intros Hsome. exact (first_false_check _ check Hret Hsome).
Qed.

(** With a required box before an optional one, an empty submission is
    rejected at the first box and the second entry is not defaulted; in
    the other order the optional entry is defaulted before the rejection. *)
Example short_circuit_skips_defaulting :
  let required :=
    Input {| InputBox.base := {| BasicBox._id := "a"; BasicBox._problem := "q1" |};
             InputBox._input_type := "integer"; InputBox._default_value := "0";
             InputBox._optional := VBool false; InputBox._max_chars := 0 |} in
  let optional :=
    Input {| InputBox.base := {| BasicBox._id := "b"; BasicBox._problem := "q1" |};
             InputBox._input_type := "integer"; InputBox._default_value := "0";
             InputBox._optional := VBool true; InputBox._max_chars := 0 |} in
  let d := [("q1/a", VStr ""); ("q1/b", VStr "")] in
  CustomProblem.input_is_consistent (H := Reference.interpreter)
    {| CustomProblem._id := "q1"; CustomProblem._boxes := [required; optional] |}
    VNone VNone d
  = (Return false, [("q1/a", VStr ""); ("q1/b", VStr "")])
  /\
  CustomProblem.input_is_consistent (H := Reference.interpreter)
    {| CustomProblem._id := "q1"; CustomProblem._boxes := [optional; required] |}
    VNone VNone d
  = (Return false, [("q1/a", VStr ""); ("q1/b", VStr "0")]).
Proof. split; reflexivity. Qed.

(** ** Input adaptation *)

(** The file box's adaptation never raises; it writes its own entry and
    no other: the reshaped record when the entry is an object with both
    attributes, the empty record otherwise. *)
Lemma DisplayableFileBox_adapt_run (self : FileBox.t) (d : pydict) :
  let key := BasicBox.get_complete_id (FileBox.base self) in
  DisplayableFileBox.adapt_input_for_backend self d
  = (Return tt,
     dict_set key
       match (v <~ dict_getitem d key ;;
              filename <~ py_getattr v "filename" ;;
              value <~ py_getattr v "value" ;;
              Return (VDict [("filename", filename); ("value", value)])) with
       | Return record => record
       | Raise _ => VDict []
       end d).
Proof.
  cbv zeta. unfold DisplayableFileBox.adapt_input_for_backend. cbv zeta.
  rewrite try_except_run. run. unfold load at 1.
  destruct (dict_getitem d _) as [v|e] eqn:Hv; cbn [obind]; [|reflexivity].
  run. destruct (py_getattr v "filename") as [filename|e]; cbn [obind]; [|reflexivity].
  run. unfold load. rewrite Hv. run.
  destruct (py_getattr v "value") as [value|e]; cbn [obind]; reflexivity.
Qed.

Lemma box_adapt_frame (b : box) (d : pydict) :
  exists d',
    box_adapt_input_for_backend b d = (Return tt, d') /\
    forall k, (forall fb, b = File fb ->
                 BasicBox.get_complete_id (FileBox.base fb) <> k) ->
              dict_lookup k d' = dict_lookup k d.
Proof.
  destruct b as [tb|fb|ib|mb]; try (exists d; split; [reflexivity | auto]).
  eexists. split; [apply DisplayableFileBox_adapt_run|].
  intros k Hk. apply dict_lookup_set_other. intros ->. exact (Hk fb eq_refl eq_refl).
Qed.

Lemma for_boxes_adapt_frame (boxes : list box) (d : pydict) :
  exists d',
    DisplayableCustomProblem.for_boxes_adapt boxes d = (Return tt, d') /\
    forall k, (forall fb, In (File fb) boxes ->
                 BasicBox.get_complete_id (FileBox.base fb) <> k) ->
              dict_lookup k d' = dict_lookup k d.
Proof.
  revert d. induction boxes as [|b boxes IH]; intros d; simpl.
  - exists d. split; [reflexivity | auto].
  - destruct (box_adapt_frame b d) as (d1 & Hb & Hframe1).
    destruct (IH d1) as (d2 & Hrest & Hframe2).
    exists d2. rewrite bind_run, Hb. split; [exact Hrest|].
    intros k Hk. rewrite Hframe2, Hframe1; [reflexivity | |].
    + intros fb ->. apply Hk. now left.
    + intros fb Hin. apply Hk. now right.
Qed.

(** C8. [adapt_input_for_backend], run box by box in declaration order,
    never raises and changes no entry of the submission other than the
    composite ids of the problem's file boxes.  Text, input and multiline
    boxes hand the mapping back as it is.  A file box whose entry cannot
    be reshaped (it is missing, or lacks [filename] or [value]) gets the
    empty record; otherwise it gets the record of the two attributes. *)
Theorem adapt_input_for_backend_frame (self : CustomProblem.t) (d : pydict) :
  (exists d',
     DisplayableCustomProblem.adapt_input_for_backend self d = (Return tt, d') /\
     forall k, (forall fb, In (File fb) (CustomProblem.get_boxes self) ->
                  BasicBox.get_complete_id (FileBox.base fb) <> k) ->
               dict_lookup k d' = dict_lookup k d)
  /\
  (forall b, (forall fb, b <> File fb) ->
     box_adapt_input_for_backend b d = (Return tt, d))
  /\
  (forall fb,
     let key := BasicBox.get_complete_id (FileBox.base fb) in
     let reshaped :=
       (v <~ dict_getitem d key ;;
        filename <~ py_getattr v "filename" ;;
        value <~ py_getattr v "value" ;;
        Return (VDict [("filename", filename); ("value", value)])) in
     box_adapt_input_for_backend (File fb) d
     = (Return tt,
        dict_set key match reshaped with
                     | Return record => record
                     | Raise _ => VDict []
                     end d)).
Proof.
  split; [apply for_boxes_adapt_frame | split].
  - intros [tb|fb|ib|mb] Hb; try reflexivity. now destruct (Hb fb).
  - intros fb. apply DisplayableFileBox_adapt_run.
Qed.

Lemma adapt_input_for_backend_frame_witness :
  let upload :=
    {| FileBox.base := {| BasicBox._id := "upload"; BasicBox._problem := "q1" |};
       FileBox._allowed_exts := VNone; FileBox._max_size := VNone |} in
  let problem :=
    {| CustomProblem._id := "q1"; CustomProblem._boxes := [File upload] |} in
  let d := [("q1/name", VStr "Ada"); ("q1/upload", VStr "a.zip")] in
  exists d',
    DisplayableCustomProblem.adapt_input_for_backend problem d = (Return tt, d') /\
    dict_lookup "q1/name" d' = Some (VStr "Ada").
Proof.
  intros upload problem d.
  destruct (proj1 (adapt_input_for_backend_frame problem d)) as (d' & Hrun & Hframe).
  exists d'. split; [exact Hrun|].
  rewrite (Hframe "q1/name"); [reflexivity|].
  intros fb [Heq|[]]. injection Heq as <-. discriminate.
Defined.

Example adapt_input_for_backend_run :
  let upload :=
    File {| FileBox.base := {| BasicBox._id := "upload"; BasicBox._problem := "q1" |};
            FileBox._allowed_exts := VNone; FileBox._max_size := VNone |} in
  let name :=
    Input {| InputBox.base := {| BasicBox._id := "name"; BasicBox._problem := "q1" |};
             InputBox._input_type := "text"; InputBox._default_value := "";
             InputBox._optional := VBool false; InputBox._max_chars := 0 |} in
  let problem := {| CustomProblem._id := "q1"; CustomProblem._boxes := [name; upload] |} in
  DisplayableCustomProblem.adapt_input_for_backend problem
    [("q1/upload", VObj [("filename", VStr "a.zip"); ("value", VBytes [Byte.x50]);
                         ("type", VStr "application/zip")]);
     ("q1/name", VStr "Ada")]
  = (Return tt,
     [("q1/upload", VDict [("filename", VStr "a.zip"); ("value", VBytes [Byte.x50])]);
      ("q1/name", VStr "Ada")])
  /\
  DisplayableCustomProblem.adapt_input_for_backend problem
    [("q1/upload", VStr "a.zip"); ("q1/name", VStr "Ada")]
  = (Return tt, [("q1/upload", VDict []); ("q1/name", VStr "Ada")])
  /\
  DisplayableCustomProblem.adapt_input_for_backend problem [("q1/name", VStr "Ada")]
  = (Return tt, [("q1/name", VStr "Ada"); ("q1/upload", VDict [])]).
Proof. repeat split. Qed.

(** ** Construction of problems *)

Lemma BasicBox_init_inv `{Host} (problem boxid : string) (b : BasicBox.t) :
  BasicBox.__init__ problem boxid = Return b ->
  b = {| BasicBox._id := boxid; BasicBox._problem := problem |}.
Proof.
  unfold BasicBox.__init__.
  destruct (negb (id_checker boxid) && negb (String.eqb boxid "")); [discriminate|].
  now intros [= <-].
Qed.

(** The box a class constructs carries the id and the problem it was
    given. *)
Lemma box_class_base `{Host} (name : string) (class : CustomProblem.box_class)
    (problem boxid : string) (boxData : pydict) (b : box) :
  CustomProblem.box_types_lookup name CustomProblem._box_types = Some class ->
  class problem boxid boxData = Return b ->
  box_base b = {| BasicBox._id := boxid; BasicBox._problem := problem |}.
Proof.
  assert (Hinput : CustomProblem.InputBox_class problem boxid boxData = Return b ->
    box_base b = {| BasicBox._id := boxid; BasicBox._problem := problem |}).
  { unfold CustomProblem.InputBox_class, InputBox.__init__.
    destruct (BasicBox.__init__ problem boxid) as [bb|] eqn:Hb; [|discriminate].
    apply BasicBox_init_inv in Hb as ->. cbn [obind].
    destruct (dict_getitem boxData "type") as [ty|]; [|discriminate]. cbn [obind].
    destruct (if type_is ty "input-text" then _ else _) as [td|]; [|discriminate].
    cbn [obind].
    destruct (match dict_lookup "maxChars" boxData with Some _ => _ | None => _ end);
      [|discriminate].
    now intros [= <-]. }
  assert (Hmulti : CustomProblem.MultilineBox_class problem boxid boxData = Return b ->
    box_base b = {| BasicBox._id := boxid; BasicBox._problem := problem |}).
  { unfold CustomProblem.MultilineBox_class, MultilineBox.__init__.
    destruct (BasicBox.__init__ problem boxid) as [bb|] eqn:Hb; [|discriminate].
    apply BasicBox_init_inv in Hb as ->. cbn [obind].
    destruct (match dict_lookup "maxChars" boxData with Some _ => _ | None => _ end);
      [|discriminate].
    cbn [obind].
    destruct (match dict_lookup "lines" boxData with Some _ => _ | None => _ end);
      [|discriminate].
    cbn [obind].
    destruct (MultilineBox.language_match _) as [matched|]; [|discriminate].
    cbn [obind].
    destruct (if matched then _ else _); [|discriminate].
    now intros [= <-]. }
  assert (Htext : CustomProblem.TextBox_class problem boxid boxData = Return b ->
    box_base b = {| BasicBox._id := boxid; BasicBox._problem := problem |}).
  { unfold CustomProblem.TextBox_class, TextBox.__init__.
    destruct (BasicBox.__init__ problem boxid) as [bb|] eqn:Hb; [|discriminate].
    apply BasicBox_init_inv in Hb as ->. cbn [obind].
    destruct (negb (dict_mem "content" boxData)); [discriminate|].
    destruct (dict_getitem boxData "content"); [|discriminate].
    now intros [= <-]. }
  assert (Hfile : CustomProblem.FileBox_class problem boxid boxData = Return b ->
    box_base b = {| BasicBox._id := boxid; BasicBox._problem := problem |}).
  { unfold CustomProblem.FileBox_class, FileBox.__init__.
    destruct (BasicBox.__init__ problem boxid) as [bb|] eqn:Hb; [|discriminate].
    apply BasicBox_init_inv in Hb as ->. now intros [= <-]. }
  unfold CustomProblem._box_types. cbn [CustomProblem.box_types_lookup].
  repeat match goal with
         | |- (if ?c then _ else _) = _ -> _ => destruct c
         end;
    intros [= <-]; assumption.
Qed.

Lemma create_box_base `{Host} (problem boxid : string) (box_content : pyval)
    (b : box) :
  CustomProblem._create_box problem boxid box_content = Return b ->
  box_base b = {| BasicBox._id := boxid; BasicBox._problem := problem |}.
Proof.
  unfold CustomProblem._create_box.
  destruct (negb (id_checker boxid) && negb (String.eqb boxid "")); [discriminate|].
  destruct (py_in "type" box_content) as [[|]|]; cbn [obind negb]; try discriminate.
  destruct (py_getitem box_content "type") as [ty|]; cbn [obind]; [|discriminate].
  unfold CustomProblem.box_type_find.
  destruct ty as [| | |name| | | |]; cbn [obind]; try discriminate.
  destruct (CustomProblem.box_types_lookup name CustomProblem._box_types)
    as [class|] eqn:Hclass; [|discriminate].
  destruct box_content as [| | | | | |boxData|]; try discriminate.
  now apply box_class_base with (name := name).
Qed.

(** The boxes of a box mapping are those of its keys, in order, and no
    key is empty. *)
Lemma for_items_create_bases `{Host} (problem : string) (items : pydict)
    (boxes : list box) :
  CustomProblem.for_items_create problem items = Return boxes ->
  map box_base boxes
  = map (fun kv => {| BasicBox._id := fst kv; BasicBox._problem := problem |}) items
  /\ ~ In "" (map fst items).
Proof.
  revert boxes. induction items as [|[boxid box_content] items IH]; intros boxes; simpl.
  - intros [= <-]. split; [reflexivity | auto].
  - destruct (String.eqb_spec boxid "") as [->|Hne]; [discriminate|].
    destruct (CustomProblem._create_box problem boxid box_content) as [b|] eqn:Hb;
      [|discriminate].
    cbn [obind].
    destruct (CustomProblem.for_items_create problem items) as [rest|];
      [|discriminate].
    cbn [obind]. intros [= <-]. destruct (IH rest eq_refl) as [Hbases Hnone].
    simpl. rewrite Hbases, (create_box_base _ _ _ _ Hb). split; [reflexivity|].
    intros [Heq|Hin]; [now apply Hne | now apply Hnone].
Qed.

Lemma for_items_create_ids `{Host} (problem : string) (items : pydict)
    (boxes : list box) :
  CustomProblem.for_items_create problem items = Return boxes ->
  map box_id boxes = map fst items /\ ~ In "" (map fst items).
Proof.
  intros Hcreate. destruct (for_items_create_bases _ _ _ Hcreate) as [Hbases Hnone].
  split; [|exact Hnone].
  unfold box_id. rewrite <- (map_map box_base BasicBox._id), Hbases, map_map.
  reflexivity.
Qed.

Lemma string_app_inv_head (p a b : string) : p ++ a = p ++ b -> a = b.
Proof.
  induction p as [|c p IH]; simpl; [auto|]. intros [= Heq]. auto.
Qed.

(** The boxes of a constructed problem have distinct composite ids, the
    keys of a dict being distinct. *)
Lemma constructed_ids_distinct `{Host} (problemid : string) (content items : pydict)
    (self : CustomProblem.t) :
  CustomProblem.__init__ problemid content = Return self ->
  dict_lookup "boxes" content = Some (VDict items) ->
  NoDup (map fst items) ->
  NoDup (map box_complete_id (CustomProblem.get_boxes self)).
Proof.
  unfold CustomProblem.__init__. intros Hinit Hboxes Hnodup.
  destruct (Problem_init problemid content); cbn [obind] in Hinit; [|discriminate].
  unfold CustomProblem._init_boxes, dict_getitem in Hinit.
  rewrite dict_mem_lookup, Hboxes in Hinit. cbn [obind CustomProblem.py_items] in Hinit.
  destruct (CustomProblem.for_items_create problemid items) as [boxes|] eqn:Hcreate;
    cbn [obind] in Hinit; [|discriminate].
  injection Hinit as <-. cbn [CustomProblem.get_boxes CustomProblem._boxes].
  destruct (for_items_create_bases _ _ _ Hcreate) as [Hbases Hnone].
  unfold box_complete_id. rewrite <- (map_map box_base BasicBox.get_complete_id), Hbases.
  rewrite map_map. cbn [BasicBox.get_complete_id BasicBox._id BasicBox._problem].
  clear Hbases Hcreate Hboxes.
  induction items as [|[k v] items IH]; cbn [map fst] in *; [constructor|].
  apply NoDup_cons_iff in Hnodup as [Hfresh Hnodup].
  unfold BasicBox.get_complete_id at 1. cbn [BasicBox._id BasicBox._problem].
  constructor.
  - intros Hin. apply in_map_iff in Hin as ([k' v'] & Heq & Hin').
    unfold BasicBox.get_complete_id in Heq. cbn [BasicBox._id BasicBox._problem fst] in Heq.
    assert (Hk : k <> "") by (intros ->; apply Hnone; now left).
    assert (Hk' : k' <> "").
    { intros ->. apply Hnone. right. apply in_map_iff. now exists ("", v'). }
    destruct (String.eqb_spec k' "") as [|_]; [contradiction|].
    destruct (String.eqb_spec k "") as [|_]; [contradiction|].
    cbn [negb] in Heq. apply string_app_inv_head in Heq.
    apply (string_app_inv_head "/") in Heq. subst k'.
    apply Hfresh. apply in_map_iff. now exists (k, v').
  - apply IH; [exact Hnodup|]. intros Hin. apply Hnone. now right.
Qed.

Lemma for_items_create_empty_id `{Host} (problem : string) (items : pydict) :
  In "" (map fst items) ->
  exists e, CustomProblem.for_items_create problem items = Raise e.
Proof.
  intros Hin. destruct (CustomProblem.for_items_create problem items) as [boxes|e] eqn:E.
  - now destruct (proj2 (for_items_create_ids _ _ _ E)).
  - eauto.
Qed.

(** C2, as the code has it.  Construction of a problem whose box mapping
    has the empty string among its ids raises, whatever the host's id
    checker: [_init_boxes] refuses the empty id.  So no box of a
    constructed problem has the empty id, and the ids of its boxes are the
    keys of the mapping in their order.  The exemption of the empty string
    from the identifier check exists one level down only: [_create_box]
    and the box constructors accept it. *)
Theorem empty_box_id_refused `{Host} :
  (forall (problemid : string) (content items : pydict),
     dict_lookup "boxes" content = Some (VDict items) ->
     In "" (map fst items) ->
     exists e, CustomProblem.__init__ problemid content = Raise e)
  /\
  (forall (problemid : string) (content : pydict) (self : CustomProblem.t),
     CustomProblem.__init__ problemid content = Return self ->
     ~ In "" (map box_id (CustomProblem.get_boxes self)))
  /\
  (forall (problem : string) (content : pyval),
     CustomProblem._create_box problem ""
       (VDict [("type", VStr "text"); ("content", content)])
     = Return (Text {| TextBox.base := {| BasicBox._id := "";
                                          BasicBox._problem := problem |};
                       TextBox._content := content |})).
Proof.
  split; [|split].
  - intros problemid content items Hboxes Hin. unfold CustomProblem.__init__.
    destruct (Problem_init problemid content); cbn [obind]; [|eauto].
    unfold CustomProblem._init_boxes, dict_getitem.
    rewrite dict_mem_lookup, Hboxes. cbn [obind CustomProblem.py_items].
    destruct (for_items_create_empty_id problemid items Hin) as [e ->].
    cbn [obind]. eauto.
  - intros problemid content self. unfold CustomProblem.__init__.
    destruct (Problem_init problemid content); cbn [obind]; [|discriminate].
    unfold CustomProblem._init_boxes.
    destruct (dict_mem "boxes" content).
    + destruct (dict_getitem content "boxes") as [boxes|]; cbn [obind]; [|discriminate].
      destruct (CustomProblem.py_items boxes) as [items|]; cbn [obind]; [|discriminate].
      destruct (CustomProblem.for_items_create problemid items) as [bs|] eqn:E;
        cbn [obind]; [|discriminate].
      intros [= <-]. cbn. destruct (for_items_create_ids _ _ _ E) as [-> Hnone].
      exact Hnone.
    + cbn [obind]. intros [= <-]. cbn. auto.
  - intros problem content.
    unfold CustomProblem._create_box, CustomProblem.box_type_find,
      CustomProblem._box_types, CustomProblem.TextBox_class, TextBox.__init__,
      BasicBox.__init__.
    cbn. destruct (id_checker ""); reflexivity.
Qed.

Lemma empty_box_id_refused_witness :
  exists e,
    CustomProblem.__init__ (H := Reference.host) "q1"
      [("boxes", VDict [("intro", VDict [("type", VStr "text");
                                         ("content", VStr "Read this first.")]);
                        ("", VDict [("type", VStr "input-text")])])]
    = Raise e.
Proof.
  apply (proj1 (empty_box_id_refused (H := Reference.host)) "q1" _
           [("intro", VDict [("type", VStr "text");
                             ("content", VStr "Read this first.")]);
            ("", VDict [("type", VStr "input-text")])]).
  - reflexivity.
  - right. left. reflexivity.
Defined.

(** C2, as the claim has it, fails: with the reference host, a task
    whose only box has the empty id is not constructed. *)
Lemma empty_box_id_counterexample :
  CustomProblem.__init__ (H := Reference.host) "q1"
    [("name", VStr "Question 1");
     ("boxes", VDict [("", VDict [("type", VStr "text");
                                  ("content", VStr "Read this first.")])])]
  = Raise (PyException "Empty box ids are not allowed").
Proof. reflexivity. Qed.

(** ** Exceptions out of the consistency checks *)

(** The base check, the text box and the file box never raise. *)
Lemma guarded_checks_return `{Interpreter}
    (default_allowed_extension default_max_size : pyval) (d : pydict) :
  (forall self : BasicBox.t,
     exists r, BasicBox.input_is_consistent self
                 default_allowed_extension default_max_size d = (Return r, d))
  /\
  (forall self : TextBox.t,
     TextBox.input_is_consistent self default_allowed_extension default_max_size d
     = (Return true, d))
  /\
  (forall self : FileBox.t,
     exists r, FileBox.input_is_consistent self
                 default_allowed_extension default_max_size d = (Return r, d)).
Proof.
  split; [|split].
  - intros self. eexists. apply basic_input_is_consistent_run.
  - reflexivity.
  - intros self. eexists. apply FileBox_run_entry.
Qed.

(** A multiline box lets the exception of [len] out: nothing guards its
    two calls. *)
Lemma MultilineBox_len_raises (self : MultilineBox.t)
    (default_allowed_extension default_max_size : pyval)
    (d : pydict) (v : pyval) (e : pyexc) :
  dict_lookup (BasicBox.get_complete_id (MultilineBox.base self)) d = Some v ->
  py_len v = Raise e ->
  MultilineBox.input_is_consistent self default_allowed_extension default_max_size d
  = (Raise e, d).
Proof.
  intros Hv Hlen. rewrite MultilineBox_run. cbv zeta. now rewrite Hv, Hlen.
Qed.

(** An input box lets it out when it has a length limit; without one, the
    first call of [len] is the guarded one and the verdict is false. *)
Lemma InputBox_len_raises (self : InputBox.t)
    (default_allowed_extension default_max_size : pyval)
    (d : pydict) (v : pyval) (e : pyexc) :
  dict_lookup (BasicBox.get_complete_id (InputBox.base self)) d = Some v ->
  py_len v = Raise e ->
  InputBox.input_is_consistent self default_allowed_extension default_max_size d
  = (if InputBox._max_chars self =? 0 then Return false else Raise e, d).
Proof.
  intros Hv Hlen. rewrite InputBox_run. cbv zeta. now rewrite Hv, Hlen.
Qed.

(** No check raises when the entry of the box, if there is one, has a
    length: a [str], [bytes], a list or a dict. *)
Lemma checks_return_on_sized_values `{Interpreter} (b : box)
    (default_allowed_extension default_max_size : pyval) (d : pydict) :
  (forall v, dict_lookup (box_complete_id b) d = Some v ->
             exists n, py_len v = Return n) ->
  exists r d',
    box_input_is_consistent b default_allowed_extension default_max_size d
    = (Return r, d').
Proof.
  unfold box_complete_id.
  destruct b as [tb|fb|ib|mb]; cbn [box_base box_input_is_consistent]; intros Hsized.
  - eexists _, _. reflexivity.
  - eexists _, _. apply FileBox_run_entry.
  - rewrite InputBox_run. cbv zeta.
    destruct (dict_lookup _ d) as [v|]; [|eauto].
    destruct (Hsized v eq_refl) as [n ->].
    repeat match goal with |- context [if ?c then _ else _] => destruct c end; eauto.
  - rewrite MultilineBox_run. cbv zeta.
    destruct (dict_lookup _ d) as [v|]; [|eauto].
    destruct (Hsized v eq_refl) as [n ->].
    repeat match goal with |- context [if ?c then _ else _] => destruct c end; eauto.
Qed.

(** C1, at a failing input.  The submission holds an uploaded-file object
    under the composite id of a multiline box, of an input box with a
    length limit, and of a problem made of the former: in each case
    [input_is_consistent] raises [TypeError] instead of returning false. *)
Theorem input_is_consistent_raises_on_unsized_value :
  let upload := VObj [("filename", VStr "a.zip"); ("value", VBytes [Byte.x50])] in
  let code :=
    {| MultilineBox.base := {| BasicBox._id := "code"; BasicBox._problem := "q1" |};
       MultilineBox._max_chars := 0;
       MultilineBox._optional := VBool false;
       MultilineBox._lines := 8;
       MultilineBox._language := "plain" |} in
  let name :=
    {| InputBox.base := {| BasicBox._id := "name"; BasicBox._problem := "q1" |};
       InputBox._input_type := "text";
       InputBox._default_value := "";
       InputBox._optional := VBool false;
       InputBox._max_chars := 10 |} in
  MultilineBox.__init__ (H := Reference.host) "q1" "code" [("type", VStr "multiline")]
    = Return code
  /\
  InputBox.__init__ (H := Reference.host) "q1" "name"
    [("type", VStr "input-text"); ("maxChars", VInt 10)] = Return name
  /\
  MultilineBox.input_is_consistent code (VList [VStr ".zip"]) (VInt 1000000)
    [("q1/code", upload)] = (Raise TypeError, [("q1/code", upload)])
  /\
  InputBox.input_is_consistent name (VList [VStr ".zip"]) (VInt 1000000)
    [("q1/name", upload)] = (Raise TypeError, [("q1/name", upload)])
  /\
  CustomProblem.input_is_consistent (H := Reference.interpreter)
    {| CustomProblem._id := "q1"; CustomProblem._boxes := [Multiline code] |}
    (VList [VStr ".zip"]) (VInt 1000000) [("q1/code", upload)]
  = (Raise TypeError, [("q1/code", upload)]).
Proof. repeat split. Qed.

(** C3, at a failing input.  A problem constructed with a multiline box
    followed by a required text input box; the submission holds an
    uploaded-file object under the id of the first and the empty string
    under the id of the second.  The own check of the second box returns
    false on that submission, yet the problem-level [input_is_consistent]
    does not return false: the unguarded [len] of the multiline box (the
    defect of C1) raises [TypeError] through the loop before the second
    box is reached. *)
Theorem problem_raises_though_a_box_returns_false :
  let upload := VObj [("filename", VStr "a.zip"); ("value", VBytes [Byte.x50])] in
  let code :=
    {| MultilineBox.base := {| BasicBox._id := "code"; BasicBox._problem := "q1" |};
       MultilineBox._max_chars := 0;
       MultilineBox._optional := VBool false;
       MultilineBox._lines := 8;
       MultilineBox._language := "plain" |} in
  let name :=
    {| InputBox.base := {| BasicBox._id := "name"; BasicBox._problem := "q1" |};
       InputBox._input_type := "text";
       InputBox._default_value := "";
       InputBox._optional := VBool false;
       InputBox._max_chars := 0 |} in
  let problem :=
    {| CustomProblem._id := "q1";
       CustomProblem._boxes := [Multiline code; Input name] |} in
  let d := [("q1/code", upload); ("q1/name", VStr "")] in
  (CustomProblem.__init__ (H := Reference.host) "q1"
     [("name", VStr "Question 1");
      ("boxes", VDict [("code", VDict [("type", VStr "multiline")]);
                       ("name", VDict [("type", VStr "input-text")])])]
   = Return problem)
  /\
  (box_input_is_consistent (H := Reference.interpreter) (Input name)
     (VList [VStr ".zip"]) (VInt 1000000) d
   = (Return false, d))
  /\
  (CustomProblem.input_is_consistent (H := Reference.interpreter) problem
     (VList [VStr ".zip"]) (VInt 1000000) d
   = (Raise TypeError, d)).
Proof. repeat split. Qed.

(** ** The check of one box, case by case *)

Lemma box_run_sized `{Interpreter} (b : box)
    (default_allowed_extension default_max_size : pyval) (d : pydict)
    (v : pyval) (n limit : Z) :
  box_max_chars b = Some limit ->
  dict_lookup (box_complete_id b) d = Some v ->
  py_len v = Return n ->
  box_input_is_consistent b default_allowed_extension default_max_size d
  = if negb (limit =? 0) && (n >? limit) then (Return false, d)
    else match b with
         | Input ib =>
             if n =? 0 then
               if py_truthy (InputBox._optional ib)
               then (Return (conversion_ok (InputBox._input_type ib)
                               (VStr (InputBox._default_value ib))),
                     dict_set (box_complete_id b)
                       (VStr (InputBox._default_value ib)) d)
               else (Return false, d)
             else (Return (conversion_ok (InputBox._input_type ib) v), d)
         | Multiline mb =>
             if n =? 0 then
               if py_truthy (MultilineBox._optional mb)
               then (Return true, dict_set (box_complete_id b) (VStr "") d)
               else (Return false, d)
             else (Return true, d)
         | Text _ | File _ => (Return true, d)
         end.
Proof.
  unfold box_complete_id.
  destruct b as [tb|fb|ib|mb]; cbn [box_max_chars box_base box_input_is_consistent];
    try discriminate; intros [= <-] Hv Hlen.
  - rewrite InputBox_run. cbv zeta. rewrite Hv, Hlen. reflexivity.
  - rewrite MultilineBox_run. cbv zeta. rewrite Hv, Hlen. reflexivity.
Qed.

(** X1. A box with a length limit (an input or a multiline box whose
    [_max_chars] is not 0) rejects a submitted value longer than the
    limit, whatever its optional flag and its subtype, and leaves the
    submission as it was. *)
Theorem too_long_value_rejected `{Interpreter} (b : box)
    (default_allowed_extension default_max_size : pyval) (d : pydict)
    (v : pyval) (n limit : Z) :
  box_max_chars b = Some limit ->
  limit <> 0 ->
  dict_lookup (box_complete_id b) d = Some v ->
  py_len v = Return n ->
  n > limit ->
  box_input_is_consistent b default_allowed_extension default_max_size d
  = (Return false, d).
Proof.
  intros Hlimit Hnz Hv Hlen Hn.
  rewrite (box_run_sized b _ _ d v n limit Hlimit Hv Hlen).
  destruct (Z.eqb_spec limit 0); [contradiction|].
  destruct (Z.gtb_spec n limit); [reflexivity | lia].
Qed.

Lemma too_long_value_rejected_witness :
  let code :=
    Multiline
      {| MultilineBox.base := {| BasicBox._id := "code"; BasicBox._problem := "q1" |};
         MultilineBox._max_chars := 10;
         MultilineBox._optional := VBool true;
         MultilineBox._lines := 8;
         MultilineBox._language := "plain" |} in
  box_input_is_consistent (H := Reference.interpreter) code VNone VNone
    [("q1/code", VStr "12345678901")]
  = (Return false, [("q1/code", VStr "12345678901")]).
Proof.
  intros code.
  apply (too_long_value_rejected (H := Reference.interpreter) code VNone VNone
           _ (VStr "12345678901") 11 10); try reflexivity. discriminate.
Defined.

(** X2. When the submission has no entry under a box's composite id, a
    file, input or multiline box returns false and a text box returns
    true; none of them raises or touches the submission. *)
Theorem missing_entry_verdict `{Interpreter} (b : box)
    (default_allowed_extension default_max_size : pyval) (d : pydict) :
  dict_lookup (box_complete_id b) d = None ->
  box_input_is_consistent b default_allowed_extension default_max_size d
  = (Return (is_text_box b), d).
Proof.
  unfold box_complete_id.
  destruct b as [tb|fb|ib|mb]; cbn [box_base box_input_is_consistent is_text_box];
    intros Hv.
  - reflexivity.
  - now rewrite FileBox_run_entry, Hv.
  - rewrite InputBox_run. cbv zeta. now rewrite Hv.
  - rewrite MultilineBox_run. cbv zeta. now rewrite Hv.
Qed.

Lemma missing_entry_verdict_witness :
  box_input_is_consistent (H := Reference.interpreter)
    (File {| FileBox.base := {| BasicBox._id := "upload"; BasicBox._problem := "q1" |};
             FileBox._allowed_exts := VNone; FileBox._max_size := VNone |})
    (VList [VStr ".zip"]) (VInt 1000) [("q1/name", VStr "Ada")]
  = (Return false, [("q1/name", VStr "Ada")]).
Proof.
  apply (missing_entry_verdict (H := Reference.interpreter)). reflexivity.
Defined.

Lemma positive_int_pos (v : pyval) (z : Z) : positive_int v = Some z -> 0 < z.
Proof.
  unfold positive_int. destruct (int_value v) as [n|]; [|discriminate].
  destruct (Z.gtb_spec n 0); [|discriminate]. intros [= <-]. lia.
Qed.

Lemma dict_set_idem (k : string) (v : pyval) (d : pydict) :
  dict_set k v (dict_set k v d) = dict_set k v d.
Proof.
  induction d as [|[k' v'] d IH]; simpl.
  - now rewrite String.eqb_refl.
  - destruct (String.eqb k k') eqn:E; simpl; rewrite E; [reflexivity | now rewrite IH].
Qed.

(** What construction guarantees about a multiline box. *)
Lemma MultilineBox_init_inv `{Host} (problem boxid : string) (boxData : pydict)
    (self : MultilineBox.t) :
  MultilineBox.__init__ problem boxid boxData = Return self ->
  MultilineBox.base self = {| BasicBox._id := boxid; BasicBox._problem := problem |} /\
  MultilineBox._optional self = dict_get boxData "optional" (VBool false) /\
  match dict_lookup "maxChars" boxData with
  | Some v => positive_int v = Some (MultilineBox._max_chars self)
  | None => MultilineBox._max_chars self = 0
  end /\
  match dict_lookup "lines" boxData with
  | Some v => positive_int v = Some (MultilineBox._lines self)
  | None => MultilineBox._lines self = 8
  end /\
  exists s, dict_get boxData "language" (VStr "") = VStr s /\
    ((MultilineBox.language_match (VStr s) = Return true
      /\ MultilineBox._language self = s) \/
     (s = "" /\ MultilineBox._language self = "plain")).
Proof.
  unfold MultilineBox.__init__.
  destruct (BasicBox.__init__ problem boxid) as [bb|] eqn:Hb; [|discriminate].
  apply BasicBox_init_inv in Hb as ->. cbn [obind].
  destruct (dict_lookup "maxChars" boxData) as [mv|].
  - destruct (positive_int mv) as [mz|]; [|discriminate]. cbn [obind].
    destruct (dict_lookup "lines" boxData) as [lv|].
    + destruct (positive_int lv) as [lz|]; [|discriminate]. cbn [obind].
      destruct (dict_get boxData "language" (VStr "")) as [| | |s| | | |];
        try discriminate.
      destruct (MultilineBox.language_match (VStr s)) as [[|]|] eqn:Hm;
        cbn [obind]; try discriminate.
      * intros [= <-]. cbn. repeat split. exists s. auto.
      * cbn [py_truthy str_add]. destruct (String.eqb_spec s "") as [->|_];
          cbn [negb obind]; [|discriminate].
        intros [= <-]. cbn. repeat split. exists "". auto.
    + cbn [obind].
      destruct (dict_get boxData "language" (VStr "")) as [| | |s| | | |];
        try discriminate.
      destruct (MultilineBox.language_match (VStr s)) as [[|]|] eqn:Hm;
        cbn [obind]; try discriminate.
      * intros [= <-]. cbn. repeat split. exists s. auto.
      * cbn [py_truthy str_add]. destruct (String.eqb_spec s "") as [->|_];
          cbn [negb obind]; [|discriminate].
        intros [= <-]. cbn. repeat split. exists "". auto.
  - cbn [obind].
    destruct (dict_lookup "lines" boxData) as [lv|].
    + destruct (positive_int lv) as [lz|]; [|discriminate]. cbn [obind].
      destruct (dict_get boxData "language" (VStr "")) as [| | |s| | | |];
        try discriminate.
      destruct (MultilineBox.language_match (VStr s)) as [[|]|] eqn:Hm;
        cbn [obind]; try discriminate.
      * intros [= <-]. cbn. repeat split. exists s. auto.
      * cbn [py_truthy str_add]. destruct (String.eqb_spec s "") as [->|_];
          cbn [negb obind]; [|discriminate].
        intros [= <-]. cbn. repeat split. exists "". auto.
    + cbn [obind].
      destruct (dict_get boxData "language" (VStr "")) as [| | |s| | | |];
        try discriminate.
      destruct (MultilineBox.language_match (VStr s)) as [[|]|] eqn:Hm;
        cbn [obind]; try discriminate.
      * intros [= <-]. cbn. repeat split. exists s. auto.
      * cbn [py_truthy str_add]. destruct (String.eqb_spec s "") as [->|_];
          cbn [negb obind]; [|discriminate].
        intros [= <-]. cbn. repeat split. exists "". auto.
Qed.

Lemma MultilineBox_init_limit `{Host} (problem boxid : string) (boxData : pydict)
    (self : MultilineBox.t) :
  MultilineBox.__init__ problem boxid boxData = Return self ->
  0 <= MultilineBox._max_chars self.
Proof.
  intros Hinit.
  destruct (MultilineBox_init_inv _ _ _ _ Hinit) as (_ & _ & Hmax & _).
  destruct (dict_lookup "maxChars" boxData) as [v|].
  - apply positive_int_pos in Hmax. lia.
  - lia.
Qed.

(** X3. A multiline box accepts every non-empty value that has a length
    within its limit, whatever the type of the value (a [str], [bytes], a
    list or a dict) and whatever its optional flag, and leaves the
    submission as it was. *)
Theorem MultilineBox_accepts_sized_value (self : MultilineBox.t)
    (default_allowed_extension default_max_size : pyval) (d : pydict)
    (v : pyval) (n : Z) :
  dict_lookup (BasicBox.get_complete_id (MultilineBox.base self)) d = Some v ->
  py_len v = Return n ->
  0 < n ->
  MultilineBox._max_chars self = 0 \/ n <= MultilineBox._max_chars self ->
  MultilineBox.input_is_consistent self default_allowed_extension default_max_size d
  = (Return true, d).
Proof.
  intros Hv Hlen Hpos Hlimit. rewrite MultilineBox_run. cbv zeta.
  rewrite Hv, Hlen.
  assert (Hfit : negb (MultilineBox._max_chars self =? 0)
                 && (n >? MultilineBox._max_chars self) = false).
  { destruct (Z.eqb_spec (MultilineBox._max_chars self) 0); [reflexivity|].
    destruct (Z.gtb_spec n (MultilineBox._max_chars self)); [lia | reflexivity]. }
  rewrite Hfit. destruct (Z.eqb_spec n 0); [lia | reflexivity].
Qed.

Lemma MultilineBox_accepts_sized_value_witness :
  MultilineBox.input_is_consistent
    {| MultilineBox.base := {| BasicBox._id := "code"; BasicBox._problem := "q1" |};
       MultilineBox._max_chars := 2;
       MultilineBox._optional := VBool false;
       MultilineBox._lines := 8;
       MultilineBox._language := "plain" |}
    VNone VNone [("q1/code", VList [VInt 1; VNone])]
  = (Return true, [("q1/code", VList [VInt 1; VNone])]).
Proof.
  apply (MultilineBox_accepts_sized_value _ VNone VNone _ (VList [VInt 1; VNone]) 2);
    [reflexivity | reflexivity | lia | right; simpl; lia].
Defined.

(** X4. A constructed multiline box, given a value of length 0: when its
    configuration has a true [optional], the check returns true and
    rewrites the entry to the empty string (whatever empty value was
    there); otherwise it returns false and leaves the submission as it
    was.  The length limit plays no part. *)
Theorem MultilineBox_empty_value `{Host} (problem boxid : string) (boxData : pydict)
    (self : MultilineBox.t)
    (default_allowed_extension default_max_size : pyval) (d : pydict) (v : pyval) :
  MultilineBox.__init__ problem boxid boxData = Return self ->
  dict_lookup (BasicBox.get_complete_id (MultilineBox.base self)) d = Some v ->
  py_len v = Return 0 ->
  MultilineBox.input_is_consistent self default_allowed_extension default_max_size d
  = if py_truthy (dict_get boxData "optional" (VBool false))
    then (Return true,
          dict_set (BasicBox.get_complete_id (MultilineBox.base self)) (VStr "") d)
    else (Return false, d).
Proof.
  intros Hinit Hv Hlen.
  pose proof (MultilineBox_init_limit _ _ _ _ Hinit) as Hmax.
  destruct (MultilineBox_init_inv _ _ _ _ Hinit) as (_ & Hopt & _).
  rewrite <- Hopt, MultilineBox_run. cbv zeta. rewrite Hv, Hlen.
  destruct (Z.gtb_spec 0 (MultilineBox._max_chars self)); [lia|].
  rewrite andb_false_r. reflexivity.
Qed.

Lemma MultilineBox_empty_value_witness :
  MultilineBox.input_is_consistent
    {| MultilineBox.base := {| BasicBox._id := "code"; BasicBox._problem := "q1" |};
       MultilineBox._max_chars := 100;
       MultilineBox._optional := VInt 1;
       MultilineBox._lines := 8;
       MultilineBox._language := "plain" |}
    VNone VNone [("q1/code", VList [])]
  = (Return true, [("q1/code", VStr "")]).
Proof.
  exact (MultilineBox_empty_value (H := Reference.host) "q1" "code"
           [("type", VStr "multiline"); ("maxChars", VInt 100); ("optional", VInt 1)]
           _ VNone VNone [("q1/code", VList [])] (VList [])
           eq_refl eq_refl eq_refl).
Defined.

(** ** Input boxes: subtypes, accepted entries, defaults *)

(** The length limit and the base of a constructed input box. *)
Lemma InputBox_init_limit `{Host} (problem boxid : string) (boxData : pydict)
    (self : InputBox.t) :
  InputBox.__init__ problem boxid boxData = Return self ->
  InputBox.base self = {| BasicBox._id := boxid; BasicBox._problem := problem |} /\
  match dict_lookup "maxChars" boxData with
  | Some v => positive_int v = Some (InputBox._max_chars self)
  | None => InputBox._max_chars self = 0
  end.
Proof.
  unfold InputBox.__init__.
  destruct (BasicBox.__init__ problem boxid) as [bb|] eqn:Hb; [|discriminate].
  apply BasicBox_init_inv in Hb as ->. cbn [obind].
  destruct (dict_getitem boxData "type") as [ty|]; [|discriminate]. cbn [obind].
  destruct (if type_is ty "input-text" then _ else _) as [td|]; [|discriminate].
  cbn [obind].
  destruct (dict_lookup "maxChars" boxData) as [v|].
  - destruct (positive_int v) as [z|]; [|discriminate]. cbn [obind].
    intros [= <-]. split; reflexivity.
  - cbn [obind]. intros [= <-]. split; reflexivity.
Qed.

(** Every text [int] accepts, [float] accepts. *)
Lemma int_literal_float_literal (space : ascii -> bool) (l : list ascii) :
  int_literal space l = true -> float_literal space l = true.
Proof.
  unfold int_literal, float_literal, decimal_literal.
  destruct (digitpart (skip_sign (strip space l))) as [[|c r]|]; try discriminate.
  intros _. cbn. apply orb_true_r.
Qed.

Lemma py_int_py_float (v : pyval) : py_int v = Return tt -> py_float v = Return tt.
Proof.
  destruct v as [| | |s|b| | |]; cbn; try discriminate; try reflexivity.
  - destruct (int_literal is_space_str _) eqn:E; [|discriminate].
    now rewrite (int_literal_float_literal _ _ E).
  - destruct (int_literal is_space_bytes _) eqn:E; [|discriminate].
    now rewrite (int_literal_float_literal _ _ E).
Qed.

Lemma conversion_ok_integer_decimal (v : pyval) :
  conversion_ok "integer" v = true -> conversion_ok "decimal" v = true.
Proof.
  unfold conversion_ok. cbn.
  destruct (py_int v) as [[]|] eqn:E; [|discriminate].
  now rewrite (py_int_py_float _ E).
Qed.

(** X5. On a non-empty value within its length limit, the verdict of an
    input box is that of the conversion its subtype attempts ([int] for
    integer, [float] for decimal, none for text), and the submission is
    left as it was. *)
Theorem InputBox_nonempty_verdict (self : InputBox.t)
    (default_allowed_extension default_max_size : pyval) (d : pydict)
    (v : pyval) (n : Z) :
  dict_lookup (BasicBox.get_complete_id (InputBox.base self)) d = Some v ->
  py_len v = Return n ->
  0 < n ->
  InputBox._max_chars self = 0 \/ n <= InputBox._max_chars self ->
  InputBox.input_is_consistent self default_allowed_extension default_max_size d
  = (Return (conversion_ok (InputBox._input_type self) v), d).
Proof.
  intros Hv Hlen Hpos Hlimit. rewrite InputBox_run. cbv zeta.
  rewrite Hv, Hlen.
  assert (Hfit : negb (InputBox._max_chars self =? 0)
                 && (n >? InputBox._max_chars self) = false).
  { destruct (Z.eqb_spec (InputBox._max_chars self) 0); [reflexivity|].
    destruct (Z.gtb_spec n (InputBox._max_chars self)); [lia | reflexivity]. }
  rewrite Hfit. destruct (Z.eqb_spec n 0); [lia | reflexivity].
Qed.

Lemma InputBox_nonempty_verdict_witness :
  InputBox.input_is_consistent
    {| InputBox.base := {| BasicBox._id := "age"; BasicBox._problem := "q1" |};
       InputBox._input_type := "integer";
       InputBox._default_value := "0";
       InputBox._optional := VBool false;
       InputBox._max_chars := 4 |}
    VNone VNone [("q1/age", VStr " +42")]
  = (Return true, [("q1/age", VStr " +42")]).
Proof.
  refine (InputBox_nonempty_verdict
            {| InputBox.base := {| BasicBox._id := "age"; BasicBox._problem := "q1" |};
               InputBox._input_type := "integer";
               InputBox._default_value := "0";
               InputBox._optional := VBool false;
               InputBox._max_chars := 4 |}
            VNone VNone [("q1/age", VStr " +42")] (VStr " +42") 4
            eq_refl eq_refl _ _); [lia | right; simpl; lia].
Defined.

(** X6. Take three input boxes constructed from configurations that
    differ in the type tag only: integer, decimal and text.  Whenever the
    integer box returns true on a submission so does the decimal box, and
    whenever the decimal box returns true so does the text box. *)
Theorem InputBox_subtype_chain `{Host} (problem boxid : string)
    (intData decData textData : pydict) (ib db tb : InputBox.t)
    (default_allowed_extension default_max_size : pyval) (d : pydict) :
  InputBox.__init__ problem boxid intData = Return ib ->
  InputBox.__init__ problem boxid decData = Return db ->
  InputBox.__init__ problem boxid textData = Return tb ->
  dict_lookup "type" intData = Some (VStr "input-integer") ->
  dict_lookup "type" decData = Some (VStr "input-decimal") ->
  dict_lookup "type" textData = Some (VStr "input-text") ->
  (forall k, k <> "type" -> dict_lookup k decData = dict_lookup k intData) ->
  (forall k, k <> "type" -> dict_lookup k textData = dict_lookup k intData) ->
  (fst (InputBox.input_is_consistent ib default_allowed_extension default_max_size d)
     = Return true ->
   fst (InputBox.input_is_consistent db default_allowed_extension default_max_size d)
     = Return true)
  /\
  (fst (InputBox.input_is_consistent db default_allowed_extension default_max_size d)
     = Return true ->
   fst (InputBox.input_is_consistent tb default_allowed_extension default_max_size d)
     = Return true).
Proof.
  intros Hib Hdb Htb Hti Htd Htt Hdec Htext.
  destruct (InputBox_init_inv _ _ _ _ Hib) as (ty1 & Hty1 & Hopt1 & _ & Hsub1).
  destruct (InputBox_init_inv _ _ _ _ Hdb) as (ty2 & Hty2 & Hopt2 & _ & Hsub2).
  destruct (InputBox_init_inv _ _ _ _ Htb) as (ty3 & Hty3 & Hopt3 & _ & Hsub3).
  destruct (InputBox_init_limit _ _ _ _ Hib) as [Hbase1 Hmax1].
  destruct (InputBox_init_limit _ _ _ _ Hdb) as [Hbase2 Hmax2].
  destruct (InputBox_init_limit _ _ _ _ Htb) as [Hbase3 Hmax3].
  rewrite Hti in Hty1. rewrite Htd in Hty2. rewrite Htt in Hty3.
  injection Hty1 as <-. injection Hty2 as <-. injection Hty3 as <-.
  destruct Hsub1 as [(Hx & _) | [(_ & Hit & Hid) | (Hx & _)]]; try discriminate Hx.
  destruct Hsub2 as [(Hx & _) | [(Hx & _) | (_ & Hdt & Hdd)]]; try discriminate Hx.
  destruct Hsub3 as [(_ & Htty & Htdv) | [(Hx & _) | (Hx & _)]]; try discriminate Hx.
  unfold dict_get in Hopt1, Hopt2, Hopt3.
  rewrite (Hdec "optional") in Hopt2 by discriminate.
  rewrite (Htext "optional") in Hopt3 by discriminate.
  rewrite (Hdec "maxChars") in Hmax2 by discriminate.
  rewrite (Htext "maxChars") in Hmax3 by discriminate.
  assert (Hm2 : InputBox._max_chars db = InputBox._max_chars ib).
  { destruct (dict_lookup "maxChars" intData); congruence. }
  assert (Hm3 : InputBox._max_chars tb = InputBox._max_chars ib).
  { destruct (dict_lookup "maxChars" intData); congruence. }
  rewrite !InputBox_run. cbv zeta.
  rewrite Hbase1, Hbase2, Hbase3, Hm2, Hm3, Hopt1, Hopt2, Hopt3, Hit, Hid, Hdt, Hdd,
    Htty, Htdv.
  destruct (dict_lookup _ d) as [v|]; [|split; discriminate].
  destruct (py_len v) as [n|e]; [|split; intros Hx; exact Hx].
  destruct (negb (InputBox._max_chars ib =? 0) && (n >? InputBox._max_chars ib));
    [split; discriminate|].
  destruct (n =? 0).
  - destruct (py_truthy _); [|split; discriminate]. split; reflexivity.
  - cbn [fst]. split.
    + intros [= Hok]. now rewrite (conversion_ok_integer_decimal _ Hok).
    + reflexivity.
Qed.

Lemma InputBox_subtype_chain_witness :
  let box ty default :=
    {| InputBox.base := {| BasicBox._id := "n"; BasicBox._problem := "q1" |};
       InputBox._input_type := ty;
       InputBox._default_value := default;
       InputBox._optional := VBool false;
       InputBox._max_chars := 0 |} in
  (fst (InputBox.input_is_consistent (box "integer" "0") VNone VNone
          [("q1/n", VStr "1_000")]) = Return true ->
   fst (InputBox.input_is_consistent (box "decimal" "0.0") VNone VNone
          [("q1/n", VStr "1_000")]) = Return true)
  /\
  (fst (InputBox.input_is_consistent (box "decimal" "0.0") VNone VNone
          [("q1/n", VStr "1_000")]) = Return true ->
   fst (InputBox.input_is_consistent (box "text" "") VNone VNone
          [("q1/n", VStr "1_000")]) = Return true).
Proof.
  intros box.
  assert (Hagree : forall ty k, k <> "type" ->
    dict_lookup k [("type", VStr ty)] = dict_lookup k [("type", VStr "input-integer")]).
  { intros ty k Hk. simpl. destruct (String.eqb_spec k "type"); [contradiction | reflexivity]. }
  exact (InputBox_subtype_chain (H := Reference.host) "q1" "n"
           [("type", VStr "input-integer")] [("type", VStr "input-decimal")]
           [("type", VStr "input-text")] _ _ _ VNone VNone [("q1/n", VStr "1_000")]
           eq_refl eq_refl eq_refl eq_refl eq_refl eq_refl
           (Hagree "input-decimal") (Hagree "input-text")).
Defined.

(** X7. After an input box returns true, the entry under its composite
    id in the submission it leaves is a value with a length that the
    conversion of the box's subtype accepts: a later [int] or [float] of
    the entry does not raise. *)
Theorem InputBox_accepted_entry_converts (self : InputBox.t)
    (default_allowed_extension default_max_size : pyval) (d d' : pydict) :
  InputBox.input_is_consistent self default_allowed_extension default_max_size d
    = (Return true, d') ->
  exists v n,
    dict_lookup (BasicBox.get_complete_id (InputBox.base self)) d' = Some v /\
    py_len v = Return n /\
    conversion_ok (InputBox._input_type self) v = true.
Proof.
  rewrite InputBox_run. cbv zeta.
  destruct (dict_lookup _ d) as [v|] eqn:Hv; [|discriminate].
  destruct (py_len v) as [n|e] eqn:Hlen.
  - destruct (negb _ && _); [discriminate|].
    destruct (n =? 0).
    + destruct (py_truthy _); [|discriminate].
      intros [= Hok <-]. exists (VStr (InputBox._default_value self)),
        (str_len (InputBox._default_value self)).
      rewrite dict_lookup_set_same. cbn [py_len]. auto.
    + intros [= Hok <-]. exists v, n. auto.
  - destruct (InputBox._max_chars self =? 0); discriminate.
Qed.

Lemma InputBox_accepted_entry_converts_witness :
  exists v n,
    dict_lookup "q1/ratio" [("q1/ratio", VStr "0.0")] = Some v /\
    py_len v = Return n /\
    conversion_ok "decimal" v = true.
Proof.
  exact (InputBox_accepted_entry_converts
           {| InputBox.base := {| BasicBox._id := "ratio"; BasicBox._problem := "q1" |};
              InputBox._input_type := "decimal";
              InputBox._default_value := "0.0";
              InputBox._optional := VBool true;
              InputBox._max_chars := 0 |}
           VNone VNone [("q1/ratio", VStr "")] [("q1/ratio", VStr "0.0")] eq_refl).
Defined.

(** X8. Checking again a submission that a box accepted: the second run
    returns true as well and changes nothing, provided that, for an input
    box, the default value fits the length limit.  (The first run may
    have replaced an empty entry by the default.) *)
Theorem accepted_submission_rechecks `{Interpreter} (b : box)
    (default_allowed_extension default_max_size : pyval) (d d' : pydict) :
  box_input_is_consistent b default_allowed_extension default_max_size d
    = (Return true, d') ->
  (forall ib, b = Input ib ->
     InputBox._max_chars ib = 0 \/
     str_len (InputBox._default_value ib) <= InputBox._max_chars ib) ->
  box_input_is_consistent b default_allowed_extension default_max_size d'
  = (Return true, d').
Proof.
  destruct b as [tb|fb|ib|mb]; cbn [box_input_is_consistent]; intros Hrun Hfit.
  - reflexivity.
  - rewrite FileBox_run_entry in Hrun. injection Hrun as Hr <-.
    rewrite FileBox_run_entry, Hr. reflexivity.
  - specialize (Hfit ib eq_refl). revert Hrun. rewrite !InputBox_run. cbv zeta.
    destruct (dict_lookup _ d) as [v|] eqn:Hv; [|discriminate].
    destruct (py_len v) as [n|e] eqn:Hlen;
      [|destruct (InputBox._max_chars ib =? 0); discriminate].
    destruct (negb _ && (n >? _)) eqn:Hlong; [discriminate|].
    destruct (n =? 0) eqn:Hn.
    + destruct (py_truthy (InputBox._optional ib)) eqn:Hopt; [|discriminate].
      intros [= Hok <-]. rewrite dict_lookup_set_same. cbn [py_len].
      assert (Hshort : negb (InputBox._max_chars ib =? 0)
                && (str_len (InputBox._default_value ib) >? InputBox._max_chars ib)
              = false).
      { destruct (Z.eqb_spec (InputBox._max_chars ib) 0); [reflexivity|].
        destruct (Z.gtb_spec (str_len (InputBox._default_value ib))
                    (InputBox._max_chars ib)); [lia | reflexivity]. }
      rewrite Hshort, ?Hopt, Hok, dict_set_idem.
      destruct (str_len (InputBox._default_value ib) =? 0); reflexivity.
    + intros [= Hok <-]. rewrite Hv, Hlen, Hlong, Hn, Hok. reflexivity.
  - revert Hrun. rewrite !MultilineBox_run. cbv zeta.
    destruct (dict_lookup _ d) as [v|] eqn:Hv; [|discriminate].
    destruct (py_len v) as [n|e] eqn:Hlen; [|discriminate].
    destruct (negb _ && (n >? _)) eqn:Hlong; [discriminate|].
    destruct (n =? 0) eqn:Hn.
    + destruct (py_truthy (MultilineBox._optional mb)) eqn:Hopt; [|discriminate].
      intros [= <-]. rewrite dict_lookup_set_same. cbn [py_len].
      apply Z.eqb_eq in Hn. subst n. change (str_len "") with 0.
      rewrite Hlong, ?Hopt, dict_set_idem. reflexivity.
    + intros [= <-]. rewrite Hv, Hlen, Hlong, Hn. reflexivity.
Qed.

Lemma accepted_submission_rechecks_witness :
  let age :=
    Input {| InputBox.base := {| BasicBox._id := "age"; BasicBox._problem := "q1" |};
             InputBox._input_type := "integer";
             InputBox._default_value := "0";
             InputBox._optional := VBool true;
             InputBox._max_chars := 3 |} in
  box_input_is_consistent (H := Reference.interpreter) age VNone VNone
    [("q1/age", VStr "0")]
  = (Return true, [("q1/age", VStr "0")]).
Proof.
  intros age.
  refine (accepted_submission_rechecks (H := Reference.interpreter) age VNone VNone
            [("q1/age", VStr "")] [("q1/age", VStr "0")] eq_refl _).
  intros ib [= <-]. right. simpl. unfold str_len. simpl. lia.
Defined.

(** X9. The default written for an empty optional entry is not itself
    held to the length limit.  An input box constructed as decimal with a
    true [optional] and a limit of 1 or 2 characters accepts an empty
    value and writes ["0.0"]; checked again, the submission it left is
    rejected as too long. *)
Theorem decimal_default_exceeds_short_limit `{Host} (problem boxid : string)
    (boxData : pydict) (self : InputBox.t)
    (default_allowed_extension default_max_size : pyval) (d : pydict) (v : pyval) :
  InputBox.__init__ problem boxid boxData = Return self ->
  dict_lookup "type" boxData = Some (VStr "input-decimal") ->
  py_truthy (dict_get boxData "optional" (VBool false)) = true ->
  0 < InputBox._max_chars self < 3 ->
  dict_lookup (BasicBox.get_complete_id (InputBox.base self)) d = Some v ->
  py_len v = Return 0 ->
  let d' := dict_set (BasicBox.get_complete_id (InputBox.base self)) (VStr "0.0") d in
  InputBox.input_is_consistent self default_allowed_extension default_max_size d
    = (Return true, d')
  /\
  InputBox.input_is_consistent self default_allowed_extension default_max_size d'
    = (Return false, d').
Proof.
  intros Hinit Htag Hopt Hmax Hv Hlen d'.
  destruct (InputBox_init_inv _ _ _ _ Hinit) as (ty & Hty & Hopt' & _ & Hsub).
  rewrite Htag in Hty. injection Hty as <-. rewrite <- Hopt' in Hopt.
  destruct Hsub as [(Hx & _) | [(Hx & _) | (_ & Hit & Hdv)]]; try discriminate Hx.
  subst d'. rewrite !InputBox_run. cbv zeta.
  rewrite dict_lookup_set_same, Hv, Hlen, Hopt, Hit, Hdv. cbn [py_len].
  change (str_len "0.0") with 3.
  destruct (Z.eqb_spec (InputBox._max_chars self) 0); [lia|].
  destruct (Z.gtb_spec 0 (InputBox._max_chars self)); [lia|].
  destruct (Z.gtb_spec 3 (InputBox._max_chars self)); [|lia].
  split; reflexivity.
Qed.

Lemma decimal_default_exceeds_short_limit_witness :
  let ratio :=
    {| InputBox.base := {| BasicBox._id := "ratio"; BasicBox._problem := "q1" |};
       InputBox._input_type := "decimal";
       InputBox._default_value := "0.0";
       InputBox._optional := VBool true;
       InputBox._max_chars := 2 |} in
  InputBox.input_is_consistent ratio VNone VNone [("q1/ratio", VStr "")]
    = (Return true, [("q1/ratio", VStr "0.0")])
  /\
  InputBox.input_is_consistent ratio VNone VNone [("q1/ratio", VStr "0.0")]
    = (Return false, [("q1/ratio", VStr "0.0")]).
Proof.
  intros ratio.
  refine (decimal_default_exceeds_short_limit (H := Reference.host) "q1" "ratio"
            [("type", VStr "input-decimal"); ("optional", VBool true);
             ("maxChars", VInt 2)]
            ratio VNone VNone [("q1/ratio", VStr "")] (VStr "")
            eq_refl eq_refl eq_refl _ eq_refl eq_refl).
  simpl. lia.
Defined.

(** ** The submission across the checks of a problem *)

Lemma dict_set_keys_mem (k : string) (v : pyval) (d : pydict) :
  dict_mem k d = true -> map fst (dict_set k v d) = map fst d.
Proof.
  rewrite dict_mem_lookup. destruct (dict_lookup k d) as [v0|] eqn:E; [|discriminate].
  intros _. exact (dict_set_keys_present _ _ _ _ E).
Qed.

(** A check neither adds a key to the submission nor removes or moves one. *)
Lemma box_check_keeps_keys `{Interpreter} (b : box)
    (default_allowed_extension default_max_size : pyval) (d : pydict) :
  map fst (snd (box_input_is_consistent b default_allowed_extension default_max_size d))
  = map fst d.
Proof.
  destruct b as [tb|fb|ib|mb]; cbn [box_input_is_consistent].
  - reflexivity.
  - rewrite FileBox_run_entry. reflexivity.
  - rewrite InputBox_run. cbv zeta.
    destruct (dict_lookup _ d) as [v|] eqn:Hv; [|reflexivity].
    destruct (py_len v) as [n|]; [|reflexivity].
    repeat match goal with |- context [if ?c then _ else _] => destruct c end;
      cbn [snd]; try reflexivity.
    exact (dict_set_keys_present _ _ _ _ Hv).
  - rewrite MultilineBox_run. cbv zeta.
    destruct (dict_lookup _ d) as [v|] eqn:Hv; [|reflexivity].
    destruct (py_len v) as [n|]; [|reflexivity].
    repeat match goal with |- context [if ?c then _ else _] => destruct c end;
      cbn [snd]; try reflexivity.
    exact (dict_set_keys_present _ _ _ _ Hv).
Qed.

(** On two submissions with the same entry at the box's composite id, a
    check leaves the same entry there. *)
Lemma box_check_own_entry_after `{Interpreter} (b : box)
    (default_allowed_extension default_max_size : pyval) (d1 d2 : pydict) :
  dict_lookup (box_complete_id b) d1 = dict_lookup (box_complete_id b) d2 ->
  dict_lookup (box_complete_id b)
    (snd (box_input_is_consistent b default_allowed_extension default_max_size d1))
  = dict_lookup (box_complete_id b)
      (snd (box_input_is_consistent b default_allowed_extension default_max_size d2)).
Proof.
  unfold box_complete_id.
  destruct b as [tb|fb|ib|mb]; cbn [box_base box_input_is_consistent];
    intros Heq.
  - exact Heq.
  - rewrite !FileBox_run_entry. exact Heq.
  - rewrite !InputBox_run. cbv zeta. rewrite Heq.
    destruct (dict_lookup _ d2) as [v|] eqn:Hv; [|cbn [snd]; congruence].
    destruct (py_len v) as [n|]; [|cbn [snd]; congruence].
    repeat match goal with |- context [if ?c then _ else _] => destruct c end;
      cbn [snd]; rewrite ?dict_lookup_set_same; congruence.
  - rewrite !MultilineBox_run. cbv zeta. rewrite Heq.
    destruct (dict_lookup _ d2) as [v|] eqn:Hv; [|cbn [snd]; congruence].
    destruct (py_len v) as [n|]; [|cbn [snd]; congruence].
    repeat match goal with |- context [if ?c then _ else _] => destruct c end;
      cbn [snd]; rewrite ?dict_lookup_set_same; congruence.
Qed.

(** X10. Whatever its outcome (true, false or an exception), the
    problem-level [input_is_consistent] leaves a submission with the keys
    it received, in the same order: validation adds no key and removes
    none. *)
Theorem validation_keeps_keys `{Interpreter} (self : CustomProblem.t)
    (default_allowed_extension default_max_size : pyval) (d : pydict) :
  map fst (snd (CustomProblem.input_is_consistent self
                  default_allowed_extension default_max_size d))
  = map fst d.
Proof.
  unfold CustomProblem.input_is_consistent.
  generalize (CustomProblem._boxes self) as boxes. intros boxes. revert d.
  induction boxes as [|b boxes IH]; intros d;
    cbn [CustomProblem.for_boxes_input_is_consistent]; [reflexivity|].
  rewrite bind_run.
  pose proof (box_check_keeps_keys b default_allowed_extension default_max_size d)
    as Hb.
  destruct (box_input_is_consistent b _ _ d) as [[[|]|e] d1]; cbn [snd negb] in *.
  - now rewrite IH.
  - exact Hb.
  - exact Hb.
Qed.

(** X11. The problem-level [input_is_consistent] changes no entry of the
    submission other than those under the composite ids of the problem's
    boxes, whatever its outcome. *)
Theorem validation_frame `{Interpreter} (self : CustomProblem.t)
    (default_allowed_extension default_max_size : pyval) (d : pydict) (k : string) :
  (forall b, In b (CustomProblem.get_boxes self) -> box_complete_id b <> k) ->
  dict_lookup k (snd (CustomProblem.input_is_consistent self
                        default_allowed_extension default_max_size d))
  = dict_lookup k d.
Proof.
  unfold CustomProblem.input_is_consistent, CustomProblem.get_boxes.
  generalize (CustomProblem._boxes self) as boxes. intros boxes. revert d.
  induction boxes as [|b boxes IH]; intros d Hk;
    cbn [CustomProblem.for_boxes_input_is_consistent]; [reflexivity|].
  rewrite bind_run.
  assert (Hb : dict_lookup k
    (snd (box_input_is_consistent b default_allowed_extension default_max_size d))
    = dict_lookup k d).
  { apply box_check_writes_own_entry. intros ->. now apply (Hk b (or_introl eq_refl)). }
  destruct (box_input_is_consistent b _ _ d) as [[[|]|e] d1]; cbn [snd negb] in *;
    try exact Hb.
  rewrite IH; [exact Hb|]. intros x Hx. apply Hk. now right.
Qed.

Lemma validation_frame_witness :
  let name :=
    Input {| InputBox.base := {| BasicBox._id := "name"; BasicBox._problem := "q1" |};
             InputBox._input_type := "text"; InputBox._default_value := "";
             InputBox._optional := VBool true; InputBox._max_chars := 0 |} in
  let problem := {| CustomProblem._id := "q1"; CustomProblem._boxes := [name] |} in
  dict_lookup "q2/name"
    (snd (CustomProblem.input_is_consistent (H := Reference.interpreter) problem
            VNone VNone [("q1/name", VBytes []); ("q2/name", VBytes [])]))
  = Some (VBytes []).
Proof.
  intros name problem.
  refine (validation_frame (H := Reference.interpreter) problem VNone VNone
            [("q1/name", VBytes []); ("q2/name", VBytes [])] "q2/name" _).
  intros b [<-|[]]. discriminate.
Defined.

(** X12. The verdict of the problem-level [input_is_consistent] depends
    on the submission only through the entries under the composite ids
    of the problem's boxes: two submissions that agree there get the same
    verdict, or the same exception. *)
Theorem validation_reads_box_entries_only `{Interpreter} (self : CustomProblem.t)
    (default_allowed_extension default_max_size : pyval) (d1 d2 : pydict) :
  (forall b, In b (CustomProblem.get_boxes self) ->
     dict_lookup (box_complete_id b) d1 = dict_lookup (box_complete_id b) d2) ->
  fst (CustomProblem.input_is_consistent self
         default_allowed_extension default_max_size d1)
  = fst (CustomProblem.input_is_consistent self
           default_allowed_extension default_max_size d2).
Proof.
  unfold CustomProblem.input_is_consistent, CustomProblem.get_boxes.
  generalize (CustomProblem._boxes self) as boxes. intros boxes. revert d1 d2.
  induction boxes as [|b boxes IH]; intros d1 d2 Hsame;
    cbn [CustomProblem.for_boxes_input_is_consistent]; [reflexivity|].
  rewrite !bind_run.
  pose proof (box_check_reads_own_entry b default_allowed_extension default_max_size
                d1 d2 (Hsame b (or_introl eq_refl))) as Hfst.
  assert (Hrest : forall x, In x boxes ->
    dict_lookup (box_complete_id x)
      (snd (box_input_is_consistent b default_allowed_extension default_max_size d1))
    = dict_lookup (box_complete_id x)
        (snd (box_input_is_consistent b default_allowed_extension default_max_size d2))).
  { intros x Hx. destruct (String.eqb_spec (box_complete_id x) (box_complete_id b))
      as [->|Hne].
    - apply box_check_own_entry_after, Hsame. now left.
    - rewrite !box_check_writes_own_entry by exact Hne. apply Hsame. now right. }
  destruct (box_input_is_consistent b _ _ d1) as [[[|]|e1] d1'];
    destruct (box_input_is_consistent b _ _ d2) as [[[|]|e2] d2'];
    cbn [fst snd negb] in *; try discriminate; try exact Hfst.
  now apply IH.
Qed.

Lemma validation_reads_box_entries_only_witness :
  let age :=
    Input {| InputBox.base := {| BasicBox._id := "age"; BasicBox._problem := "q1" |};
             InputBox._input_type := "integer"; InputBox._default_value := "0";
             InputBox._optional := VBool false; InputBox._max_chars := 0 |} in
  let problem := {| CustomProblem._id := "q1"; CustomProblem._boxes := [age] |} in
  fst (CustomProblem.input_is_consistent (H := Reference.interpreter) problem
         VNone VNone [("q1/age", VStr "42"); ("@lang", VStr "en")])
  = fst (CustomProblem.input_is_consistent (H := Reference.interpreter) problem
           VNone VNone [("q2/age", VStr "x"); ("q1/age", VStr "42")]).
Proof.
  intros age problem.
  refine (validation_reads_box_entries_only (H := Reference.interpreter) problem
            VNone VNone [("q1/age", VStr "42"); ("@lang", VStr "en")]
            [("q2/age", VStr "x"); ("q1/age", VStr "42")] _).
  intros b [<-|[]]. reflexivity.
Defined.

(** The checks of boxes with distinct composite ids, run one after the
    other, all return true exactly when each returns true on the
    submission as received. *)
Lemma for_boxes_true_original `{Interpreter} (boxes : list box)
    (default_allowed_extension default_max_size : pyval) (d0 d : pydict) :
  NoDup (map box_complete_id boxes) ->
  (forall b, In b boxes ->
     dict_lookup (box_complete_id b) d = dict_lookup (box_complete_id b) d0) ->
  fst (CustomProblem.for_boxes_input_is_consistent boxes
         default_allowed_extension default_max_size d) = Return true
  <-> forall b, In b boxes ->
        fst (box_input_is_consistent b default_allowed_extension default_max_size d0)
        = Return true.
Proof.
  revert d. induction boxes as [|b boxes IH]; intros d Hnodup Hsame.
  - cbn. split; [intros _ b [] | reflexivity].
  - cbn [CustomProblem.for_boxes_input_is_consistent]. rewrite bind_run.
    cbn [map] in Hnodup. apply NoDup_cons_iff in Hnodup as [Hfresh Hnodup].
    pose proof (box_check_reads_own_entry b default_allowed_extension
                  default_max_size d d0 (Hsame b (or_introl eq_refl))) as Hb.
    assert (Hrest : forall x, In x boxes ->
      dict_lookup (box_complete_id x)
        (snd (box_input_is_consistent b default_allowed_extension
                default_max_size d))
      = dict_lookup (box_complete_id x) d0).
    { intros x Hx. rewrite box_check_writes_own_entry.
      - apply Hsame. now right.
      - intros Heq. apply Hfresh. rewrite <- Heq. now apply in_map. }
    destruct (box_input_is_consistent b _ _ d) as [[[|]|e] d1];
      cbn [fst snd negb] in *.
    + rewrite (IH d1 Hnodup Hrest). split.
      * intros Hall x [<-|Hx]; [now symmetry | now apply Hall].
      * intros Hall x Hx. apply Hall. now right.
    + split; [discriminate|]. intros Hall.
      specialize (Hall b (or_introl eq_refl)). congruence.
    + split; [discriminate|]. intros Hall.
      specialize (Hall b (or_introl eq_refl)). congruence.
Qed.

(** X13. For a problem whose boxes have distinct composite ids, the
    problem-level [input_is_consistent] returns true exactly when the
    check of every box returns true on the submission as received: the
    defaulting done by earlier boxes does not affect later ones. *)
Theorem problem_accepts_iff_all_boxes_accept `{Interpreter} (self : CustomProblem.t)
    (default_allowed_extension default_max_size : pyval) (d : pydict) :
  NoDup (map box_complete_id (CustomProblem.get_boxes self)) ->
  fst (CustomProblem.input_is_consistent self
         default_allowed_extension default_max_size d) = Return true
  <-> forall b, In b (CustomProblem.get_boxes self) ->
        fst (box_input_is_consistent b default_allowed_extension default_max_size d)
        = Return true.
Proof.
  intros Hnodup.
  exact (for_boxes_true_original _ _ _ d d Hnodup (fun _ _ => eq_refl)).
Qed.

Lemma problem_accepts_iff_all_boxes_accept_witness :
  let name :=
    Input {| InputBox.base := {| BasicBox._id := "name"; BasicBox._problem := "q1" |};
             InputBox._input_type := "text"; InputBox._default_value := "";
             InputBox._optional := VBool true; InputBox._max_chars := 0 |} in
  let code :=
    Multiline
      {| MultilineBox.base := {| BasicBox._id := "code"; BasicBox._problem := "q1" |};
         MultilineBox._max_chars := 0; MultilineBox._optional := VBool false;
         MultilineBox._lines := 8; MultilineBox._language := "plain" |} in
  let problem := {| CustomProblem._id := "q1"; CustomProblem._boxes := [name; code] |} in
  let d := [("q1/name", VStr ""); ("q1/code", VStr "x = 1")] in
  fst (CustomProblem.input_is_consistent (H := Reference.interpreter) problem
         VNone VNone d) = Return true.
Proof.
  intros name code problem d.
  refine (proj2 (problem_accepts_iff_all_boxes_accept (H := Reference.interpreter)
                   problem VNone VNone d _) _).
  - repeat constructor; simpl; intuition discriminate.
  - intros b [<-|[<-|[]]]; reflexivity.
Defined.

(** ** Construction of boxes *)

Lemma id_accepted `{Host} (boxid : string) :
  negb (id_checker boxid) && negb (String.eqb boxid "") = false ->
  id_checker boxid = true \/ boxid = "".
Proof.
  destruct (id_checker boxid); [auto|].
  destruct (String.eqb_spec boxid ""); [auto | discriminate].
Qed.

(** What [_create_box] returned a box from: a dict whose type tag is one
    of the six of [_box_types], handed to the constructor of the tag's
    class. *)
Lemma create_box_inv `{Host} (problem boxid : string) (box_content : pyval)
    (b : box) :
  CustomProblem._create_box problem boxid box_content = Return b ->
  (id_checker boxid = true \/ boxid = "") /\
  exists (boxData : pydict) (name : string),
    box_content = VDict boxData /\
    dict_lookup "type" boxData = Some (VStr name) /\
    match b with
    | Input ib =>
        (name = "input-text" \/ name = "input-decimal" \/ name = "input-integer") /\
        InputBox.__init__ problem boxid boxData = Return ib
    | Multiline mb =>
        name = "multiline" /\ MultilineBox.__init__ problem boxid boxData = Return mb
    | Text tb => name = "text" /\ TextBox.__init__ problem boxid boxData = Return tb
    | File fb => name = "file" /\ FileBox.__init__ problem boxid boxData = Return fb
    end.
Proof.
  unfold CustomProblem._create_box.
  destruct (negb (id_checker boxid) && negb (String.eqb boxid "")) eqn:Hid;
    [discriminate|].
  apply id_accepted in Hid.
  destruct (py_in "type" box_content) as [[|]|]; cbn [obind negb]; try discriminate.
  destruct box_content as [| | | | | |boxData|]; try discriminate.
  cbn [py_getitem]. unfold dict_getitem.
  destruct (dict_lookup "type" boxData) as [ty|] eqn:Hty; [|discriminate].
  cbn [obind]. unfold CustomProblem.box_type_find.
  destruct ty as [| | |name| | | |]; cbn [obind]; try discriminate.
  unfold CustomProblem._box_types. cbn [CustomProblem.box_types_lookup].
  intros Hb. split; [exact Hid|]. exists boxData, name.
  split; [reflexivity|]. split; [exact Hty|]. revert Hb.
  assert (Hinput : forall P : Prop, P ->
    CustomProblem.InputBox_class problem boxid boxData = Return b ->
    match b with
    | Input ib => P /\ InputBox.__init__ problem boxid boxData = Return ib
    | Multiline mb => name = "multiline" /\ MultilineBox.__init__ problem boxid boxData = Return mb
    | Text tb => name = "text" /\ TextBox.__init__ problem boxid boxData = Return tb
    | File fb => name = "file" /\ FileBox.__init__ problem boxid boxData = Return fb
    end).
  { intros P HP. unfold CustomProblem.InputBox_class.
    destruct (InputBox.__init__ problem boxid boxData); [|discriminate].
    intros [= <-]. auto. }
  destruct (String.eqb_spec name "input-text") as [->|_]; [apply Hinput; auto|].
  destruct (String.eqb_spec name "input-decimal") as [->|_]; [apply Hinput; auto|].
  destruct (String.eqb_spec name "input-integer") as [->|_]; [apply Hinput; auto|].
  clear Hinput.
  destruct (String.eqb_spec name "multiline") as [->|_].
  { unfold CustomProblem.MultilineBox_class.
    destruct (MultilineBox.__init__ problem boxid boxData); [|discriminate].
    intros [= <-]. auto. }
  destruct (String.eqb_spec name "text") as [->|_].
  { unfold CustomProblem.TextBox_class.
    destruct (TextBox.__init__ problem boxid boxData); [|discriminate].
    intros [= <-]. auto. }
  destruct (String.eqb_spec name "file") as [->|_]; [|discriminate].
  unfold CustomProblem.FileBox_class.
  destruct (FileBox.__init__ problem boxid boxData); [|discriminate].
  intros [= <-]. auto.
Qed.

(** X14. The class of a created box is the one of its type tag, and the
    subtype of an input box the one its tag names: [_create_box] returns
    an input box for the three [input-] tags, a multiline box for
    [multiline], a text box for [text] and a file box for [file], and
    only for an id that the id checker accepts or that is empty. *)
Theorem create_box_class_of_tag `{Host} (problem boxid : string) (boxData : pydict)
    (name : string) (b : box) :
  CustomProblem._create_box problem boxid (VDict boxData) = Return b ->
  dict_lookup "type" boxData = Some (VStr name) ->
  (id_checker boxid = true \/ boxid = "") /\
  match b with
  | Input ib => name = ("input-" ++ InputBox._input_type ib)%string /\
                InputBox._default_value ib = subtype_default name
  | Multiline _ => name = "multiline"
  | Text _ => name = "text"
  | File _ => name = "file"
  end.
Proof.
  intros Hcreate Htag.
  destruct (create_box_inv _ _ _ _ Hcreate)
    as (Hid & boxData' & name' & [= <-] & Htag' & Hb).
  rewrite Htag in Htag'. injection Htag' as <-. split; [exact Hid|].
  destruct b as [tb|fb|ib|mb]; try tauto.
  destruct Hb as [_ Hinit].
  destruct (InputBox_init_inv _ _ _ _ Hinit) as (ty & Hty & _ & _ & Hsub).
  rewrite Htag in Hty. injection Hty as <-.
  destruct Hsub as [(-> & -> & ->) | [(-> & -> & ->) | (-> & -> & ->)]];
    split; reflexivity.
Qed.

Lemma create_box_class_of_tag_witness :
  (id_checker (Host := Reference.host) "ratio" = true \/ "ratio" = "") /\
  "input-decimal" = ("input-" ++ "decimal")%string /\
  "0.0" = subtype_default "input-decimal".
Proof.
  exact (create_box_class_of_tag (H := Reference.host) "q1" "ratio"
           [("type", VStr "input-decimal"); ("maxChars", VInt 8)] "input-decimal"
           (Input {| InputBox.base := {| BasicBox._id := "ratio";
                                         BasicBox._problem := "q1" |};
                     InputBox._input_type := "decimal";
                     InputBox._default_value := "0.0";
                     InputBox._optional := VBool false;
                     InputBox._max_chars := 8 |})
           eq_refl eq_refl).
Defined.

(** X15. What [_create_box] raises, in the order it tests: for an id that
    is neither accepted by the id checker nor empty, [Invalid box _id]
    with the id, whatever the configuration; then, for a dict without a
    type tag, that the box does not have a type; then, for a tag of type
    [str] that is none of the six, [Unknown box type] with the tag and
    the id. *)
Theorem create_box_errors `{Host} (problem boxid : string) :
  (id_checker boxid = false -> boxid <> "" ->
   forall box_content,
     CustomProblem._create_box problem boxid box_content
     = Raise (PyException ("Invalid box _id " ++ boxid)))
  /\
  (id_checker boxid = true \/ boxid = "" ->
   forall boxData,
     (dict_lookup "type" boxData = None ->
      CustomProblem._create_box problem boxid (VDict boxData)
      = Raise (PyException ("Box " ++ boxid ++ " does not have a type")))
     /\
     (forall name,
        dict_lookup "type" boxData = Some (VStr name) ->
        CustomProblem.box_types_lookup name CustomProblem._box_types = None ->
        CustomProblem._create_box problem boxid (VDict boxData)
        = Raise (PyException ("Unknown box type " ++ name ++ " for box _id " ++ boxid)))).
Proof.
  split.
  - intros Hid Hne box_content. unfold CustomProblem._create_box. rewrite Hid.
    destruct (String.eqb_spec boxid ""); [contradiction | reflexivity].
  - intros Hid boxData.
    assert (Hguard : negb (id_checker boxid) && negb (String.eqb boxid "") = false).
    { destruct Hid as [-> | ->]; [reflexivity|]. cbn. apply andb_false_r. }
    unfold CustomProblem._create_box. rewrite Hguard.
    cbn [py_in obind py_getitem]. rewrite dict_mem_lookup. unfold dict_getitem.
    split.
    + intros ->. reflexivity.
    + intros name -> Hunknown. cbn [negb obind CustomProblem.box_type_find].
      rewrite Hunknown. cbn [obind str_add].
      reflexivity.
Qed.

Lemma create_box_errors_witness :
  CustomProblem._create_box (H := Reference.host) "q1" "first name"
    (VDict [("type", VStr "input-text")])
  = Raise (PyException "Invalid box _id first name")
  /\
  CustomProblem._create_box (H := Reference.host) "q1" "name"
    (VDict [("optional", VBool true)])
  = Raise (PyException "Box name does not have a type")
  /\
  CustomProblem._create_box (H := Reference.host) "q1" "name"
    (VDict [("type", VStr "input")])
  = Raise (PyException "Unknown box type input for box _id name").
Proof.
  split; [|split].
  - exact (proj1 (create_box_errors (H := Reference.host) "q1" "first name")
             eq_refl ltac:(discriminate) (VDict [("type", VStr "input-text")])).
  - exact (proj1 (proj2 (create_box_errors (H := Reference.host) "q1" "name")
                    (or_introl eq_refl) [("optional", VBool true)]) eq_refl).
  - exact (proj2 (proj2 (create_box_errors (H := Reference.host) "q1" "name")
                    (or_introl eq_refl) [("type", VStr "input")])
             "input" eq_refl eq_refl).
Defined.

(** X16. The length limit of a created box is 0, which the checks read as
    no limit, exactly when its configuration has no [maxChars]; otherwise
    it is the integer that [maxChars] holds, and that integer is
    positive. *)
Theorem no_limit_iff_maxChars_absent `{Host} (problem boxid : string)
    (boxData : pydict) (b : box) (limit : Z) :
  CustomProblem._create_box problem boxid (VDict boxData) = Return b ->
  box_max_chars b = Some limit ->
  (limit = 0 <-> dict_lookup "maxChars" boxData = None) /\
  (forall v, dict_lookup "maxChars" boxData = Some v ->
             int_value v = Some limit /\ 0 < limit).
Proof.
  intros Hcreate Hlimit.
  destruct (create_box_inv _ _ _ _ Hcreate)
    as (_ & boxData' & name & [= <-] & _ & Hb).
  assert (Hmax : match dict_lookup "maxChars" boxData with
                 | Some v => positive_int v = Some limit
                 | None => limit = 0
                 end).
  { destruct b as [tb|fb|ib|mb]; cbn [box_max_chars] in Hlimit; try discriminate;
      injection Hlimit as <-; destruct Hb as [_ Hinit].
    - exact (proj2 (InputBox_init_limit _ _ _ _ Hinit)).
    - destruct (MultilineBox_init_inv _ _ _ _ Hinit) as (_ & _ & Hmax & _).
      exact Hmax. }
  destruct (dict_lookup "maxChars" boxData) as [v|].
  - pose proof (positive_int_pos _ _ Hmax) as Hpos. split.
    + split; [lia | discriminate].
    + intros v' [= <-]. split; [|exact Hpos].
      unfold positive_int in Hmax. destruct (int_value v) as [z|]; [|discriminate].
      destruct (z >? 0); [congruence | discriminate].
  - split; [tauto | discriminate].
Qed.

Lemma no_limit_iff_maxChars_absent_witness :
  (1 = 0 <-> dict_lookup "maxChars" [("type", VStr "multiline"); ("maxChars", VBool true)]
             = None) /\
  (forall v, dict_lookup "maxChars" [("type", VStr "multiline"); ("maxChars", VBool true)]
             = Some v ->
             int_value v = Some 1 /\ 0 < 1).
Proof.
  exact (no_limit_iff_maxChars_absent (H := Reference.host) "q1" "code"
           [("type", VStr "multiline"); ("maxChars", VBool true)]
           (Multiline {| MultilineBox.base := {| BasicBox._id := "code";
                                                 BasicBox._problem := "q1" |};
                         MultilineBox._max_chars := 1;
                         MultilineBox._optional := VBool false;
                         MultilineBox._lines := 8;
                         MultilineBox._language := "plain" |})
           1 eq_refl eq_refl).
Defined.

(** X17. A [maxChars] that is not a positive integer (0, a negative
    number, a string, [None]) makes construction raise [Invalid maxChars
    value in box] with the id: for a multiline box whatever its [lines]
    and [language], for an input box once its type tag is one of the
    three. *)
Theorem invalid_maxChars_refused `{Host} (problem boxid : string)
    (boxData : pydict) (v : pyval) :
  id_checker boxid = true \/ boxid = "" ->
  dict_lookup "maxChars" boxData = Some v ->
  positive_int v = None ->
  MultilineBox.__init__ problem boxid boxData
    = Raise (PyException ("Invalid maxChars value in box " ++ boxid))
  /\
  (forall name,
     dict_lookup "type" boxData = Some (VStr name) ->
     name = "input-text" \/ name = "input-decimal" \/ name = "input-integer" ->
     InputBox.__init__ problem boxid boxData
     = Raise (PyException ("Invalid maxChars value in box " ++ boxid))).
Proof.
  intros Hid Hmax Hbad.
  assert (Hguard : negb (id_checker boxid) && negb (String.eqb boxid "") = false).
  { destruct Hid as [-> | ->]; [reflexivity|]. cbn. apply andb_false_r. }
  split.
  - unfold MultilineBox.__init__, BasicBox.__init__.
    rewrite Hguard, Hmax, Hbad. reflexivity.
  - intros name Hty Hname.
    unfold InputBox.__init__, BasicBox.__init__, dict_getitem.
    rewrite Hguard, Hmax, Hbad, Hty.
    destruct Hname as [-> | [-> | ->]]; reflexivity.
Qed.

Lemma invalid_maxChars_refused_witness :
  MultilineBox.__init__ (H := Reference.host) "q1" "code"
    [("type", VStr "multiline"); ("maxChars", VInt 0); ("lines", VInt 0)]
  = Raise (PyException "Invalid maxChars value in box code").
Proof.
  exact (proj1 (invalid_maxChars_refused (H := Reference.host) "q1" "code"
                  [("type", VStr "multiline"); ("maxChars", VInt 0); ("lines", VInt 0)]
                  (VInt 0) (or_introl eq_refl) eq_refl eq_refl)).
Defined.

(** X18. A constructed multiline box shows at least one line, 8 when the
    configuration has no [lines], and its language is always one the
    pattern of the constructor accepts: the configured one, or
    ["plain"]. *)
Theorem MultilineBox_invariants `{Host} (problem boxid : string) (boxData : pydict)
    (self : MultilineBox.t) :
  MultilineBox.__init__ problem boxid boxData = Return self ->
  1 <= MultilineBox._lines self /\
  (dict_lookup "lines" boxData = None -> MultilineBox._lines self = 8) /\
  MultilineBox.language_match (VStr (MultilineBox._language self)) = Return true /\
  (MultilineBox._language self = "plain" \/
   dict_lookup "language" boxData = Some (VStr (MultilineBox._language self))).
Proof.
  intros Hinit.
  destruct (MultilineBox_init_inv _ _ _ _ Hinit) as (_ & _ & _ & Hlines & s & Hs & Hlang).
  split; [|split; [|split]].
  - destruct (dict_lookup "lines" boxData) as [v|].
    + apply positive_int_pos in Hlines. lia.
    + lia.
  - intros Hnone. now rewrite Hnone in Hlines.
  - destruct Hlang as [[Hm ->] | [_ ->]]; [exact Hm | reflexivity].
  - destruct Hlang as [[Hm Heq] | [_ ->]]; [right | now left].
    unfold dict_get in Hs. rewrite Heq.
    destruct (dict_lookup "language" boxData) as [l|]; [now subst l|].
    injection Hs as <-. discriminate Hm.
Qed.

Lemma MultilineBox_invariants_witness :
  1 <= 8 /\
  (dict_lookup "lines" [("type", VStr "multiline"); ("language", VStr "")] = None ->
   8 = 8) /\
  MultilineBox.language_match (VStr "plain") = Return true /\
  ("plain" = "plain" \/
   dict_lookup "language" [("type", VStr "multiline"); ("language", VStr "")]
   = Some (VStr "plain")).
Proof.
  exact (MultilineBox_invariants (H := Reference.host) "q1" "code"
           [("type", VStr "multiline"); ("language", VStr "")]
           {| MultilineBox.base := {| BasicBox._id := "code"; BasicBox._problem := "q1" |};
              MultilineBox._max_chars := 0;
              MultilineBox._optional := VBool false;
              MultilineBox._lines := 8;
              MultilineBox._language := "plain" |}
           eq_refl).
Defined.

Lemma language_tail_line_feed (l : list ascii) :
  forallb MultilineBox.is_language_char l = true ->
  MultilineBox.language_tail (l ++ ["010"%char])%list = true.
Proof.
  induction l as [|c l IH]; [reflexivity|]. cbn [forallb app].
  intros [Hc Hl]%andb_prop. cbn [MultilineBox.language_tail]. rewrite Hc. auto.
Qed.

Lemma list_ascii_of_string_app (a b : string) :
  list_ascii_of_string (a ++ b)
  = (list_ascii_of_string a ++ list_ascii_of_string b)%list.
Proof. induction a as [|c a IH]; simpl; [reflexivity | now rewrite IH]. Qed.

(** X19. The pattern of the multiline constructor lets one line feed
    through at the end of the language: for a non-empty language made of
    letters, digits, dash, underscore and dot, the same text followed by
    a line feed is accepted too, and the box keeps it with the line
    feed. *)
Theorem MultilineBox_language_line_feed `{Host} (problem boxid : string)
    (boxData : pydict) (self : MultilineBox.t) (s : string) :
  s <> "" ->
  forallb MultilineBox.is_language_char (list_ascii_of_string s) = true ->
  dict_lookup "language" boxData = Some (VStr (s ++ String "010"%char "")) ->
  MultilineBox.__init__ problem boxid boxData = Return self ->
  MultilineBox._language self = (s ++ String "010"%char "")%string.
Proof.
  intros Hne Hchars Hlang Hinit.
  assert (Hm : MultilineBox.language_match (VStr (s ++ String "010"%char ""))
               = Return true).
  { unfold MultilineBox.language_match. rewrite list_ascii_of_string_app.
    destruct s as [|c s]; [contradiction|]. cbn [list_ascii_of_string app].
    cbn [list_ascii_of_string forallb] in Hchars.
    apply andb_prop in Hchars as [Hc Hs]. rewrite Hc.
    change (list_ascii_of_string (String "010"%char "")) with ["010"%char].
    now rewrite language_tail_line_feed. }
  destruct (MultilineBox_init_inv _ _ _ _ Hinit) as (_ & _ & _ & _ & s' & Hs' & Hres).
  unfold dict_get in Hs'. rewrite Hlang in Hs'. injection Hs' as <-.
  destruct Hres as [[_ ->] | [Hempty _]]; [reflexivity|].
  destruct s; [contradiction | discriminate Hempty].
Qed.

Lemma MultilineBox_language_line_feed_witness :
  MultilineBox._language
    {| MultilineBox.base := {| BasicBox._id := "code"; BasicBox._problem := "q1" |};
       MultilineBox._max_chars := 0;
       MultilineBox._optional := VBool false;
       MultilineBox._lines := 8;
       MultilineBox._language := "cpp" ++ String "010"%char "" |}
  = ("cpp" ++ String "010"%char "")%string.
Proof.
  exact (MultilineBox_language_line_feed (H := Reference.host) "q1" "code"
           [("type", VStr "multiline");
            ("language", VStr ("cpp" ++ String "010"%char ""))]
           _ "cpp" ltac:(discriminate) eq_refl eq_refl eq_refl).
Defined.

(** X20. A text box is constructed exactly from an id that the id checker
    accepts (or the empty id) and a configuration that has a [content],
    which it keeps; with an accepted id and no [content], construction
    raises, naming the id. *)
Theorem TextBox_construction `{Host} (problem boxid : string) (boxData : pydict) :
  (forall self,
     TextBox.__init__ problem boxid boxData = Return self
     <-> (id_checker boxid = true \/ boxid = "") /\
         exists content,
           dict_lookup "content" boxData = Some content /\
           self = {| TextBox.base := {| BasicBox._id := boxid;
                                        BasicBox._problem := problem |};
                     TextBox._content := content |})
  /\
  (id_checker boxid = true \/ boxid = "" ->
   dict_lookup "content" boxData = None ->
   TextBox.__init__ problem boxid boxData
   = Raise (PyException ("Box _id " ++ boxid ++ " with type=text do not have content."))).
Proof.
  unfold TextBox.__init__, BasicBox.__init__, dict_getitem.
  rewrite dict_mem_lookup. split.
  - intros self. split.
    + destruct (negb (id_checker boxid) && negb (String.eqb boxid "")) eqn:Hid;
        [discriminate|].
      apply id_accepted in Hid. cbn [obind].
      destruct (dict_lookup "content" boxData) as [c|]; [|discriminate].
      cbn [negb obind]. intros [= <-]. split; [exact Hid|]. exists c. auto.
    + intros (Hid & c & Hc & ->).
      assert (Hguard : negb (id_checker boxid) && negb (String.eqb boxid "") = false).
      { destruct Hid as [-> | ->]; [reflexivity|]. cbn. apply andb_false_r. }
      rewrite Hguard, Hc. reflexivity.
  - intros Hid Hnone.
    assert (Hguard : negb (id_checker boxid) && negb (String.eqb boxid "") = false).
    { destruct Hid as [-> | ->]; [reflexivity|]. cbn. apply andb_false_r. }
    rewrite Hguard, Hnone. reflexivity.
Qed.

Lemma TextBox_construction_witness :
  TextBox.__init__ (H := Reference.host) "q1" "intro" [("type", VStr "text")]
  = Raise (PyException "Box _id intro with type=text do not have content.").
Proof.
  exact (proj2 (TextBox_construction (H := Reference.host) "q1" "intro"
                  [("type", VStr "text")])
           (or_introl eq_refl) eq_refl).
Defined.

(** ** Construction of problems, continued *)

(** The default of a constructed input box passes the conversion of its
    subtype. *)
Lemma InputBox_init_default_converts `{Host} (problem boxid : string)
    (boxData : pydict) (self : InputBox.t) :
  InputBox.__init__ problem boxid boxData = Return self ->
  conversion_ok (InputBox._input_type self) (VStr (InputBox._default_value self))
  = true.
Proof.
  intros Hinit.
  destruct (InputBox_init_inv _ _ _ _ Hinit) as (ty & _ & _ & _ & Hsub).
  destruct Hsub as [(_ & -> & ->) | [(_ & -> & ->) | (_ & -> & ->)]]; reflexivity.
Qed.

(** X21. The check of a created box changes the submission only when it
    returns true: after a false verdict or an exception the submission is
    as it was received. *)
Theorem rejection_leaves_submission `{Interpreter} `{Host}
    (problem boxid : string) (box_content : pyval) (b : box)
    (default_allowed_extension default_max_size : pyval)
    (d d' : pydict) (r : outcome bool) :
  CustomProblem._create_box problem boxid box_content = Return b ->
  box_input_is_consistent b default_allowed_extension default_max_size d = (r, d') ->
  r <> Return true ->
  d' = d.
Proof.
  intros Hcreate Hrun Hr.
  destruct (create_box_inv _ _ _ _ Hcreate) as (_ & boxData & name & _ & _ & Hb).
  destruct b as [tb|fb|ib|mb]; cbn [box_input_is_consistent] in Hrun.
  - now injection Hrun as _ <-.
  - rewrite FileBox_run_entry in Hrun. now injection Hrun as _ <-.
  - destruct Hb as [_ Hinit].
    pose proof (InputBox_init_default_converts _ _ _ _ Hinit) as Hdefault.
    rewrite InputBox_run in Hrun. cbv zeta in Hrun. rewrite Hdefault in Hrun.
    destruct (dict_lookup _ d) as [v|]; [|now injection Hrun as _ <-].
    destruct (py_len v) as [n|]; [|now injection Hrun as _ <-].
    destruct (negb _ && _); [now injection Hrun as _ <-|].
    destruct (n =? 0).
    + destruct (py_truthy _); injection Hrun as <- <-; [now destruct Hr | reflexivity].
    + now injection Hrun as _ <-.
  - rewrite MultilineBox_run in Hrun. cbv zeta in Hrun.
    destruct (dict_lookup _ d) as [v|]; [|now injection Hrun as _ <-].
    destruct (py_len v) as [n|]; [|now injection Hrun as _ <-].
    destruct (negb _ && _); [now injection Hrun as _ <-|].
    destruct (n =? 0).
    + destruct (py_truthy _); injection Hrun as <- <-; [now destruct Hr | reflexivity].
    + now injection Hrun as _ <-.
Qed.

Lemma rejection_leaves_submission_witness :
  [("q1/age", VStr "twelve")] = [("q1/age", VStr "twelve")].
Proof.
  refine (rejection_leaves_submission (H := Reference.interpreter)
            (H0 := Reference.host) "q1" "age"
            (VDict [("type", VStr "input-integer"); ("optional", VBool true)])
            (Input {| InputBox.base := {| BasicBox._id := "age";
                                          BasicBox._problem := "q1" |};
                      InputBox._input_type := "integer";
                      InputBox._default_value := "0";
                      InputBox._optional := VBool true;
                      InputBox._max_chars := 0 |})
            VNone VNone [("q1/age", VStr "twelve")] [("q1/age", VStr "twelve")]
            (Return false) eq_refl eq_refl _).
  discriminate.
Defined.

(** X22. The composite ids of the boxes of a constructed problem are the
    id of the problem, a slash and the key of the box in the box mapping,
    in the order of the mapping. *)
Theorem constructed_composite_ids `{Host} (problemid : string)
    (content items : pydict) (self : CustomProblem.t) :
  CustomProblem.__init__ problemid content = Return self ->
  dict_lookup "boxes" content = Some (VDict items) ->
  map box_complete_id (CustomProblem.get_boxes self)
  = map (fun kv => (problemid ++ "/" ++ fst kv)%string) items.
Proof.
  unfold CustomProblem.__init__. intros Hinit Hboxes.
  destruct (Problem_init problemid content); cbn [obind] in Hinit; [|discriminate].
  unfold CustomProblem._init_boxes, dict_getitem in Hinit.
  rewrite dict_mem_lookup, Hboxes in Hinit. cbn [obind CustomProblem.py_items] in Hinit.
  destruct (CustomProblem.for_items_create problemid items) as [boxes|] eqn:Hcreate;
    cbn [obind] in Hinit; [|discriminate].
  injection Hinit as <-. cbn [CustomProblem.get_boxes CustomProblem._boxes].
  destruct (for_items_create_bases _ _ _ Hcreate) as [Hbases Hnone].
  unfold box_complete_id. rewrite <- (map_map box_base BasicBox.get_complete_id), Hbases.
  rewrite map_map. apply map_ext_in. intros [k v] Hin.
  unfold BasicBox.get_complete_id. cbn [BasicBox._id BasicBox._problem fst].
  destruct (String.eqb_spec k "") as [->|_]; [|reflexivity].
  destruct Hnone. apply in_map_iff. now exists ("", v).
Qed.

Lemma constructed_composite_ids_witness :
  let intro :=
    Text {| TextBox.base := {| BasicBox._id := "intro"; BasicBox._problem := "q1" |};
            TextBox._content := VStr "Hi" |} in
  let age :=
    Input {| InputBox.base := {| BasicBox._id := "age"; BasicBox._problem := "q1" |};
             InputBox._input_type := "integer"; InputBox._default_value := "0";
             InputBox._optional := VBool false; InputBox._max_chars := 0 |} in
  map box_complete_id
    (CustomProblem.get_boxes
       {| CustomProblem._id := "q1"; CustomProblem._boxes := [intro; age] |})
  = ["q1/intro"; "q1/age"].
Proof.
  intros intro age.
  exact (constructed_composite_ids (H := Reference.host) "q1"
           [("name", VStr "Question 1");
            ("boxes", VDict [("intro", VDict [("type", VStr "text");
                                              ("content", VStr "Hi")]);
                             ("age", VDict [("type", VStr "input-integer")])])]
           [("intro", VDict [("type", VStr "text"); ("content", VStr "Hi")]);
            ("age", VDict [("type", VStr "input-integer")])]
           {| CustomProblem._id := "q1"; CustomProblem._boxes := [intro; age] |}
           eq_refl eq_refl).
Defined.

(** X23. The loop of [_init_boxes] is all or nothing: it returns boxes
    exactly when no key of the mapping is empty and [_create_box]
    returns a box for every item, and then the boxes are those, in the
    order of the mapping. *)
Theorem init_boxes_all_or_nothing `{Host} (problem : string) (items : pydict)
    (boxes : list box) :
  CustomProblem.for_items_create problem items = Return boxes
  <-> Forall2 (fun kv b =>
                 fst kv <> "" /\
                 CustomProblem._create_box problem (fst kv) (snd kv) = Return b)
        items boxes.
Proof.
  revert boxes. induction items as [|[boxid box_content] items IH]; intros boxes;
    cbn [CustomProblem.for_items_create].
  - split.
    + intros [= <-]. constructor.
    + intros Hall. inversion Hall. reflexivity.
  - split.
    + destruct (String.eqb_spec boxid "") as [->|Hne]; [discriminate|].
      destruct (CustomProblem._create_box problem boxid box_content) as [b|] eqn:Hb;
        [|discriminate].
      cbn [obind].
      destruct (CustomProblem.for_items_create problem items) as [rest|];
        [|discriminate].
      cbn [obind]. intros [= <-]. constructor; [now split | now apply IH].
    + intros Hall. destruct boxes as [|b rest]; [inversion Hall|].
      apply Forall2_cons_iff in Hall as [[Hne Hb] Hrest]. cbn [fst snd] in *.
      destruct (String.eqb_spec boxid ""); [contradiction|].
      rewrite Hb. cbn [obind]. apply IH in Hrest. rewrite Hrest. reflexivity.
Qed.

(** X24. A problem constructed from a task definition without a
    ["boxes"] field, or with an empty box mapping, has no box: it accepts
    every submission and leaves it as it is, in validation and in
    adaptation. *)
Theorem problem_without_boxes `{Interpreter} `{Host} (problemid : string)
    (content : pydict) (self : CustomProblem.t) :
  CustomProblem.__init__ problemid content = Return self ->
  dict_lookup "boxes" content = None \/ dict_lookup "boxes" content = Some (VDict []) ->
  CustomProblem.get_boxes self = [] /\
  forall (default_allowed_extension default_max_size : pyval) (d : pydict),
    CustomProblem.input_is_consistent self default_allowed_extension default_max_size d
      = (Return true, d) /\
    DisplayableCustomProblem.adapt_input_for_backend self d = (Return tt, d).
Proof.
  unfold CustomProblem.__init__. intros Hinit Hboxes.
  destruct (Problem_init problemid content); cbn [obind] in Hinit; [|discriminate].
  unfold CustomProblem._init_boxes, dict_getitem in Hinit.
  rewrite dict_mem_lookup in Hinit.
  assert (Hnone : CustomProblem._boxes self = []).
  { destruct Hboxes as [Hb | Hb]; rewrite Hb in Hinit; cbn in Hinit;
      now injection Hinit as <-. }
  unfold CustomProblem.get_boxes, CustomProblem.input_is_consistent,
    DisplayableCustomProblem.adapt_input_for_backend.
  rewrite Hnone. split; [reflexivity|]. intros exts size d. split; reflexivity.
Qed.

Lemma problem_without_boxes_witness :
  CustomProblem.input_is_consistent (H := Reference.interpreter)
    {| CustomProblem._id := "q1"; CustomProblem._boxes := [] |} VNone VNone
    [("q1/x", VObj [])]
  = (Return true, [("q1/x", VObj [])]).
Proof.
  exact (proj1 (proj2 (problem_without_boxes (H := Reference.interpreter)
                         (H0 := Reference.host) "q1" [("name", VStr "Question 1")]
                         {| CustomProblem._id := "q1"; CustomProblem._boxes := [] |}
                         eq_refl (or_introl eq_refl))
                  VNone VNone [("q1/x", VObj [])])).
Defined.

(** X25. The ["boxes"] field of a task definition must be a mapping: when
    it holds anything else (a list, a string, a number, [None]),
    construction of the problem raises [AttributeError] or [TypeError]
    from the call of [items], and no problem is built. *)
Theorem boxes_must_be_a_mapping `{Host} (problemid : string) (content : pydict)
    (v : pyval) :
  Problem_init problemid content = Return tt ->
  dict_lookup "boxes" content = Some v ->
  (forall items, v <> VDict items) ->
  CustomProblem.__init__ problemid content = Raise AttributeError \/
  CustomProblem.__init__ problemid content = Raise TypeError.
Proof.
  intros Hhost Hboxes Hv. unfold CustomProblem.__init__. rewrite Hhost. cbn [obind].
  unfold CustomProblem._init_boxes, dict_getitem.
  rewrite dict_mem_lookup, Hboxes. cbn [obind].
  destruct v as [| | | | | |items|attrs]; cbn; auto.
  - now destruct (Hv items).
  - destruct (dict_mem "items" attrs); auto.
Qed.

Lemma boxes_must_be_a_mapping_witness :
  CustomProblem.__init__ (H := Reference.host) "q1"
    [("name", VStr "Question 1"); ("boxes", VList [])] = Raise AttributeError \/
  CustomProblem.__init__ (H := Reference.host) "q1"
    [("name", VStr "Question 1"); ("boxes", VList [])] = Raise TypeError.
Proof.
  refine (boxes_must_be_a_mapping (H := Reference.host) "q1"
            [("name", VStr "Question 1"); ("boxes", VList [])] (VList [])
            eq_refl eq_refl _).
  discriminate.
Defined.

(** ** File boxes: the verdict, malformed entries, adaptation *)

Lemma str_endswith_tuple_strs (filename : string) (exts : list string) :
  str_endswith_tuple filename (map VStr exts)
  = Return (existsb (str_endswith filename) exts).
Proof.
  induction exts as [|x exts IH]; [reflexivity|]. cbn [map str_endswith_tuple existsb].
  destruct (str_endswith filename x); [reflexivity | exact IH].
Qed.

Lemma not_gtb_leb (n z : Z) : negb (n >? z) = (n <=? z).
Proof.
  destruct (Z.gtb_spec n z), (Z.leb_spec n z); try reflexivity; lia.
Qed.

(** The verdict on a record with a [str] file name, for extensions that
    are [str] and a limit that is an [int]. *)
Lemma FileBox_run_typed `{Interpreter} (self : FileBox.t)
    (default_allowed_extension default_max_size : pyval) (d record : pydict)
    (filename : string) (value : pyval) (exts : list string) (limit : Z) :
  dict_lookup (BasicBox.get_complete_id (FileBox.base self)) d = Some (VDict record) ->
  dict_lookup "filename" record = Some (VStr filename) ->
  dict_lookup "value" record = Some value ->
  py_tuple (py_or (FileBox._allowed_exts self) default_allowed_extension)
    = Return (map VStr exts) ->
  int_value (py_or (FileBox._max_size self) default_max_size) = Some limit ->
  FileBox.input_is_consistent self default_allowed_extension default_max_size d
  = (Return (existsb (str_endswith filename) exts && (sys_getsizeof value <=? limit)),
     d).
Proof.
  intros Hrec Hname Hvalue Hexts Hlimit.
  rewrite (FileBox_run _ _ _ _ _ _ _ Hrec Hname Hvalue), Hexts. cbn [obind].
  rewrite str_endswith_tuple_strs. unfold py_int_gt. rewrite Hlimit.
  destruct (existsb _ exts); [|reflexivity]. now rewrite not_gtb_leb.
Qed.

(** X26. For a record with a [str] file name, extensions that are [str]
    and a size limit that is an [int], a file box returns true exactly
    when the file name ends with one of the extensions and the size of
    the value is at most the limit: a value of exactly the limit passes. *)
Theorem FileBox_verdict `{Interpreter} (self : FileBox.t)
    (default_allowed_extension default_max_size : pyval) (d record : pydict)
    (filename : string) (value : pyval) (exts : list string) (limit : Z) :
  dict_lookup (BasicBox.get_complete_id (FileBox.base self)) d = Some (VDict record) ->
  dict_lookup "filename" record = Some (VStr filename) ->
  dict_lookup "value" record = Some value ->
  py_tuple (py_or (FileBox._allowed_exts self) default_allowed_extension)
    = Return (map VStr exts) ->
  int_value (py_or (FileBox._max_size self) default_max_size) = Some limit ->
  FileBox.input_is_consistent self default_allowed_extension default_max_size d
  = (Return (existsb (str_endswith filename) exts && (sys_getsizeof value <=? limit)),
     d).
Proof. apply FileBox_run_typed. Qed.

Lemma FileBox_verdict_witness :
  let upload :=
    {| FileBox.base := {| BasicBox._id := "upload"; BasicBox._problem := "q1" |};
       FileBox._allowed_exts := VList [VStr ".zip"; VStr ".tgz"];
       FileBox._max_size := VInt 35 |} in
  let d := [("q1/upload", VDict [("filename", VStr "a.tgz");
                                 ("value", VBytes [Byte.x50; Byte.x4b])])] in
  FileBox.input_is_consistent (H := Reference.interpreter) upload VNone VNone d
  = (Return true, d).
Proof.
  intros upload d.
  exact (FileBox_verdict (H := Reference.interpreter) upload VNone VNone d
           [("filename", VStr "a.tgz"); ("value", VBytes [Byte.x50; Byte.x4b])]
           "a.tgz" (VBytes [Byte.x50; Byte.x4b]) [".zip"; ".tgz"] 35
           eq_refl eq_refl eq_refl eq_refl eq_refl).
Defined.

(** X27. A file box returns false, without raising and without touching
    the submission, when the entry under its composite id is not a
    record with both fields, or when the file name of the record is
    neither a [str] nor [bytes]: the raw object of an upload, a string,
    an empty record are all rejected. *)
Theorem FileBox_malformed_entry_rejected `{Interpreter} (self : FileBox.t)
    (default_allowed_extension default_max_size : pyval) (d : pydict) (v : pyval) :
  dict_lookup (BasicBox.get_complete_id (FileBox.base self)) d = Some v ->
  (exists e, py_getitem v "filename" = Raise e) \/
  (exists e, py_getitem v "value" = Raise e) \/
  (exists filename e, py_getitem v "filename" = Return filename /\
                      py_endswith filename = Raise e) ->
  FileBox.input_is_consistent self default_allowed_extension default_max_size d
  = (Return false, d).
Proof.
  intros Hv Hbad. rewrite FileBox_run_entry, Hv.
  destruct Hbad as [[e He] | [[e He] | (filename & e & Hf & He)]].
  - rewrite He. reflexivity.
  - rewrite He. cbn [obind].
    destruct (filename <~ py_getitem v "filename" ;; _) as [[|]|]; reflexivity.
  - rewrite Hf. cbn [obind]. rewrite He. reflexivity.
Qed.

Lemma FileBox_malformed_entry_rejected_witness :
  let upload :=
    {| FileBox.base := {| BasicBox._id := "upload"; BasicBox._problem := "q1" |};
       FileBox._allowed_exts := VNone; FileBox._max_size := VNone |} in
  let d := [("q1/upload", VObj [("filename", VStr "a.zip"); ("value", VBytes [])])] in
  FileBox.input_is_consistent (H := Reference.interpreter) upload
    (VList [VStr ".zip"]) (VInt 1000) d
  = (Return false, d).
Proof.
  intros upload d.
  refine (FileBox_malformed_entry_rejected (H := Reference.interpreter) upload
            (VList [VStr ".zip"]) (VInt 1000) d
            (VObj [("filename", VStr "a.zip"); ("value", VBytes [])]) eq_refl _).
  left. exists TypeError. reflexivity.
Defined.

(** The adaptation of a file box whose entry is already a dict writes
    the empty record. *)
Lemma DisplayableFileBox_adapt_dict (self : FileBox.t) (d record : pydict) :
  dict_lookup (BasicBox.get_complete_id (FileBox.base self)) d = Some (VDict record) ->
  DisplayableFileBox.adapt_input_for_backend self d
  = (Return tt, dict_set (BasicBox.get_complete_id (FileBox.base self)) (VDict []) d).
Proof.
  intros Hrec. rewrite DisplayableFileBox_adapt_run. cbv zeta.
  unfold dict_getitem. rewrite Hrec. reflexivity.
Qed.

(** After the adaptation of a box, an entry that was a dict is one, and
    so is the entry of the box when it is a file box. *)
Lemma box_adapt_dict_entries (b : box) (d : pydict) (k : string) :
  (exists r, dict_lookup k d = Some (VDict r)) \/
  (exists fb, b = File fb /\ BasicBox.get_complete_id (FileBox.base fb) = k) ->
  exists r, dict_lookup k (snd (box_adapt_input_for_backend b d)) = Some (VDict r).
Proof.
  intros Hk. destruct b as [tb|fb|ib|mb]; cbn [box_adapt_input_for_backend];
    try (destruct Hk as [Hk | (fb & Hx & _)]; [exact Hk | discriminate Hx]).
  rewrite DisplayableFileBox_adapt_run. cbv zeta. cbn [snd].
  destruct (String.eqb_spec k (BasicBox.get_complete_id (FileBox.base fb)))
    as [->|Hne].
  - rewrite dict_lookup_set_same.
    destruct (v <~ dict_getitem d _ ;; _) as [record|] eqn:E; [|eauto].
    destruct (dict_getitem d _) as [v|]; cbn [obind] in E; [|discriminate].
    destruct (py_getattr v "filename"); cbn [obind] in E; [|discriminate].
    destruct (py_getattr v "value"); cbn [obind] in E; [|discriminate].
    injection E as <-. eauto.
  - rewrite dict_lookup_set_other by exact Hne.
    destruct Hk as [Hk | (fb' & [= ->] & Hx)]; [exact Hk | now destruct Hne].
Qed.

Lemma for_boxes_adapt_dict_entries (boxes : list box) (d : pydict) (k : string) :
  (exists r, dict_lookup k d = Some (VDict r)) \/
  (exists fb, In (File fb) boxes /\ BasicBox.get_complete_id (FileBox.base fb) = k) ->
  exists r, dict_lookup k (snd (DisplayableCustomProblem.for_boxes_adapt boxes d))
            = Some (VDict r).
Proof.
  revert d. induction boxes as [|b boxes IH]; intros d Hk;
    cbn [DisplayableCustomProblem.for_boxes_adapt].
  - destruct Hk as [Hk | (fb & [] & _)]. exact Hk.
  - rewrite bind_run.
    destruct (box_adapt_frame b d) as (d1 & Hb & _).
    pose proof (box_adapt_dict_entries b d k) as Hstep. rewrite Hb in *.
    cbn [snd] in Hstep. apply IH.
    destruct Hk as [Hk | (fb & [Heq | Hin] & Hx)].
    + left. apply Hstep. now left.
    + left. apply Hstep. right. now exists fb.
    + right. now exists fb.
Qed.

(** Adapting boxes whose entries are all dicts already leaves the empty
    record under the composite id of each file box. *)
Lemma for_boxes_adapt_again (boxes : list box) (d : pydict) (k : string) :
  (forall fb, In (File fb) boxes ->
     exists r, dict_lookup (BasicBox.get_complete_id (FileBox.base fb)) d
               = Some (VDict r)) ->
  dict_lookup k d = Some (VDict []) \/
  (exists fb, In (File fb) boxes /\ BasicBox.get_complete_id (FileBox.base fb) = k) ->
  dict_lookup k (snd (DisplayableCustomProblem.for_boxes_adapt boxes d))
  = Some (VDict []).
Proof.
  revert d. induction boxes as [|b boxes IH]; intros d Hdicts Hk;
    cbn [DisplayableCustomProblem.for_boxes_adapt].
  - destruct Hk as [Hk | (fb & [] & _)]. exact Hk.
  - rewrite bind_run. destruct b as [tb|fb|ib|mb];
      cbn [box_adapt_input_for_backend];
      try (change (DisplayableBox.adapt_input_for_backend d) with (Return tt, d);
           apply IH;
           [ intros fb Hin; apply Hdicts; now right
           | destruct Hk as [Hk | (fb & [Hx | Hin] & Hkey)];
             [now left | discriminate Hx | right; eauto] ]).
    destruct (Hdicts fb (or_introl eq_refl)) as [r Hr].
    rewrite (DisplayableFileBox_adapt_dict _ _ _ Hr). apply IH.
    + intros fb' Hin.
      destruct (String.eqb_spec (BasicBox.get_complete_id (FileBox.base fb'))
                  (BasicBox.get_complete_id (FileBox.base fb))) as [->|Hne].
      * rewrite dict_lookup_set_same. eauto.
      * rewrite dict_lookup_set_other by exact Hne. apply Hdicts. now right.
    + destruct (String.eqb_spec k (BasicBox.get_complete_id (FileBox.base fb)))
        as [->|Hne].
      * left. apply dict_lookup_set_same.
      * rewrite dict_lookup_set_other by exact Hne.
        destruct Hk as [Hk | (fb' & [[= <-] | Hin] & Hkey)];
          [now left | now destruct Hne | right; eauto].
Qed.

(** X28. [adapt_input_for_backend] is meant to run once.  Run a second
    time on its own result, it replaces the record of every file box of
    the problem by the empty record, since a record has no attribute
    [filename]. *)
Theorem adapt_twice_empties_file_entries (self : CustomProblem.t) (d : pydict)
    (fb : FileBox.t) :
  In (File fb) (CustomProblem.get_boxes self) ->
  let once := snd (DisplayableCustomProblem.adapt_input_for_backend self d) in
  let twice := snd (DisplayableCustomProblem.adapt_input_for_backend self once) in
  (exists r, dict_lookup (BasicBox.get_complete_id (FileBox.base fb)) once
             = Some (VDict r)) /\
  dict_lookup (BasicBox.get_complete_id (FileBox.base fb)) twice = Some (VDict []).
Proof.
  unfold DisplayableCustomProblem.adapt_input_for_backend, CustomProblem.get_boxes.
  intros Hin. cbv zeta. split.
  - apply for_boxes_adapt_dict_entries. right. eauto.
  - apply for_boxes_adapt_again.
    + intros fb' Hin'. apply for_boxes_adapt_dict_entries. right. eauto.
    + right. eauto.
Qed.

Lemma adapt_twice_empties_file_entries_witness :
  let upload :=
    {| FileBox.base := {| BasicBox._id := "upload"; BasicBox._problem := "q1" |};
       FileBox._allowed_exts := VNone; FileBox._max_size := VNone |} in
  let problem := {| CustomProblem._id := "q1"; CustomProblem._boxes := [File upload] |} in
  let d := [("q1/upload", VObj [("filename", VStr "a.zip"); ("value", VBytes [])])] in
  let once := snd (DisplayableCustomProblem.adapt_input_for_backend problem d) in
  let twice := snd (DisplayableCustomProblem.adapt_input_for_backend problem once) in
  (exists r, dict_lookup "q1/upload" once = Some (VDict r)) /\
  dict_lookup "q1/upload" twice = Some (VDict []).
Proof.
  intros upload problem d.
  exact (adapt_twice_empties_file_entries problem d upload (or_introl eq_refl)).
Defined.

(** X29. Adaptation followed by validation, for one file box.  When the
    entry cannot be reshaped (it is missing, or lacks [filename] or
    [value]), adaptation leaves the empty record and validation rejects
    it.  When the entry is an object with a [str] file name and a value,
    validation of the adapted submission decides on these two: the file
    name must end with one of the extensions and the size of the value
    be at most the limit. *)
Theorem adapt_then_validate `{Interpreter} (self : FileBox.t)
    (default_allowed_extension default_max_size : pyval) (d : pydict) :
  let key := BasicBox.get_complete_id (FileBox.base self) in
  let adapted := snd (DisplayableFileBox.adapt_input_for_backend self d) in
  ((forall attrs filename value,
      dict_lookup key d = Some (VObj attrs) ->
      dict_lookup "filename" attrs = Some filename ->
      dict_lookup "value" attrs = Some value -> False) ->
   adapted = dict_set key (VDict []) d /\
   FileBox.input_is_consistent self default_allowed_extension default_max_size adapted
   = (Return false, adapted))
  /\
  (forall attrs filename value exts limit,
     dict_lookup key d = Some (VObj attrs) ->
     dict_lookup "filename" attrs = Some (VStr filename) ->
     dict_lookup "value" attrs = Some value ->
     py_tuple (py_or (FileBox._allowed_exts self) default_allowed_extension)
       = Return (map VStr exts) ->
     int_value (py_or (FileBox._max_size self) default_max_size) = Some limit ->
     adapted = dict_set key (VDict [("filename", VStr filename); ("value", value)]) d /\
     FileBox.input_is_consistent self default_allowed_extension default_max_size adapted
     = (Return (existsb (str_endswith filename) exts
                && (sys_getsizeof value <=? limit)), adapted)).
Proof.
  intros key adapted. subst adapted.
  rewrite DisplayableFileBox_adapt_run. cbv zeta. fold key. cbn [snd]. split.
  - intros Hbad.
    assert (Hfail : match
              (v <~ dict_getitem d key ;;
               filename <~ py_getattr v "filename" ;;
               value <~ py_getattr v "value" ;;
               Return (VDict [("filename", filename); ("value", value)]))
            with Return record => record | Raise _ => VDict [] end = VDict []).
    { unfold dict_getitem.
      destruct (dict_lookup key d) as [v|] eqn:Hv; [|reflexivity]. cbn [obind].
      destruct v as [| | | | | | |attrs]; try reflexivity. cbn [py_getattr].
      destruct (dict_lookup "filename" attrs) as [f|] eqn:Hf; [|reflexivity].
      destruct (dict_lookup "value" attrs) as [x|] eqn:Hx; [|reflexivity].
      destruct (Hbad attrs f x eq_refl Hf Hx). }
    rewrite Hfail. split; [reflexivity|].
    rewrite FileBox_run_entry. fold key. rewrite dict_lookup_set_same. reflexivity.
  - intros attrs filename value exts limit Hv Hf Hx Hexts Hlimit.
    unfold dict_getitem. rewrite Hv. cbn [obind py_getattr]. rewrite Hf, Hx.
    cbn [obind]. split; [reflexivity|].
    apply (FileBox_run_typed self _ _ _
             [("filename", VStr filename); ("value", value)] filename value exts limit);
      try assumption; try reflexivity.
    apply dict_lookup_set_same.
Qed.

Lemma adapt_then_validate_witness :
  let upload :=
    {| FileBox.base := {| BasicBox._id := "upload"; BasicBox._problem := "q1" |};
       FileBox._allowed_exts := VNone; FileBox._max_size := VNone |} in
  let d := [("q1/name", VStr "Ada")] in
  let adapted := snd (DisplayableFileBox.adapt_input_for_backend upload d) in
  adapted = [("q1/name", VStr "Ada"); ("q1/upload", VDict [])] /\
  FileBox.input_is_consistent (H := Reference.interpreter) upload
    (VList [VStr ".zip"]) (VInt 1000) adapted
  = (Return false, adapted).
Proof.
  intros upload d.
  refine (proj1 (adapt_then_validate (H := Reference.interpreter) upload
                   (VList [VStr ".zip"]) (VInt 1000) d) _).
  intros attrs filename value Hv. discriminate Hv.
Defined.

(** ** Parsing of the task definition *)

(** X30. [parse_problem] returns exactly when the host's parser returns
    a definition that has a ["boxes"] field on which the JSON decoder
    succeeds, and the result is that definition with the decoded value in
    the field.  An exception of the host's parser comes out as it is, not
    rewritten; a definition without the field gives [Invalid JSON in
    boxes content], as a decoder failure does. *)
Theorem parse_problem_outcomes `{Interpreter} `{Host} (problem_content : pydict) :
  (forall result,
     CustomProblem.parse_problem problem_content = Return result
     <-> exists parsed raw decoded,
           Problem_parse_problem problem_content = Return parsed /\
           dict_lookup "boxes" parsed = Some raw /\
           json_loads raw = Return decoded /\
           result = dict_set "boxes" decoded parsed)
  /\
  (forall e,
     Problem_parse_problem problem_content = Raise e ->
     CustomProblem.parse_problem problem_content = Raise e)
  /\
  (forall parsed,
     Problem_parse_problem problem_content = Return parsed ->
     dict_lookup "boxes" parsed = None ->
     CustomProblem.parse_problem problem_content
     = Raise (PyException "Invalid JSON in boxes content")).
Proof.
  unfold CustomProblem.parse_problem. split; [|split].
  - intros result. split.
    + destruct (Problem_parse_problem problem_content) as [parsed|]; [|discriminate].
      cbn [obind]. unfold dict_getitem.
      destruct (dict_lookup "boxes" parsed) as [raw|] eqn:Hraw; [|discriminate].
      cbn [obind].
      destruct (json_loads raw) as [decoded|] eqn:Hloads; [|discriminate].
      intros [= <-]. exists parsed, raw, decoded. auto.
    + intros (parsed & raw & decoded & Hparsed & Hraw & Hloads & ->).
      rewrite Hparsed. cbn [obind]. unfold dict_getitem. rewrite Hraw.
      cbn [obind]. now rewrite Hloads.
  - intros e ->. reflexivity.
  - intros parsed Hparsed Hnone. rewrite Hparsed. cbn [obind].
    unfold dict_getitem. rewrite Hnone. reflexivity.
Qed.

Lemma parse_problem_outcomes_witness :
  CustomProblem.parse_problem (H := Reference.interpreter) (H0 := Reference.host)
    [("name", VStr "Question 1")]
  = Raise (PyException "Invalid JSON in boxes content").
Proof.
  exact (proj2 (proj2 (parse_problem_outcomes (H := Reference.interpreter)
                         (H0 := Reference.host) [("name", VStr "Question 1")]))
           [("name", VStr "Question 1")] eq_refl eq_refl).
Defined.

(** ** The reference JSON codec *)

Import Reference.

(** One escaped character decodes to the character. *)
Lemma escape_char_decode (c : ascii) (rest acc : list ascii) :
  decode_str (escape_char c ++ rest)%list acc = decode_str rest (c :: acc).
Proof.
  destruct c as [[] [] [] [] [] [] [] []]; reflexivity.
Qed.

Lemma decode_str_escaped (cs rest acc : list ascii) :
  decode_str (flat_map escape_char cs ++ dquote :: rest)%list acc
  = Some (string_of_list_ascii (rev acc ++ cs)%list, rest).
Proof.
  revert acc. induction cs as [|c cs IH]; intros acc.
  - cbn. now rewrite app_nil_r.
  - cbn [flat_map]. rewrite <- app_assoc, escape_char_decode, IH.
    cbn [rev]. now rewrite <- app_assoc.
Qed.

Lemma decode_str_encode (s : string) (rest : list ascii) :
  decode_str (tl (encode_str s) ++ rest)%list [] = Some (s, rest).
Proof.
  unfold encode_str. cbn [tl]. rewrite <- app_assoc. cbn [app].
  rewrite decode_str_escaped. cbn [rev app].
  now rewrite string_of_list_ascii_of_string.
Qed.

Lemma span_digits_app (ds rest : list ascii) :
  forallb is_digit ds = true -> no_digit_ahead rest ->
  span_digits (ds ++ rest)%list = (ds, rest).
Proof.
  intros Hds Hrest. induction ds as [|c ds IH]; cbn [app span_digits forallb] in *.
  - destruct rest as [|c rest]; [reflexivity|].
    cbn [span_digits no_digit_ahead] in *. now rewrite Hrest.
  - apply andb_prop in Hds as [Hc Hds]. now rewrite Hc, IH.
Qed.

Lemma uint_chars_are_digits (d : Decimal.uint) :
  forallb is_digit (list_ascii_of_string (NilEmpty.string_of_uint d)) = true.
Proof. induction d; cbn; auto. Qed.

Lemma uint_chars_nonempty (d : Decimal.uint) :
  d <> Decimal.Nil -> list_ascii_of_string (NilEmpty.string_of_uint d) <> [].
Proof. destruct d; [congruence | discriminate..]. Qed.

Lemma to_int_digits (z : Z) :
  match Z.to_int z with
  | Decimal.Pos d | Decimal.Neg d => d <> Decimal.Nil
  end.
Proof.
  destruct z; cbn; [discriminate | apply Unsigned.to_uint_nonnil..].
Qed.

(** The digits of a number do not start with a zero that another digit
    follows. *)
Lemma to_uint_no_leading_zero (p : positive) (d : Decimal.uint) :
  Pos.to_uint p = Decimal.D0 d -> False.
Proof.
  intros Hp.
  assert (Hnorm : Decimal.unorm (Pos.to_uint p) = Pos.to_uint p).
  { rewrite <- (Unsigned.to_of (Pos.to_uint p)), Unsigned.of_to. reflexivity. }
  rewrite Hp, DecimalFacts.unorm_D0 in Hnorm.
  destruct d as [|d|d|d|d|d|d|d|d|d|d];
    [exact (Unsigned.to_uint_nonzero p Hp)|..];
    match type of Hnorm with
    | Decimal.unorm ?u = _ =>
        assert (Hu : u <> Decimal.Nil) by discriminate;
        pose proof (DecimalFacts.nb_digits_unorm u Hu) as Hlen
    end;
    rewrite Hnorm in Hlen; cbn in Hlen; lia.
Qed.

Lemma to_int_no_leading_zero (z : Z) (c : ascii) (ds : list ascii) :
  match Z.to_int z with
  | Decimal.Pos d | Decimal.Neg d =>
      list_ascii_of_string (NilEmpty.string_of_uint d) = ("0"%char :: c :: ds)%list ->
      False
  end.
Proof.
  destruct z as [|p|p]; cbn; [discriminate| |];
    destruct (Pos.to_uint p) as [|d|d|d|d|d|d|d|d|d|d] eqn:Hp; cbn;
    try discriminate; intros _; exact (to_uint_no_leading_zero p d Hp).
Qed.

Lemma leading_zero_match {A : Type} (c : ascii) (ds : list ascii) (x y : A) :
  (c = "0"%char -> ds = []) ->
  match c with
  | "0"%char => match ds with [] => x | _ :: _ => y end
  | _ => x
  end = x.
Proof.
  intros Hlead. destruct c as [[] [] [] [] [] [] [] []]; try reflexivity.
  now rewrite (Hlead eq_refl).
Qed.

Lemma decode_int_encode (z : Z) (rest : list ascii) :
  no_digit_ahead rest ->
  decode_int (encode_int z ++ rest)%list = Some (VInt z, rest).
Proof.
  intros Hrest. unfold encode_int, decode_int.
  pose proof (to_int_digits z) as Hnonnil. pose proof (DecimalZ.of_to z) as Hz.
  assert (Hzero : forall c ds,
    match Z.to_int z with
    | Decimal.Pos d | Decimal.Neg d =>
        list_ascii_of_string (NilEmpty.string_of_uint d) = (c :: ds)%list ->
        c = "0"%char -> ds = []
    end).
  { intros c ds. pose proof (fun c' ds' => to_int_no_leading_zero z c' ds') as Hlead.
    destruct (Z.to_int z) as [d|d]; intros E ->;
      (destruct ds as [|c' ds']; [reflexivity | destruct (Hlead c' ds' E)]). }
  destruct (Z.to_int z) as [d|d].
  - pose proof (uint_chars_are_digits d) as Hds.
    pose proof (uint_chars_nonempty d Hnonnil) as Hne.
    destruct (list_ascii_of_string (NilEmpty.string_of_uint d)) as [|c ds] eqn:E;
      [congruence|].
    assert (Hc : is_digit c = true) by (cbn in Hds; now apply andb_prop in Hds).
    replace (match ((c :: ds) ++ rest)%list with
             | "-"%char :: l' => (true, l')
             | _ => (false, ((c :: ds) ++ rest)%list)
             end) with (false, ((c :: ds) ++ rest)%list).
    2:{ destruct c as [[] [] [] [] [] [] [] []]; try reflexivity; discriminate Hc. }
    rewrite (span_digits_app _ _ Hds Hrest).
    rewrite (leading_zero_match c ds _ _ (Hzero c ds eq_refl)), <- E.
    rewrite string_of_list_ascii_of_string, NilEmpty.usu, Hz. reflexivity.
  - pose proof (uint_chars_are_digits d) as Hds.
    pose proof (uint_chars_nonempty d Hnonnil) as Hne.
    cbn [app]. rewrite (span_digits_app _ _ Hds Hrest).
    destruct (list_ascii_of_string (NilEmpty.string_of_uint d)) as [|c ds] eqn:E;
      [congruence|].
    rewrite (leading_zero_match c ds _ _ (Hzero c ds eq_refl)), <- E.
    rewrite string_of_list_ascii_of_string, NilEmpty.usu, Hz. reflexivity.
Qed.

Lemma digit_starts_value (c : ascii) :
  is_digit c = true ->
  is_json_space c = false /\ Ascii.eqb c "]"%char = false
  /\ Ascii.eqb c "}"%char = false /\ Ascii.eqb c "{"%char = false
  /\ Ascii.eqb c "["%char = false /\ Ascii.eqb c dquote = false.
Proof.
  destruct c as [[] [] [] [] [] [] [] []]; intros Hc; try discriminate Hc;
    repeat split.
Qed.

Lemma encode_int_head (z : Z) :
  exists c ds, encode_int z = c :: ds /\ (is_digit c = true \/ c = "-"%char).
Proof.
  unfold encode_int. pose proof (to_int_digits z) as Hnonnil.
  destruct (Z.to_int z) as [d|d].
  - pose proof (uint_chars_are_digits d) as Hds.
    pose proof (uint_chars_nonempty d Hnonnil) as Hne.
    destruct (list_ascii_of_string (NilEmpty.string_of_uint d)) as [|c ds];
      [congruence|].
    exists c, ds. split; [reflexivity|]. left.
    cbn [forallb] in Hds. now apply andb_prop in Hds.
  - eexists _, _. split; [reflexivity|]. now right.
Qed.

Lemma encode_starts_value (v : pyval) (enc : list ascii) :
  encode v = Return enc -> starts_value enc.
Proof.
  destruct v as [|b|z|s|bs|l|d|attrs]; cbn [encode]; try discriminate.
  - intros [= <-]. repeat split.
  - intros [= <-]. destruct b; repeat split.
  - intros [= <-]. destruct (encode_int_head z) as (c & ds & -> & [Hc| ->]).
    + cbn. destruct (digit_starts_value c Hc) as (H1 & H2 & H3 & _). auto.
    + repeat split.
  - intros [= <-]. repeat split.
  - destruct (encode_items encode l); cbn [obind]; [|discriminate].
    intros [= <-]. repeat split.
  - destruct (encode_members encode d); cbn [obind]; [|discriminate].
    intros [= <-]. repeat split.
Qed.

Lemma skip_space_value (l rest : list ascii) :
  starts_value l -> skip_space (l ++ rest)%list = (l ++ rest)%list.
Proof.
  destruct l as [|c l]; [intros []|]. intros (Hc & _).
  unfold skip_space. cbn [app drop_while]. now rewrite Hc.
Qed.

Lemma decode_blank (fuel : nat) (l : list ascii) :
  decode fuel (" "%char :: l) = decode fuel l.
Proof. destruct fuel; reflexivity. Qed.

Lemma decode_items_blank (fuel : nat) (l : list ascii) (acc : list pyval) :
  decode_items fuel (" "%char :: l) acc = decode_items fuel l acc.
Proof. destruct fuel; [reflexivity|]. cbn [decode_items]. now rewrite decode_blank. Qed.

Lemma decode_members_blank (fuel : nat) (l : list ascii) (acc : pydict) :
  decode_members fuel (" "%char :: l) acc = decode_members fuel l acc.
Proof. destruct fuel; reflexivity. Qed.

Lemma dict_set_fresh (k : string) (v : pyval) (d : pydict) :
  dict_mem k d = false -> dict_set k v d = (d ++ [(k, v)])%list.
Proof.
  induction d as [|[k' v'] d IH]; cbn; [reflexivity|].
  destruct (String.eqb k k'); [discriminate|]. intros H. now rewrite IH.
Qed.

Lemma dict_mem_app (k : string) (a b : pydict) :
  dict_mem k (a ++ b)%list = dict_mem k a || dict_mem k b.
Proof.
  induction a as [|[k' v'] a IH]; cbn; [reflexivity|].
  destruct (String.eqb k k'); [reflexivity | exact IH].
Qed.

Lemma skip_space_cons (c : ascii) (l : list ascii) :
  is_json_space c = false -> skip_space (c :: l) = c :: l.
Proof. intros Hc. unfold skip_space. cbn [drop_while]. now rewrite Hc. Qed.

Section Sequences.

Variable F : nat.

Hypothesis decode_value :
  forall fuel v enc rest,
    (fuel < F)%nat -> (fuel_of v <= fuel)%nat -> json_value v = true ->
    encode v = Return enc -> no_digit_ahead rest ->
    decode fuel (enc ++ rest)%list = Some (v, rest).

Lemma decode_items_encode (xs : list pyval) :
  forall fuel enc rest acc,
    xs <> [] -> (fuel <= F)%nat -> (items_fuel xs <= fuel)%nat ->
    forallb json_value xs = true ->
    encode_items encode xs = Return enc ->
    decode_items fuel (enc ++ "]"%char :: rest)%list acc
    = Some (VList (rev acc ++ xs)%list, rest).
Proof.
  induction xs as [|x xs IH]; intros fuel enc rest acc Hne HF Hfuel Hjson Henc;
    [congruence|].
  change (items_fuel (x :: xs)) with (S (fuel_of x + items_fuel xs)) in Hfuel.
  destruct fuel as [|fuel]; [lia|].
  cbn [forallb] in Hjson. apply andb_prop in Hjson as [Hx Hxs].
  cbn [encode_items] in Henc.
  destruct (encode x) as [e|] eqn:He; cbn [obind] in Henc; [|discriminate].
  cbn [decode_items].
  destruct xs as [|y ys].
  - injection Henc as <-.
    rewrite (decode_value fuel x e ("]"%char :: rest))
      by first [assumption | lia | reflexivity].
    rewrite skip_space_cons by reflexivity. reflexivity.
  - destruct (encode_items encode (y :: ys)) as [r|] eqn:Hr; cbn [obind] in Henc;
      [|discriminate].
    injection Henc as <-. rewrite <- !app_assoc. cbn [app].
    rewrite (decode_value fuel x e
               (","%char :: " "%char :: r ++ "]"%char :: rest)%list)
      by first [assumption | lia | reflexivity].
    rewrite skip_space_cons by reflexivity. cbv beta iota.
    rewrite decode_items_blank.
    rewrite (IH fuel r rest (x :: acc))
      by first [assumption | lia | discriminate | reflexivity].
    cbn [rev]. now rewrite <- app_assoc.
Qed.

Lemma decode_members_encode (d : pydict) :
  forall fuel enc rest acc,
    d <> [] -> (fuel <= F)%nat -> (members_fuel d <= fuel)%nat ->
    keys_distinct d = true ->
    (forall k, dict_mem k d = true -> dict_mem k acc = false) ->
    forallb (fun kv => json_value (snd kv)) d = true ->
    encode_members encode d = Return enc ->
    decode_members fuel (enc ++ "}"%char :: rest)%list acc
    = Some (VDict (acc ++ d)%list, rest).
Proof.
  induction d as [|[k x] d IH];
    intros fuel enc rest acc Hne HF Hfuel Hkeys Hfresh Hjson Henc; [congruence|].
  change (members_fuel ((k, x) :: d)) with (S (fuel_of x + members_fuel d))
    in Hfuel.
  destruct fuel as [|fuel]; [lia|].
  cbn [forallb snd] in Hjson. apply andb_prop in Hjson as [Hx Hxs].
  cbn [keys_distinct] in Hkeys. apply andb_prop in Hkeys as [Hk Hkeys].
  apply negb_true_iff in Hk.
  assert (Hacc : dict_mem k acc = false).
  { apply Hfresh. cbn. now rewrite String.eqb_refl. }
  assert (Hfresh' : forall k', dict_mem k' d = true ->
                               dict_mem k' (acc ++ [(k, x)])%list = false).
  { intros k' Hk'. rewrite dict_mem_app. cbn.
    destruct (String.eqb_spec k' k) as [->|Hne']; [congruence|].
    rewrite orb_false_r. apply Hfresh. cbn.
    destruct (String.eqb k' k); [reflexivity | exact Hk']. }
  cbn [encode_members] in Henc.
  destruct (encode x) as [e|] eqn:He; cbn [obind] in Henc; [|discriminate].
  assert (Hkey : forall tail f,
    decode_members (S f)
      (dquote :: flat_map escape_char (list_ascii_of_string k)
              ++ dquote :: ":"%char :: " "%char :: e ++ tail)%list acc
    = match decode f (e ++ tail)%list with
      | Some (x, r3) =>
          match skip_space r3 with
          | ","%char :: r4 => decode_members f r4 (dict_set k x acc)
          | "}"%char :: r4 => Some (VDict (dict_set k x acc), r4)
          | _ => None
          end
      | None => None
      end).
  { intros tail f. cbn [decode_members].
    rewrite skip_space_cons by reflexivity.
    change (Ascii.eqb dquote dquote) with true. cbv beta iota.
    rewrite decode_str_escaped.
    cbn [rev app]. rewrite string_of_list_ascii_of_string.
    rewrite skip_space_cons by reflexivity.
    cbv beta iota. now rewrite decode_blank. }
  destruct d as [|[k' y] ys].
  - injection Henc as <-.
    repeat (progress (rewrite <- ?app_assoc; cbn [app])).
    rewrite Hkey.
    rewrite (decode_value fuel x e ("}"%char :: rest))
      by first [assumption | lia | reflexivity].
    rewrite skip_space_cons by reflexivity. cbv beta iota.
    now rewrite (dict_set_fresh _ _ _ Hacc).
  - destruct (encode_members encode ((k', y) :: ys)) as [r|] eqn:Hr;
      cbn [obind] in Henc; [|discriminate].
    injection Henc as <-.
    repeat (progress (rewrite <- ?app_assoc; cbn [app])).
    rewrite Hkey.
    rewrite (decode_value fuel x e
               (","%char :: " "%char :: r ++ "}"%char :: rest)%list)
      by first [assumption | lia | reflexivity].
    rewrite skip_space_cons by reflexivity. cbv beta iota.
    rewrite decode_members_blank, (dict_set_fresh _ _ _ Hacc).
    rewrite (IH fuel r rest (acc ++ [(k, x)])%list)
      by first [assumption | lia | discriminate | reflexivity].
    now rewrite <- app_assoc.
Qed.

End Sequences.

Lemma minus_starts_int (c : ascii) :
  is_digit c = true \/ c = "-"%char ->
  is_json_space c = false /\ Ascii.eqb c "{"%char = false
  /\ Ascii.eqb c "["%char = false /\ Ascii.eqb c dquote = false
  /\ is_digit c || Ascii.eqb c "-"%char = true.
Proof.
  intros [Hc | ->]; [|repeat split].
  destruct (digit_starts_value c Hc) as (H1 & _ & _ & H4 & H5 & H6).
  rewrite Hc. auto.
Qed.

(** Decoding the text of a value gives the value back, with what followed
    the text. *)
Lemma decode_encode (fuel : nat) :
  forall v enc rest,
    (fuel_of v <= fuel)%nat -> json_value v = true ->
    encode v = Return enc -> no_digit_ahead rest ->
    decode fuel (enc ++ rest)%list = Some (v, rest).
Proof.
  induction fuel as [fuel IH] using lt_wf_ind.
  intros v enc rest Hfuel Hjson Henc Hrest.
  assert (Hvalue : forall f x e r,
    (f < fuel)%nat -> (fuel_of x <= f)%nat -> json_value x = true ->
    encode x = Return e -> no_digit_ahead r ->
    decode f (e ++ r)%list = Some (x, r)).
  { intros f x e r Hf. now apply IH. }
  destruct fuel as [|fuel]; [destruct v; cbn in Hfuel; lia|].
  destruct v as [|b|z|s|bs|l|d|attrs]; cbn [encode] in Henc; try discriminate.
  - injection Henc as <-. reflexivity.
  - injection Henc as <-. destruct b; reflexivity.
  - injection Henc as <-.
    destruct (encode_int_head z) as (c & ds & Hhead & Hc).
    pose proof (decode_int_encode z rest Hrest) as Hint.
    rewrite Hhead in *. cbn [app decode] in *.
    destruct (minus_starts_int c Hc) as (H1 & H2 & H3 & H4 & H5).
    rewrite skip_space_cons by exact H1. now rewrite H2, H3, H4, H5.
  - injection Henc as <-. cbn [decode]. unfold encode_str. cbn [app].
    rewrite skip_space_cons by reflexivity.
    change (Ascii.eqb dquote "{"%char) with false.
    change (Ascii.eqb dquote "["%char) with false.
    change (Ascii.eqb dquote dquote) with true. cbv beta iota.
    rewrite <- app_assoc. cbn [app]. rewrite decode_str_escaped.
    cbn [rev app]. now rewrite string_of_list_ascii_of_string.
  - destruct (encode_items encode l) as [r|] eqn:Hr; cbn [obind] in Henc;
      [|discriminate].
    injection Henc as <-. cbn [app decode].
    rewrite skip_space_cons by reflexivity. cbv beta iota.
    change (Ascii.eqb "["%char "{"%char) with false.
    change (Ascii.eqb "["%char "["%char) with true. cbv beta iota.
    destruct l as [|x xs].
    + injection Hr as <-. reflexivity.
    + assert (Hstart : starts_value r).
      { cbn [encode_items] in Hr.
        destruct (encode x) as [e|] eqn:He; cbn [obind] in Hr; [|discriminate].
        pose proof (encode_starts_value _ _ He) as Hs.
        destruct xs; [injection Hr as <-; exact Hs|].
        destruct (encode_items encode _); cbn [obind] in Hr; [|discriminate].
        injection Hr as <-. destruct e; [destruct Hs | exact Hs]. }
      rewrite <- app_assoc. cbn [app].
      rewrite (skip_space_value r _ Hstart).
      destruct r as [|c r']; [destruct Hstart|].
      destruct Hstart as (_ & Hclose & _). cbn [app]. rewrite Hclose.
      change (c :: r' ++ "]"%char :: rest)%list
        with ((c :: r') ++ "]"%char :: rest)%list.
      apply (decode_items_encode (S fuel) Hvalue (x :: xs));
        try assumption; try discriminate; try lia.
      cbn [fuel_of] in Hfuel. unfold items_fuel. lia.
  - destruct (encode_members encode d) as [r|] eqn:Hr; cbn [obind] in Henc;
      [|discriminate].
    injection Henc as <-. cbn [app decode].
    rewrite skip_space_cons by reflexivity. cbv beta iota.
    change (Ascii.eqb "{"%char "{"%char) with true. cbv beta iota.
    cbn [json_value] in Hjson. apply andb_prop in Hjson as [Hkeys Hjson].
    destruct d as [|[k x] d'].
    + injection Hr as <-. reflexivity.
    + assert (Hstart : exists r', r = dquote :: r').
      { cbn [encode_members] in Hr.
        destruct (encode x) as [e|]; cbn [obind] in Hr; [|discriminate].
        destruct d'; [injection Hr as <-; eexists; reflexivity|].
        destruct (encode_members encode _); cbn [obind] in Hr; [|discriminate].
        injection Hr as <-. eexists. reflexivity. }
      destruct Hstart as [r' ->].
      rewrite <- app_assoc. cbn [app].
      rewrite skip_space_cons by reflexivity.
      change (Ascii.eqb dquote "}"%char) with false. cbv beta iota.
      change (dquote :: r' ++ "}"%char :: rest)%list
        with ((dquote :: r') ++ "}"%char :: rest)%list.
      apply (decode_members_encode (S fuel) Hvalue ((k, x) :: d'));
        try assumption; try discriminate; try lia; [|reflexivity].
      cbn [fuel_of] in Hfuel. unfold members_fuel. lia.
Qed.

(** Every value of the codec has a text, long enough to pay for its own
    decoding. *)
Lemma encode_total (n : nat) :
  forall v, (fuel_of v <= n)%nat -> json_value v = true ->
            exists enc, encode v = Return enc /\ (fuel_of v <= List.length enc)%nat.
Proof.
  induction n as [|n IH]; intros v Hfuel Hjson; [destruct v; cbn in Hfuel; lia|].
  destruct v as [|b|z|s|bs|l|d|attrs]; cbn [json_value] in Hjson; try discriminate.
  - eexists. split; [reflexivity | cbn; lia].
  - eexists. split; [reflexivity | destruct b; cbn; lia].
  - eexists. split; [reflexivity|].
    destruct (encode_int_head z) as (c & ds & -> & _). cbn. lia.
  - eexists. split; [reflexivity | cbn; lia].
  - assert (Hitems : forall xs, (items_fuel xs <= n)%nat ->
      forallb json_value xs = true ->
      exists r, encode_items encode xs = Return r
                /\ (items_fuel xs <= List.length r + 1)%nat).
    { induction xs as [|x xs IHxs]; intros Hn Hall.
      - exists []. split; [reflexivity | cbn; lia].
      - change (items_fuel (x :: xs)) with (S (fuel_of x + items_fuel xs)) in *.
        cbn [forallb] in Hall. apply andb_prop in Hall as [Hx Hxs].
        destruct (IH x ltac:(lia) Hx) as (e & He & Hlen).
        destruct (IHxs ltac:(lia) Hxs) as (r & Hr & Hlenr).
        cbn [encode_items]. rewrite He. cbn [obind].
        destruct xs as [|y ys].
        + exists e. split; [reflexivity | cbn in *; lia].
        + rewrite Hr. cbn [obind]. eexists. split; [reflexivity|].
          rewrite !length_app. cbn [List.length sep]. lia. }
    cbn [fuel_of] in Hfuel. fold (items_fuel l) in Hfuel.
    destruct (Hitems l ltac:(lia) Hjson) as (r & Hr & Hlen).
    cbn [encode]. rewrite Hr. cbn [obind]. eexists. split; [reflexivity|].
    cbn [fuel_of List.length]. fold (items_fuel l). rewrite length_app.
    cbn [List.length]. lia.
  - apply andb_prop in Hjson as [_ Hjson].
    assert (Hmembers : forall xs, (members_fuel xs <= n)%nat ->
      forallb (fun kv => json_value (snd kv)) xs = true ->
      exists r, encode_members encode xs = Return r
                /\ (members_fuel xs <= List.length r + 1)%nat).
    { induction xs as [|[k x] xs IHxs]; intros Hn Hall.
      - exists []. split; [reflexivity | cbn; lia].
      - change (members_fuel ((k, x) :: xs))
          with (S (fuel_of x + members_fuel xs)) in *.
        cbn [forallb snd] in Hall. apply andb_prop in Hall as [Hx Hxs].
        destruct (IH x ltac:(lia) Hx) as (e & He & Hlen).
        destruct (IHxs ltac:(lia) Hxs) as (r & Hr & Hlenr).
        cbn [encode_members]. rewrite He. cbn [obind].
        destruct xs as [|y ys].
        + eexists. split; [reflexivity|].
          rewrite !length_app. cbn in *. lia.
        + rewrite Hr. cbn [obind]. eexists. split; [reflexivity|].
          rewrite !length_app. cbn [List.length sep colon]. lia. }
    cbn [fuel_of] in Hfuel. fold (members_fuel d) in Hfuel.
    destruct (Hmembers d ltac:(lia) Hjson) as (r & Hr & Hlen).
    cbn [encode]. rewrite Hr. cbn [obind]. eexists. split; [reflexivity|].
    cbn [fuel_of List.length]. fold (members_fuel d). rewrite length_app.
    cbn [List.length]. lia.
Qed.

(** The codec round-trips: the text of a value decodes to the value. *)
Theorem ref_json_roundtrip (v : pyval) :
  json_value v = true ->
  exists text, ref_json_dumps v = Return text
               /\ ref_json_loads (VStr text) = Return v.
Proof.
  intros Hjson.
  destruct (encode_total (fuel_of v) v (le_n _) Hjson) as (enc & Henc & Hlen).
  exists (string_of_list_ascii enc). unfold ref_json_dumps, ref_json_loads, decode_text.
  rewrite Henc. cbn [obind]. split; [reflexivity|].
  rewrite list_ascii_of_string_of_list_ascii.
  rewrite <- (app_nil_r enc) at 2.
  rewrite (decode_encode (S (List.length enc)) v enc [] ltac:(lia) Hjson Henc I).
  reflexivity.
Qed.


